(* ===== verification/_CoqProject ===== *)
-Q . S2P
Prelude.v
Models.v
Timezone.v
Samples.v
StatusSweep.v
ReminderDispatch.v
UpdateMatchStatuses.v
Stats.v
NumberFormat.v
Handlers.v
Urls.v
Calendar.v
Pages.v
Admin.v
