(* ===== verification/Prelude.v ===== *)
(** * A verification development of GENZE-ESPORTS (Django, [src/GENZE/core])

    The repository is a Django site for an esports organisation.  Its
    logic, apart from page rendering, is the match lifecycle and the
    reminder e-mails (two management commands run by a scheduler), the
    team statistics computed per page request (four views), and a few
    request handlers that write rows.  All of them read and write one
    relational store through the ORM.  This library models that store and
    those operations as pure Rocq functions over explicit state, and
    proves what they do.

    ** Parts of the program and the files that model them

    - [Prelude] (this file): the time base, Python's [x or d] on optional
      strings, ASCII case folding and the [icontains] / [iexact] lookups,
      counting over lists ([countb]), the hint database [genze] and the
      tactics shared by every file.
    - [Models]: the rows of [core/models.py] ([Game], [Tournament],
      [Team], [Player], [Match], [MatchReminder], [Reminder],
      [TournamentParticipant], [NewsArticle]) as records in one Module each, the status
      enumerations with the source's constructors, decidable equalities,
      the [Store] (one list per table, in primary-key order) and the
      foreign-key lookups the commands make ([match.tournament],
      [reminder.match]), and the two loops every command is built from: a
      [for] over a queryset whose body saves a row or raises
      ([for_each_save]), and the same with the lines the body prints
      ([for_each_logged]); an exception leaves the rows before it saved
      and the rest untouched, as Django's autocommit does.
    - [Timezone]: [pytz.timezone] as a partial lookup in a zone database,
      the fallback of [update_match_statuses.py] lines 19-23, and
      [datetime.astimezone] with Python's rule for comparing aware
      datetimes (same [tzinfo]: compare local wall time; otherwise compare
      UTC instants).
    - [Samples]: a concrete zone database and store on which every
      theorem with hypotheses is applied (its witness).
    - [StatusSweep]: phases 1 and 2 of
      [management/commands/update_match_statuses.py] ([upcoming -> live]
      and [live -> completed] with the 15-minute grace period), the
      per-match step relation of the status machine, and the invariants
      on [live_started_at] / [completed_at].
    - [ReminderDispatch]: phase 3 of the same command ([Reminder] rows,
      [sent] only on delivery success; a due reminder whose match lost a
      team raises out of the loop, because the [except] handler formats
      the match again) and
      [management/commands/send_due_reminders.py] ([MatchReminder] rows,
      [sent] set whatever the delivery outcome).  The mail transport is a
      function argument telling which deliveries succeed.
    - [UpdateMatchStatuses]: the whole [Command.handle] of
      [update_match_statuses.py], the three phases in the order the code
      runs them, each reading the clock once; an exception of phase 1
      skips phase 3.  The Celery task of [tasks.py] is one call of it,
      and the scheduler that keeps running the task is a step relation
      ([run_step]: each run reads its clocks at least a period after the
      previous one, with any mail transport).
    - [Stats]: the statistics of [views.py]: [team_detail] and
      [team_tournaments] (per-team counts), the annotations of
      [teams_page] and [overall_match_stats] with the SQL semantics of two
      [Count]s over two multi-valued joins, [points], the ranking
      [order_by('-points', '-wins', 'name')] through Stdlib's merge sort,
      [win_rate], and the 24-hour [points_delta] dictionary as a stdpp
      [gmap].  The [team_detail] page itself (its 404, the next five
      upcoming matches and the last five results) and the
      [next_match_date] subquery of [teams_page] are in [Pages].
    - [NumberFormat]: the template filters [k_format] and [mul] of
      [templatetags/number_format.py], with CPython's [int()] on strings,
      [str()] on integers, the correctly rounded division [value / 1000]
      (and its [OverflowError]) and the [.1f] formatting of a double.
    - [Handlers]: the views that write rows ([create_reminder],
      [delete_reminder], [register_page], [tournament_register]) in a
      small state-and-exception monad over the [Store] (each [create]
      commits at once, so rows written before an exception stay), with
      [get_object_or_404], the database's [CHECK] and [unique_together]
      constraints, and [redirect] through [reverse] on the route
      names of [core/urls.py] ([urlpatterns]).  Its theorems compose [create_reminder] with phase 3
      of [ReminderDispatch].
    - [Calendar]: [calendar_view] and [schedule_page], with dates as
      CPython's proleptic Gregorian ordinals ([_ymd2ord], [_ord2ymd], the
      checks of [date()]), the date of an instant at the current time
      zone's offset, [order_by] as stdpp's merge sort, the [OrderedDict]
      grouping, and the countdown through the exact double of
      [total_seconds()].
    - [Pages]: the read-only views [home_page], [news_page] (with
      Django's [Paginator.get_page]), [tournaments_page] (filters, sort
      and totals), the live [results_page] of line 449 (the one of line
      362 is shadowed), [tournament_detail_page], [news_detail] and
      [team_detail_page], each as the context it renders, the
      [next_match_date] subquery of [teams_page], and the admin columns
      [Tournament.start_time] / [end_time] of [models.py].
    - [Admin]: [admin.py]: the eight [ModelAdmin]s as data, the registry
      of lines 5-9, and the changelist they drive in Django: the search
      box ([smart_split] with quoted phrases, [unescape_string_literal],
      [get_search_results] with one [icontains] per search field and bit)
      and the ordering made deterministic by a descending primary key.
    - [Urls]: dispatch of a request path through [urlpatterns] as
      Django's resolver does it: routes tried in order, the whole path
      matched, [<int:...>] as [[0-9]+] converted with [int()].

    ** What the theorems show (by group)

    - Timezone: the [upcoming -> live] test does not depend on the zone:
      converting both instants to any zone and comparing them with
      Python's rule is comparing the instants.
    - StatusSweep: one sweep moves every due upcoming match to live with
      [live_started_at] stamped, completes every live scored match without
      a stream link, defers one with a link until the start is more than
      15 minutes old; it never moves a status backwards, never touches
      rows it does not select, preserves the timestamp invariants and is
      idempotent at a fixed clock.  A match can go from upcoming to
      completed within one run of the command.  Statuses change only
      finitely often: whatever the clocks read, a chain of sweeps that
      each change some status has at most two per match (termination,
      by the measure of the status steps still open).
    - UpdateMatchStatuses (liveness): under the scheduler, every scored
      match of a store whose upcoming matches have a tournament with a
      resolvable zone is eventually completed ([eventually], an
      inductive over the runs), whatever the transports answer.
    - ReminderDispatch: a due unsent [Reminder] gets one delivery attempt;
      on success it is marked sent and never attempted again; on failure
      it stays unsent.  Over two consecutive runs (of phase 3 or of the
      whole command), with any clocks and transports and either run
      possibly ended by an exception, a reminder is reported delivered at
      most once.  [send_due_reminders] marks every due
      [MatchReminder] sent, delivered or not (a divergence from the spec,
      recorded as a finding).
    - Stats: [wins + losses <= matches_played], [championships <= wins],
      [win_rate] is 0 with no match played and lies in [0, 100]; the
      join annotations of [teams_page] multiply each side's count by the
      number of rows of the other side, so they differ from
      [team_detail]'s counts (a finding); the ranking is a sorted
      permutation; [points_delta] is three times the number of recent
      wins.
    - NumberFormat: [k_format] prints a nearest tenth of [v / 1000] for
      every [1000 <= v < 2^50] despite the two roundings; the filters
      treat an integer and its decimal string alike ([int(str(z)) = z]);
      concrete outputs next to the docstring's examples; every argument
      [int()] rejects passes through [k_format] and makes [mul] give
      [''], and every non-multiple of 1000 from [1000 * 2^1024] on makes
      [k_format] raise [OverflowError].
    - Handlers: every handler keeps primary keys and participant pairs
      unique (a Hoare-style [grows] judgement over the monad, for any
      preorder on stores); [create_reminder] only appends unsent
      reminders, never deduplicates, and a reminder set after its send
      time is attempted by the next phase 3 (the spec's edge case);
      no request to [delete_reminder] touches the table
      [create_reminder] writes;
      a complete team registration creates one team and at most five
      players; a valid tournament registration always ends in a server
      error ([NoReverseMatch] after saving, or [IntegrityError]).
    - Calendar: a calendar page lists the 28 to 31 consecutive dates of
      its month and links to the adjacent months; its queryset selects
      matches by their date in the current zone but its day lists file
      them under [match_time.date()], the UTC date, so the days show,
      each once and in start order, the matches whose local and UTC dates
      both fall in the month, under the UTC date (with a non-UTC zone a
      match near midnight is misplaced or on no page: a finding, shown
      concretely at UTC+5:30); for every request, exactly a month outside 1..12, a year
      outside 1..9999 and December 9999 crash the view, while
      the default page (no parameters) never does before December 9999
      and shows today's month; [_ord2ymd] and [_ymd2ord] are inverse
      bijections between ordinals from 1 and valid dates (one 400-year
      cycle checked by evaluation, the rest by the 146097-day period); the
      schedule grid is the first six filtered matches grouped under
      increasing UTC dates, the sidebar at most five upcoming ones, and the
      countdown is exact for starts up to [2^50] microseconds away.
    - Pages: the home page's main article is a newest one and the others
      the six newest of the rest; the news page always shows a page
      between 1 and the page count, and its pages are together all the
      articles once; the tournaments page lists exactly the filtered
      tournaments in the order asked, and counts a missing game as one
      more game (a finding); the results page fails on any [?game=]
      (a finding) and otherwise lists exactly the matches asked for;
      [end_time] can miss a later finish (a finding); the team page is a
      404 exactly for an unknown team and otherwise shows its own
      statistics, its next (at most five) upcoming matches in start
      order and its latest (at most five) results; [next_match_date] is
      the earliest start, from now on, of a match of the team.
    - Admin: the team changelist raises [FieldError]
      on any search, because ['game'] is a foreign key (a finding); for
      the other admins the changelist holds exactly the rows matching
      every bit of the search, in the configured order.
    - Urls (round trip): every URL [reverse] builds for a route name and
      an integer argument dispatches back to a route of that name with
      that argument, because the routes have digit-free prefixes and the
      first route of each shape carries the name ([reverse], like
      Django, tries the last route of a name first); concrete paths show the
      converter taking [007] as 7 and rejecting [-1].

    ** Time, integers and bounds

    Instants are [Z] microseconds since the Unix epoch (Django's aware
    datetimes have microsecond resolution); [timedelta(minutes=m)] is
    [m * 60_000_000].  Scores and counts are [nat]
    ([PositiveIntegerField]); Python integers do not overflow, so no width
    is modelled; the one machine-width value is the binary64 double of
    [k_format], kept exact as a 53-bit mantissa and an exponent (the
    nearest-tenth theorem assumes [v < 2^50], where the double's error is
    below a thousandth; the countdown theorem assumes a start less than
    [2^50] microseconds away, where the double's error is below a
    microsecond).  The commands are loops over finite querysets: they are
    modelled by structural recursion over the table, so no fuel is needed.
    [timezone.now()] is read several times in one run of
    [update_match_statuses]; the model reads it once per phase (the
    readings of one phase are taken microseconds apart, and no theorem
    depends on them being equal across phases).

    ** Not modelled

    Templates (the views are modelled up to the context they render),
    the admin's change forms, sidebar filters and column sorting, the
    media route [static()] adds in DEBUG and [APPEND_SLASH] redirects, the
    contents of uploaded files (their names are kept), the e-mail
    bodies' [strftime] formatting (the subject and recipient of each
    e-mail are modelled), Celery itself (the task is one call of the
    command; the beat schedule is the step relation [run_step]), and the
    float arithmetic of [round(x, 1)] (the win rate is computed on
    rationals, rounded half to even to one decimal); float arguments of
    the template filters.
    The project settings are not in the repository: the current time
    zone is a fixed UTC offset and [date.today()] a parameter.
    The foreign keys of [models.py] are [on_delete=CASCADE], so the store
    has no dangling reference on any state the program reaches; where a
    theorem needs it (the reminder senders) it is the hypothesis
    [dispatch_refs_ok], and phases 1 and 2, which read the team names
    only to log them, are modelled without the raise a dangling team
    would cause.  CPython's 4300-digit limit on [int()] / [str()]
    conversions is not modelled. *)

From stdpp Require Export base list gmap strings.
From Stdlib Require Export String Ascii ZArith Lia Bool.
From Stdlib Require Import List Sorting.Sorted.

Declare Scope genze_scope.
Delimit Scope genze_scope with genze.
Open Scope genze_scope.

Create HintDb genze discriminated.
Create Rewrite HintDb genze_rw.

(** ** Time *)

(** An aware datetime, as the UTC instant it denotes, in microseconds. *)
Definition instant := Z.

(** [timedelta(minutes=m)] in microseconds. *)
Definition minutes (m : Z) : Z := m * 60000000.

(** ** Python truthiness on optional strings *)

(** [x or d] where [x] is a nullable [CharField]: [None] and [""] are
    falsy. *)
Definition py_or (x : option string) (d : string) : string :=
  match x with
  | Some s => if String.eqb s "" then d else s
  | None => d
  end.

Notation "x 'or_else' d" := (py_or x d) (at level 40) : genze_scope.

(** ** ASCII case folding and the case-insensitive lookups *)

Definition ascii_lower (c : ascii) : ascii :=
  let n := nat_of_ascii c in
  if (65 <=? n)%nat && (n <=? 90)%nat then ascii_of_nat (n + 32) else c.

Fixpoint lower (s : string) : string :=
  match s with
  | EmptyString => EmptyString
  | String c s' => String (ascii_lower c) (lower s')
  end.

(** [needle] occurs in [hay] (SQL [LIKE '%needle%']). *)
Fixpoint contains (needle hay : string) : bool :=
  String.prefix needle hay ||
  match hay with
  | EmptyString => false
  | String _ hay' => contains needle hay'
  end.

(** Django's [__icontains] and [__iexact]. *)
Definition icontains (hay needle : string) : bool := contains (lower needle) (lower hay).
Definition iexact (a b : string) : bool := String.eqb (lower a) (lower b).

(** ** Counting *)

(** [qs.filter(p).count()] on a list of rows. *)
Definition countb {A} (p : A -> bool) (l : list A) : nat := length (List.filter p l).

Section Counting.
Context {A : Type}.
Implicit Types (p q : A -> bool) (l : list A).

Lemma countb_nil p : countb p [] = 0.
Proof. reflexivity. Qed.

Lemma countb_cons p x l :
  countb p (x :: l) = (if p x then 1 else 0) + countb p l.
Proof. unfold countb; simpl; destruct (p x); reflexivity. Qed.

Lemma countb_app p l1 l2 : countb p (l1 ++ l2) = countb p l1 + countb p l2.
Proof. unfold countb. rewrite List.filter_app, length_app. reflexivity. Qed.

Lemma countb_le_length p l : countb p l <= length l.
Proof. induction l as [|x l IH]; [done|]. rewrite countb_cons; simpl; destruct (p x); lia. Qed.

(** Counting is monotone in the predicate. *)
Lemma countb_mono p q l :
  (forall x, In x l -> p x = true -> q x = true) -> countb p l <= countb q l.
Proof.
  induction l as [|x l IH]; intros H; [done|]. rewrite !countb_cons.
  specialize (IH (fun y Hy => H y (or_intror Hy))).
  destruct (p x) eqn:Hp; [rewrite (H x (or_introl eq_refl) Hp)|destruct (q x)]; lia.
Qed.

Lemma countb_ext p q l :
  (forall x, In x l -> p x = q x) -> countb p l = countb q l.
Proof.
  induction l as [|x l IH]; intros H; [done|]. rewrite !countb_cons, H by (left; done).
  rewrite IH; [done|]. intros y Hy. apply H. by right.
Qed.

(** Two disjoint predicates count at most what their disjunction counts. *)
Lemma countb_disjoint_add p q l :
  (forall x, In x l -> p x = true -> q x = false) ->
  countb p l + countb q l = countb (fun x => p x || q x) l.
Proof.
  induction l as [|x l IH]; intros H; [done|]. rewrite !countb_cons.
  specialize (IH (fun y Hy => H y (or_intror Hy))).
  destruct (p x) eqn:Hp; [rewrite (H x (or_introl eq_refl) Hp)|]; simpl;
    destruct (q x); lia.
Qed.

(** Counting splits on any second predicate. *)
Lemma countb_split p q l :
  countb p l = countb (fun x => p x && q x) l + countb (fun x => p x && negb (q x)) l.
Proof.
  induction l as [|x l IH]; [done|]. rewrite !countb_cons, IH.
  destruct (p x), (q x); simpl; lia.
Qed.

Lemma countb_false l : countb (fun _ => false) l = 0.
Proof. by induction l. Qed.

Lemma countb_true l : countb (fun _ => true) l = length l.
Proof. induction l as [|x l IH]; [done|]. rewrite countb_cons; simpl; lia. Qed.
End Counting.

#[export] Hint Resolve countb_le_length : genze.

(** ** Lists related pointwise *)

Lemma Forall2_map_r {A B C} (R : A -> B -> Prop) (R' : A -> C -> Prop) (g : B -> C) l1 l2 :
  Forall2 R l1 l2 -> (forall a b, R a b -> R' a (g b)) -> Forall2 R' l1 (List.map g l2).
Proof. induction 1; simpl; constructor; auto. Qed.

(** The image of a row under a per-row rewrite, named by its value. *)
(** [Sorted] under a weaker relation. *)
Lemma Sorted_weaken {A} (R R' : A -> A -> Prop) l :
  (forall a b, R a b -> R' a b) -> Sorted R l -> Sorted R' l.
Proof. intros H. induction 1 as [|a l Hs IH Hd]; constructor; [done|]. destruct Hd; constructor; auto. Qed.

Lemma in_map_eq {A B} (f : A -> B) (a : A) (b : B) l :
  In a l -> f a = b -> In b (List.map f l).
Proof. intros Hin <-. by apply in_map. Qed.

Lemma In_firstn {A} (x : A) n l : In x (firstn n l) -> In x l.
Proof. intros H. rewrite <- (firstn_skipn n l). apply in_or_app. by left. Qed.

(** A property carried along a pointwise relation. *)
Lemma Forall2_transport {A B} (R : A -> B -> Prop) (P : A -> Prop) (Q : B -> Prop) l1 l2 :
  Forall2 R l1 l2 -> (forall a b, R a b -> P a -> Q b) -> Forall P l1 -> Forall Q l2.
Proof. induction 1; intros HPQ HP; inversion HP; subst; constructor; eauto. Qed.

Lemma StronglySorted_filter {A} (R : A -> A -> Prop) (p : A -> bool) l :
  StronglySorted R l -> StronglySorted R (List.filter p l).
Proof.
  induction 1 as [|x l _ IH Hx]; simpl; [constructor|]. destruct (p x); [|done].
  constructor; [done|]. rewrite Forall_forall in *. intros y (Hy & _)%filter_In. by apply Hx.
Qed.

Lemma filter_all {A} (p : A -> bool) l : Forall (fun x => p x = true) l -> List.filter p l = l.
Proof. induction 1 as [|x l Hx _ IH]; simpl; [done|]. by rewrite Hx, IH. Qed.

Lemma StronglySorted_firstn {A} (R : A -> A -> Prop) n l :
  StronglySorted R l -> StronglySorted R (firstn n l).
Proof.
  revert l. induction n as [|n IH]; intros [|x l] Hs; simpl; try constructor.
  - inversion Hs; subst. by apply IH.
  - inversion Hs as [|? ? _ Hx]; subst. rewrite Forall_forall in *. intros y Hy. apply Hx. by apply In_firstn in Hy.
Qed.

Lemma StronglySorted_weaken {A} (R R' : A -> A -> Prop) l :
  (forall a b, R a b -> R' a b) -> StronglySorted R l -> StronglySorted R' l.
Proof.
  intros HR. induction 1 as [|x l _ IH Hx]; constructor; [done|].
  eapply Forall_impl; [|exact Hx]. auto.
Qed.

(** In a strongly sorted list, the first [n] elements are related to all
    the others. *)
Lemma StronglySorted_firstn_skipn {A} (R : A -> A -> Prop) n l x y :
  StronglySorted R l -> In x (firstn n l) -> In y (skipn n l) -> R x y.
Proof.
  revert l. induction n as [|n IH]; intros [|z l] Hs Hx Hy; simpl in *; try done.
  inversion Hs as [|? ? Hs' Hz]; subst. destruct Hx as [<-|Hx]; [|by eapply IH].
  rewrite Forall_forall in Hz. apply Hz. rewrite <- (firstn_skipn n l). apply in_or_app. by right.
Qed.

(** Filtering a rearrangement gives a rearrangement. *)
Lemma filter_filter_andb {A} (p q : A -> bool) l :
  List.filter p (List.filter q l) = List.filter (fun x => q x && p x) l.
Proof. induction l as [|x l IH]; simpl; [done|]. destruct (q x); simpl; [destruct (p x)|]; by rewrite ?IH. Qed.

Lemma Permutation_filter_b {A} (p : A -> bool) l l' :
  Permutation l l' -> Permutation (List.filter p l) (List.filter p l').
Proof.
  induction 1 as [|x l l' _ IH|x y l|l l' l'' _ IH1 _ IH2]; simpl.
  - constructor.
  - destruct (p x); [by constructor|done].
  - destruct (p x), (p y); try constructor; done.
  - by etrans.
Qed.

(** ** Progress of a transition system *)

(** [P] holds now, or the system can move and every move leads to a
    state from which [P] eventually holds. *)
Inductive eventually {S} (step : S -> S -> Prop) (P : S -> Prop) : S -> Prop :=
  | ev_now x : P x -> eventually step P x
  | ev_later x : (exists y, step x y) -> (forall y, step x y -> eventually step P y) -> eventually step P x.

#[export] Hint Rewrite @countb_nil @countb_cons @countb_app : genze_rw.

(** ** Tactics *)

(** Turn the boolean tests the models use into propositions. *)
Ltac genze_bool :=
  repeat match goal with
  | H : (_ && _)%bool = true |- _ => apply andb_true_iff in H as [? ?]
  | H : (_ || _)%bool = false |- _ => apply orb_false_iff in H as [? ?]
  | H : Z.leb _ _ = true |- _ => apply Z.leb_le in H
  | H : Z.leb _ _ = false |- _ => apply Z.leb_gt in H
  | H : Z.ltb _ _ = true |- _ => apply Z.ltb_lt in H
  | H : Z.ltb _ _ = false |- _ => apply Z.ltb_ge in H
  | H : Nat.ltb _ _ = true |- _ => apply Nat.ltb_lt in H
  | H : Nat.ltb _ _ = false |- _ => apply Nat.ltb_ge in H
  | H : String.eqb _ _ = true |- _ => apply String.eqb_eq in H
  end.

(** Case on every [if] of the goal, simplifying what each case learns. *)
Ltac genze_cases :=
  repeat match goal with
  | |- context [if ?b then _ else _] => destruct b eqn:?
  end; genze_bool; simplify_eq/=.
