(* ===== verification/Models.v ===== *)
(** * Models: the tables of [core/models.py]

    One Module per Django model, holding its row as a Record (fields in
    the source's order, with the source's names; file fields as the
    stored path), its [choices] as an Inductive with the source's values,
    and the partial writes [save(update_fields=[...])] the commands make.
    Nullable columns are [option]; [PositiveIntegerField] is [nat];
    [DecimalField(decimal_places=2)] is [Z] in hundredths; [DateField] is
    [Z] days since the epoch; [DateTimeField] is an [instant].  The
    [Store] holds one list per table, in primary-key order, which is the
    order in which a queryset without [order_by] is iterated here.  The
    file ends with the loops the commands are built from
    ([for_each_save], [for_each_logged]) and their lemmas. *)

From S2P Require Import Prelude.
From Stdlib Require Import List.
Import ListNotations.

Module Game.
Record t := mk { id : nat; name : string }.
End Game.

Module Tournament.
Inductive status_t := registration | live | completed | upcoming.

#[global] Instance status_eq_dec : EqDecision status_t.
Proof. solve_decision. Defined.

Record t := mk {
  id : nat;
  title : string;
  game : option nat;
  status : status_t;
  prize_pool : option Z;
  teams : option nat;
  start_date : Z;
  end_date : Z;
  location : string;
  registration_deadline : option Z;
  format : string;
  image : option string;
  featured : bool;
  timezone : option string
}.

(** The column default. *)
Definition default_timezone : string := "Asia/Kolkata".
End Tournament.

Module Team.
Inductive status_indicator_t := live | upcoming | none.

#[global] Instance status_indicator_eq_dec : EqDecision status_indicator_t.
Proof. solve_decision. Defined.

Record t := mk {
  id : nat;
  name : string;
  game : option nat;
  region : option string;
  founded : option nat;
  banner : option string;
  logo : option string;
  status_indicator : status_indicator_t;
  rank : option nat;
  tag : option string;
  description : option string
}.
End Team.

Module Player.
Record t := mk {
  id : nat;
  name : string;
  role : option string;
  email : string;
  discord : string;
  team : nat;
  is_substitute : bool;
  avatar : option string
}.
End Player.

Module Match.
Inductive status_t := upcoming | live | completed.

#[global] Instance status_eq_dec : EqDecision status_t.
Proof. solve_decision. Defined.

Record t := mk {
  id : nat;
  tournament : nat;
  team1 : nat;
  team2 : nat;
  match_time : instant;
  status : status_t;
  stage : string;
  team1_score : option nat;
  team2_score : option nat;
  game : option nat;
  viewer_count : nat;
  viewer_label : string;
  youtube_live_url : string;
  youtube_recap_url : string;
  current_round : option nat;
  total_rounds : option nat;
  live_started_at : option instant;
  completed_at : option instant;
  points_team1 : Z;
  points_team2 : Z
}.

(** [match.status = s; match.live_started_at = now;
     match.save(update_fields=['status', 'live_started_at'])] *)
Definition save_status_live_started_at (m : t) (s : status_t) (now : instant) : t :=
  mk (id m) (tournament m) (team1 m) (team2 m) (match_time m) s (stage m)
     (team1_score m) (team2_score m) (game m) (viewer_count m) (viewer_label m)
     (youtube_live_url m) (youtube_recap_url m) (current_round m) (total_rounds m)
     (Some now) (completed_at m) (points_team1 m) (points_team2 m).

(** [match.status = s; match.completed_at = now;
     match.save(update_fields=['status', 'completed_at'])] *)
Definition save_status_completed_at (m : t) (s : status_t) (now : instant) : t :=
  mk (id m) (tournament m) (team1 m) (team2 m) (match_time m) s (stage m)
     (team1_score m) (team2_score m) (game m) (viewer_count m) (viewer_label m)
     (youtube_live_url m) (youtube_recap_url m) (current_round m) (total_rounds m)
     (live_started_at m) (Some now) (points_team1 m) (points_team2 m).

(** Both scores entered ([team1_score__isnull=False, team2_score__isnull=False]). *)
Definition scored (m : t) : bool :=
  match team1_score m, team2_score m with
  | Some _, Some _ => true
  | _, _ => false
  end.
End Match.

Module MatchReminder.
Record t := mk {
  id : nat;
  match_ : nat;
  email : string;
  phone : string;
  notify_minutes_before : nat;
  created_at : instant;
  sent : bool;
  user : option nat
}.

(** [reminder.sent = True; reminder.save()] *)
Definition save_sent (r : t) : t :=
  mk (id r) (match_ r) (email r) (phone r) (notify_minutes_before r)
     (created_at r) true (user r).
End MatchReminder.

Module Reminder.
Record t := mk {
  id : nat;
  match_ : nat;
  user : option nat;
  email : string;
  notify_minutes_before : nat;
  sent : bool
}.

(** [reminder.sent = True; reminder.save(update_fields=['sent'])] *)
Definition save_sent (r : t) : t :=
  mk (id r) (match_ r) (user r) (email r) (notify_minutes_before r) true.
End Reminder.

Module NewsArticle.
Inductive status_t := breaking | update | announcement.

#[global] Instance status_eq_dec : EqDecision status_t.
Proof. solve_decision. Defined.

Record t := mk {
  id : nat;
  title : string;
  date : Z;
  summary : option string;
  content : string;
  slug : option string;
  featured : bool;
  image : option string;
  status : status_t
}.
End NewsArticle.
Module TournamentParticipant.
Record t := mk {
  id : nat;
  tournament : nat;
  team : nat;
  manager_name : string;
  manager_email : string;
  manager_phone : string;
  registered_at : instant
}.
End TournamentParticipant.

(** The relational store: one table per model. *)
Record Store := mkStore {
  games : list Game.t;
  tournaments : list Tournament.t;
  teams : list Team.t;
  players : list Player.t;
  matches : list Match.t;
  match_reminders : list MatchReminder.t;
  reminders : list Reminder.t;
  participants : list TournamentParticipant.t;
  news : list NewsArticle.t
}.

(** Row by primary key ([Model.objects.get(pk=k)], [None] for
    [DoesNotExist]). *)
Definition get_by {A} (key : A -> nat) (k : nat) (rows : list A) : option A :=
  List.find (fun r => Nat.eqb (key r) k) rows.

(** The foreign keys followed by the commands. *)
Definition match_tournament (s : Store) (m : Match.t) : option Tournament.t :=
  get_by Tournament.id (Match.tournament m) (tournaments s).

Definition reminder_match (s : Store) (r : Reminder.t) : option Match.t :=
  get_by Match.id (Reminder.match_ r) (matches s).

Definition match_reminder_match (s : Store) (r : MatchReminder.t) : option Match.t :=
  get_by Match.id (MatchReminder.match_ r) (matches s).

Definition team_name (s : Store) (k : nat) : option string :=
  Team.name <$> get_by Team.id k (teams s).

(** Primary keys are unique in every table. *)
Definition keys_unique {A} (key : A -> nat) (rows : list A) : Prop := NoDup (map key rows).

(** [get_by] finds a row that is in the table, with that key. *)
Lemma get_by_Some {A} (key : A -> nat) k rows (r : A) :
  get_by key k rows = Some r -> In r rows /\ key r = k.
Proof.
  unfold get_by. intros H. apply find_some in H as [Hin Hk].
  split; [done|]. by apply Nat.eqb_eq.
Qed.

(** With unique keys, [get_by] returns the row of the table with that key. *)
Lemma get_by_In {A} (key : A -> nat) rows (r : A) :
  keys_unique key rows -> In r rows -> get_by key (key r) rows = Some r.
Proof.
  unfold keys_unique, get_by. induction rows as [|x rows IH]; [done|].
  simpl. intros Hnd [<-|Hin]; [by rewrite Nat.eqb_refl|].
  inversion Hnd as [|? ? Hnot Hnd']; subst.
  destruct (Nat.eqb_spec (key x) (key r)) as [Heq|]; [|by apply IH].
  exfalso. apply Hnot. rewrite Heq. by apply in_map.
Qed.

#[export] Hint Resolve get_by_In : genze.

(** The store after the rows of one table were rewritten. *)
Definition with_matches (s : Store) (ms : list Match.t) : Store :=
  mkStore (games s) (tournaments s) (teams s) (players s) ms
          (match_reminders s) (reminders s) (participants s) (news s).

Definition with_reminders (s : Store) (rs : list Reminder.t) : Store :=
  mkStore (games s) (tournaments s) (teams s) (players s) (matches s)
          (match_reminders s) rs (participants s) (news s).

Definition with_match_reminders (s : Store) (rs : list MatchReminder.t) : Store :=
  mkStore (games s) (tournaments s) (teams s) (players s) (matches s)
          rs (reminders s) (participants s) (news s).

Definition with_teams (s : Store) (ts : list Team.t) : Store :=
  mkStore (games s) (tournaments s) ts (players s) (matches s)
          (match_reminders s) (reminders s) (participants s) (news s).

Definition with_players (s : Store) (ps : list Player.t) : Store :=
  mkStore (games s) (tournaments s) (teams s) ps (matches s)
          (match_reminders s) (reminders s) (participants s) (news s).

Definition with_participants (s : Store) (ps : list TournamentParticipant.t) : Store :=
  mkStore (games s) (tournaments s) (teams s) (players s) (matches s)
          (match_reminders s) (reminders s) ps (news s).

(** [for obj in qs: ... obj.save(...)] where the body may raise: the rows
    before the failing one keep their saved values (each [save] commits),
    the failing row and the rest are unchanged, and the flag says whether
    the exception escaped. *)
Fixpoint for_each_save {A} (f : A -> option A) (rows : list A) : list A * bool :=
  match rows with
  | [] => ([], false)
  | r :: rest =>
      match f r with
      | Some r' => let '(rest', raised) := for_each_save f rest in (r' :: rest', raised)
      | None => (r :: rest, true)
      end
  end.

(** A body that never raises saves every row. *)
Lemma for_each_save_total {A} (f : A -> option A) (g : A -> A) rows :
  (forall r, In r rows -> f r = Some (g r)) -> for_each_save f rows = (map g rows, false).
Proof.
  induction rows as [|r rows IH]; intros H; [done|]. simpl.
  rewrite H by (left; done). rewrite IH; [done|]. intros r' Hr'. apply H. by right.
Qed.

(** Two rows of a table with unique keys and the same key are the same row. *)
Lemma keys_unique_inj {A} (key : A -> nat) rows (a b : A) :
  keys_unique key rows -> In a rows -> In b rows -> key a = key b -> a = b.
Proof.
  unfold keys_unique. induction rows as [|x rows IH]; [done|]. simpl.
  intros Hnd Ha Hb Hk. inversion Hnd as [|? ? Hnot Hnd']; subst.
  destruct Ha as [<-|Ha], Hb as [<-|Hb]; [done| | |by apply IH].
  - exfalso. apply Hnot. rewrite Hk. by apply in_map.
  - exfalso. apply Hnot. rewrite <- Hk. by apply in_map.
Qed.

#[global] Instance keys_unique_dec {A} (key : A -> nat) rows : Decision (keys_unique key rows).
Proof.
  unfold keys_unique.
  destruct (decide (stdpp.base.NoDup (map key rows))) as [H|H];
    [left; by apply NoDup_ListNoDup|right; by rewrite <- NoDup_ListNoDup].
Defined.

(** The loop with its log; the rows after an exception are unchanged. *)
Fixpoint for_each_logged {A L} (f : A -> option (A * list L)) (rows : list A)
    : list A * list L * bool :=
  match rows with
  | [] => ([], [], false)
  | r :: rest =>
      match f r with
      | Some (r', log) =>
          let '(rest', log', raised) := for_each_logged f rest in (r' :: rest', log ++ log', raised)
      | None => (r :: rest, [], true)
      end
  end.

(** A body that never raises, with its log. *)
Lemma for_each_logged_rows {A L} (f : A -> option (A * list L)) (g : A -> A * list L) rows :
  (forall r, In r rows -> f r = Some (g r)) ->
  for_each_logged f rows = (map (fun r => fst (g r)) rows, concat (map (fun r => snd (g r)) rows), false).
Proof.
  induction rows as [|r rows IH]; intros H; [done|]. simpl.
  rewrite H by (left; done). destruct (g r) as [r' log] eqn:Hg.
  rewrite IH; [done|]. intros r0 Hr0. apply H. by right.
Qed.


(** Whatever happens, each row after the loop is either unchanged or the
    row the body returned for it. *)
Lemma for_each_logged_Forall2 {A L} (R : A -> A -> Prop) (f : A -> option (A * list L)) rows :
  (forall r, R r r) -> (forall r r' log, f r = Some (r', log) -> R r r') ->
  Forall2 R rows (fst (fst (for_each_logged f rows))).
Proof.
  intros Hrefl Hf. induction rows as [|r rows IH]; simpl; [constructor|].
  destruct (f r) as [[r' log]|] eqn:Hr.
  - destruct (for_each_logged f rows) as [[rest' log'] raised]. simpl in *. constructor; eauto.
  - simpl. constructor; [done|]. clear IH. induction rows; constructor; eauto.
Qed.

Lemma for_each_save_Forall2 {A} (R : A -> A -> Prop) (f : A -> option A) rows :
  (forall r, R r r) -> (forall r r', f r = Some r' -> R r r') ->
  Forall2 R rows (fst (for_each_save f rows)).
Proof.
  intros Hrefl Hf. induction rows as [|r rows IH]; simpl; [constructor|].
  destruct (f r) as [r'|] eqn:Hr.
  - destruct (for_each_save f rows) as [rest' raised]. simpl in *. constructor; eauto.
  - simpl. constructor; [done|]. clear IH. induction rows; constructor; eauto.
Qed.


(** The loop processes a prefix of the table: each row of it gave a
    result, the rest is untouched, and the log is the results' logs in
    order. *)
Lemma for_each_logged_prefix {A L} (f : A -> option (A * list L)) rows :
  exists pre suf outs, rows = pre ++ suf /\ Forall2 (fun r o => f r = Some o) pre outs /\
    fst (fst (for_each_logged f rows)) = map fst outs ++ suf /\
    snd (fst (for_each_logged f rows)) = concat (map snd outs).
Proof.
  induction rows as [|r rows IH]; simpl.
  - by exists [], [], [].
  - destruct (f r) as [[r' log]|] eqn:Hr.
    + destruct IH as (pre & suf & outs & -> & Hf & Hrows & Hlog).
      destruct (for_each_logged f (pre ++ suf)) as [[rest' log'] raised]. simpl in *.
      exists (r :: pre), suf, ((r', log) :: outs). split_and!; [done|by constructor|simpl; congruence|simpl; congruence].
    + by exists [], (r :: rows), [].
Qed.

(** [get_by] through a rewrite of every row that keeps the keys. *)
(** The loop ends without an exception only when every row succeeds. *)
Lemma for_each_logged_no_raise {A L} (f : A -> option (A * list L)) rows r :
  In r rows -> f r = None -> snd (for_each_logged f rows) = true.
Proof.
  induction rows as [|r0 rows IH]; intros Hin Hr; [done|]. simpl.
  destruct Hin as [<-|Hin]; [by rewrite Hr|].
  destruct (f r0) as [[r0' log]|]; [|done].
  specialize (IH Hin Hr). destruct (for_each_logged f rows) as [[rs' log'] raised]. done.
Qed.

Lemma get_by_map {A} (key : A -> nat) (g : A -> A) k rows :
  (forall r, key (g r) = key r) -> get_by key k (map g rows) = g <$> get_by key k rows.
Proof.
  intros Hk. unfold get_by. induction rows as [|r rows IH]; [done|]. simpl.
  rewrite Hk. by destruct (Nat.eqb (key r) k).
Qed.
