(* ===== verification/Timezone.v ===== *)
(** * Timezone: [pytz.timezone], [astimezone] and aware comparison

    Phase 1 of [update_match_statuses.py] (lines 19-28) resolves the
    tournament's zone name, falls back to ['Asia/Kolkata'] on
    [UnknownTimeZoneError], converts the match time and the current time
    into that zone and compares them.  This file models the zone database
    as a list of zones (a zone maps each UTC instant to the local-time
    type in force: offset, DST flag, abbreviation, as pytz's [_tzinfos]
    do), the lookup as pytz's case-insensitive name lookup, and
    [astimezone] / [<=] following CPython's [datetime._cmp].

    Main result: [astimezone_le], the comparison in any zone is the
    comparison of the instants, so the zone chosen never changes which
    matches go live. *)

From S2P Require Import Prelude Models.
From Stdlib Require Import List.
Import ListNotations.
Local Open Scope Z_scope.

(** The local-time type pytz attaches to a converted datetime:
    [(utcoffset, dst, tzname)]; pytz keeps one [tzinfo] instance per
    such triple and zone. *)
Record ttinfo := mkTT { utcoffset : Z; dst : Z; tzname : string }.

#[export] Instance ttinfo_eq_dec : EqDecision ttinfo.
Proof. solve_decision. Defined.

Record zone := mkZone { zone_name : string; at_utc : instant -> ttinfo }.

(** The [tzinfo] object of an aware datetime: its zone and the local-time
    type; two are the same object exactly when both agree. *)
Definition tzinfo := (string * ttinfo)%type.

(** An aware datetime: local wall-clock time and its [tzinfo]. *)
Record aware := mkAware { naive : Z; tz : tzinfo }.

(** [dt.astimezone(z)] of the instant [u]. *)
Definition astimezone (z : zone) (u : instant) : aware :=
  let tt := at_utc z u in mkAware (u + utcoffset tt) (zone_name z, tt).

(** [dt - dt.utcoffset()]: the UTC instant of an aware datetime. *)
Definition to_utc (a : aware) : instant := naive a - utcoffset (snd (tz a)).

(** CPython [datetime._cmp] for [<=]: the same [tzinfo] object, or equal
    offsets, compare wall time; otherwise the UTC instants. *)
Definition aware_le (a b : aware) : bool :=
  if bool_decide (tz a = tz b) then Z.leb (naive a) (naive b)
  else if Z.eqb (utcoffset (snd (tz a))) (utcoffset (snd (tz b)))
       then Z.leb (naive a) (naive b)
       else Z.leb (to_utc a) (to_utc b).

(** [pytz.timezone(name)]: ['UTC'] in any case is the UTC zone; any other
    name is looked up case-insensitively in the database; [None] is
    [UnknownTimeZoneError]. *)
Definition pytz_timezone (db : list zone) (name : string) : option zone :=
  if iexact name "UTC" then Some (mkZone "UTC" (fun _ => mkTT 0 0 "UTC"))
  else List.find (fun z => iexact (zone_name z) name) db.

(** [update_match_statuses.py] lines 19-23:
    [tz_name = match.tournament.timezone or 'Asia/Kolkata'], then
    [pytz.timezone(tz_name)], falling back to
    [pytz.timezone('Asia/Kolkata')] on [UnknownTimeZoneError] (which
    itself raises if the database lacks that zone: [None]). *)
Definition resolve_tz (db : list zone) (t : Tournament.t) : option zone :=
  let tz_name := Tournament.timezone t or_else Tournament.default_timezone in
  match pytz_timezone db tz_name with
  | Some z => Some z
  | None => pytz_timezone db Tournament.default_timezone
  end.

(** ** Comparison in a zone is comparison of instants *)

Lemma to_utc_astimezone z u : to_utc (astimezone z u) = u.
Proof. unfold to_utc, astimezone; simpl. lia. Qed.

(** Equal offsets make wall-time and instant comparison agree. *)
Lemma naive_le_same_offset z a b :
  utcoffset (at_utc z a) = utcoffset (at_utc z b) ->
  Z.leb (naive (astimezone z a)) (naive (astimezone z b)) = Z.leb a b.
Proof.
  intros Hoff. unfold astimezone; simpl. rewrite Hoff.
  destruct (Z.leb_spec (a + utcoffset (at_utc z b)) (b + utcoffset (at_utc z b)));
    destruct (Z.leb_spec a b); lia.
Qed.

(** C16: Converting two instants into the same zone and comparing them with
    Python's rule for aware datetimes is comparing the instants, whatever
    the zone and its DST rules. *)
Theorem astimezone_le z a b :
  aware_le (astimezone z a) (astimezone z b) = Z.leb a b.
Proof.
  unfold aware_le. case_bool_decide as Htz.
  - apply naive_le_same_offset. simpl in Htz. by injection Htz as ->.
  - destruct (Z.eqb_spec (utcoffset (snd (tz (astimezone z a))))
                         (utcoffset (snd (tz (astimezone z b))))) as [Hoff|].
    + by apply naive_le_same_offset.
    + by rewrite !to_utc_astimezone.
Qed.

(** [resolve_tz] succeeds whenever the database has the default zone. *)
Lemma resolve_tz_some db t z :
  pytz_timezone db Tournament.default_timezone = Some z ->
  exists z', resolve_tz db t = Some z'.
Proof.
  intros Hd. unfold resolve_tz.
  case_match; [by eexists|]. rewrite Hd. by eexists.
Qed.
