(* ===== verification/Samples.v ===== *)
(** * Samples: a small concrete store and zone database

    Concrete rows on which the theorems of the other files are applied:
    two zones (a fixed-offset ['Asia/Kolkata'] and an ['America/New_York']
    that switches from EST to EDT at [dst_switch]), three tournaments (one
    with a known zone written in another case, one with an unknown zone
    name, one with none), two teams and five matches covering every
    status and both stream-link cases, and reminders of both kinds. *)

From S2P Require Import Prelude Models Timezone.
From Stdlib Require Import List.
Import ListNotations.
Local Open Scope Z_scope.

Definition dst_switch : instant := 1710054000000000.

Definition kolkata : zone := mkZone "Asia/Kolkata" (fun _ => mkTT 19800000000 0 "IST").

Definition new_york : zone :=
  mkZone "America/New_York" (fun u =>
    if Z.ltb u dst_switch then mkTT (-18000000000) 0 "EST"
    else mkTT (-14400000000) 3600000000 "EDT").

Definition sample_db : list zone := [kolkata; new_york].

(** A tournament row with the fields the commands read. *)
Definition sample_tournament (k : nat) (title : string) (tz : option string) : Tournament.t :=
  Tournament.mk k title None Tournament.live None None 19790 19800 "" None "" None false tz.

Definition sample_team (k : nat) (name : string) : Team.t :=
  Team.mk k name None None None None None Team.none None None None.

(** A match row; the remaining columns keep their model defaults. *)
Definition sample_match (k tour t1 t2 : nat) (time : instant) (st : Match.status_t)
    (stage : string) (s1 s2 : option nat) (url : string)
    (live_at done_at : option instant) : Match.t :=
  Match.mk k tour t1 t2 time st stage s1 s2 None 0 "" url "" None None live_at done_at 0 0.

(** Instants: [t0] is a match start, the sweep runs five minutes later. *)
Definition t0 : instant := 1710057600000000.
Definition now_a : instant := t0 + minutes 5.

Definition m_due : Match.t :=
  sample_match 1 1 1 2 t0 Match.upcoming "Grand Final" (Some 3%nat) (Some 1%nat) "" None None.
Definition m_streamed : Match.t :=
  sample_match 2 2 2 1 t0 Match.live "Semifinal" (Some 2%nat) (Some 0%nat)
    "https://youtube.com/live/x" (Some t0) None.
Definition m_later : Match.t :=
  sample_match 3 3 1 2 (t0 + minutes 600) Match.upcoming "Quarterfinal" None None "" None None.
Definition m_done : Match.t :=
  sample_match 4 1 2 1 (t0 - minutes 600) Match.completed "Group Stage" (Some 1%nat) (Some 2%nat) ""
    (Some (t0 - minutes 600)) (Some (t0 - minutes 500)).
Definition m_tie : Match.t :=
  sample_match 5 2 1 2 (t0 - minutes 300) Match.completed "Upper final" (Some 1%nat) (Some 1%nat) ""
    (Some (t0 - minutes 300)) (Some (t0 - minutes 200)).

Definition r_due : Reminder.t := Reminder.mk 1 1 None "fan@example.com" 30 false.
Definition r_far : Reminder.t := Reminder.mk 2 3 None "late@example.com" 30 false.
Definition r_sent : Reminder.t := Reminder.mk 3 2 None "done@example.com" 10 true.

Definition mr_due : MatchReminder.t :=
  MatchReminder.mk 1 1 "fan@example.com" "" 30 (t0 - minutes 60) false None.
Definition mr_no_email : MatchReminder.t :=
  MatchReminder.mk 2 2 "" "555" 30 (t0 - minutes 60) false None.

Definition sample_store : Store :=
  mkStore [Game.mk 1 "Valorant"]
          [sample_tournament 1 "Spring Cup" (Some "america/NEW_YORK");
           sample_tournament 2 "Summer Cup" (Some "Mars/Olympus");
           sample_tournament 3 "Winter Cup" None]
          [sample_team 1 "Alpha"; sample_team 2 "Bravo"]
          []
          [m_due; m_streamed; m_later; m_done; m_tie]
          [mr_due; mr_no_email]
          [r_due; r_far; r_sent]
          []
          [NewsArticle.mk 1 "Spring Cup announced" 19790 None "" None true None NewsArticle.announcement;
           NewsArticle.mk 2 "Alpha wins the final" 19800 None "" None false None NewsArticle.update;
           NewsArticle.mk 3 "Roster change" 19795 None "" None false None NewsArticle.breaking].

