(* ===== verification/StatusSweep.v ===== *)
(** * StatusSweep: phases 1 and 2 of [update_match_statuses.py]

    Phase 1 (lines 17-34) iterates [Match.objects.filter(status='upcoming')]
    and moves each match whose start time has passed, compared in its
    tournament's zone, to [live], stamping [live_started_at].  Phase 2
    (lines 36-53) then iterates the live matches with both scores whose
    stream link is empty or whose start is more than [grace_period] old,
    and moves them to [completed], stamping [completed_at].  Phase 2's
    queryset is built after phase 1 has saved, so it sees phase 1's
    writes.

    The file gives the code's definitions ([upcoming_to_live_row],
    [upcoming_to_live], [live_to_completed_selected],
    [live_to_completed_row], [live_to_completed], [status_sweep]), a
    zone-free reference specification ([go_live_spec], [sweep_spec]) with
    the refinement theorems relating them, the per-match step relation
    [match_step] of the status machine and its invariants. *)

From S2P Require Import Prelude Models Timezone Samples.
From stdpp Require Import relations.
From Stdlib Require Import List.
Import ListNotations.
Local Open Scope Z_scope.

(** [grace_period = timedelta(minutes=15)] *)
Definition grace_period : Z := minutes 15.

(** ** Phase 1: upcoming -> live *)

(** Lines 19-34 for one match of the queryset; [None] is an exception
    escaping the loop (a dangling tournament, or no ['Asia/Kolkata'] in
    the zone database).  Rows that are not upcoming are not in the
    queryset and are left as they are. *)
Definition upcoming_to_live_row (db : list zone) (s : Store) (now : instant)
    (m : Match.t) : option Match.t :=
  match Match.status m with
  | Match.upcoming =>
      match match_tournament s m with
      | None => None
      | Some t =>
          match resolve_tz db t with
          | None => None
          | Some z =>
              let match_time_local := astimezone z (Match.match_time m) in
              let now_local := astimezone z now in
              if aware_le match_time_local now_local
              then Some (Match.save_status_live_started_at m Match.live now)
              else Some m
          end
      end
  | _ => Some m
  end.

(** Lines 17-34: the loop over the table. *)
Definition upcoming_to_live (db : list zone) (now : instant) (s : Store) : Store * bool :=
  let '(ms, raised) := for_each_save (upcoming_to_live_row db s now) (matches s) in
  (with_matches s ms, raised).

(** ** Phase 2: live -> completed *)

(** The filter of lines 37-45.  [youtube_live_url] is a [URLField]
    without [null=True], so its [__isnull=True] disjunct never holds and
    the empty-string test decides the first two disjuncts. *)
Definition live_to_completed_selected (now : instant) (m : Match.t) : bool :=
  match Match.status m with
  | Match.live =>
      Match.scored m &&
      (String.eqb (Match.youtube_live_url m) "" ||
       Z.ltb (Match.match_time m) (now - grace_period))
  | _ => false
  end.

(** Lines 47-50 for one row. *)
Definition live_to_completed_row (now : instant) (m : Match.t) : Match.t :=
  if live_to_completed_selected now m
  then Match.save_status_completed_at m Match.completed now
  else m.

(** Lines 36-53. *)
Definition live_to_completed (now : instant) (s : Store) : Store :=
  with_matches s (map (live_to_completed_row now) (matches s)).

(** Phases 1 then 2; an exception in phase 1 ends the command. *)
Definition status_sweep (db : list zone) (now1 now2 : instant) (s : Store) : Store * bool :=
  let '(s1, raised) := upcoming_to_live db now1 s in
  if raised then (s1, true) else (live_to_completed now2 s1, false).

(** ** Reference specification *)

(** What phase 1 promises for one match: an upcoming match whose start
    instant is not after [now] goes live at [now]. *)
Definition go_live_spec (now : instant) (m : Match.t) : Match.t :=
  match Match.status m with
  | Match.upcoming =>
      if Z.leb (Match.match_time m) now
      then Match.save_status_live_started_at m Match.live now
      else m
  | _ => m
  end.

Definition sweep_spec (now1 now2 : instant) (m : Match.t) : Match.t :=
  live_to_completed_row now2 (go_live_spec now1 m).

(** Every upcoming match has a tournament whose zone resolves. *)
Definition sweep_safe (db : list zone) (s : Store) : bool :=
  forallb (fun m =>
    match Match.status m with
    | Match.upcoming =>
        match match_tournament s m with
        | Some t => if resolve_tz db t is Some _ then true else false
        | None => false
        end
    | _ => true
    end) (matches s).

(** ** The step relation of the status machine *)

Inductive match_step : Match.t -> Match.t -> Prop :=
  | step_go_live m now :
      Match.status m = Match.upcoming -> Match.match_time m <= now ->
      match_step m (Match.save_status_live_started_at m Match.live now)
  | step_complete m now :
      live_to_completed_selected now m = true ->
      match_step m (Match.save_status_completed_at m Match.completed now).

Inductive star {A} (R : A -> A -> Prop) : A -> A -> Prop :=
  | star_refl a : star R a a
  | star_step a b c : R a b -> star R b c -> star R a c.

Definition status_rank (st : Match.status_t) : nat :=
  match st with Match.upcoming => 0 | Match.live => 1 | Match.completed => 2 end.

(** The timestamp invariant of the spec's data model. *)
Definition ts_ok (m : Match.t) : Prop :=
  (is_Some (Match.completed_at m) <-> Match.status m = Match.completed) /\
  (is_Some (Match.live_started_at m) <-> Match.status m <> Match.upcoming).

#[export] Instance ts_ok_dec m : Decision (ts_ok m).
Proof. unfold ts_ok. apply _. Defined.

(** ** Phase 1 refines its specification *)

(** For an upcoming match whose zone resolves, the zone-aware test of
    lines 25-28 is the instant comparison. *)
Lemma upcoming_to_live_row_spec db s now m t z :
  Match.status m = Match.upcoming -> match_tournament s m = Some t ->
  resolve_tz db t = Some z ->
  upcoming_to_live_row db s now m = Some (go_live_spec now m).
Proof.
  intros Hst Ht Hz. unfold upcoming_to_live_row, go_live_spec.
  rewrite Hst, Ht, Hz. cbv zeta. rewrite astimezone_le. by case_match.
Qed.

Lemma upcoming_to_live_row_safe db s now m :
  In m (matches s) -> sweep_safe db s = true ->
  upcoming_to_live_row db s now m = Some (go_live_spec now m).
Proof.
  intros Hin Hsafe. unfold sweep_safe in Hsafe. rewrite forallb_forall in Hsafe.
  specialize (Hsafe m Hin). destruct (Match.status m) eqn:Hst;
    try (unfold upcoming_to_live_row, go_live_spec; rewrite Hst; done).
  destruct (match_tournament s m) as [t|] eqn:Ht; [|done].
  destruct (resolve_tz db t) as [z|] eqn:Hz; [|done].
  by eapply upcoming_to_live_row_spec.
Qed.

(** When every upcoming match's zone resolves, phase 1 raises
    nothing and moves exactly the upcoming matches whose start instant
    is not after [now] to live, stamped [now]: the tournament's zone plays
    no part in the outcome. *)
Theorem upcoming_to_live_refines db now s :
  sweep_safe db s = true ->
  upcoming_to_live db now s = (with_matches s (map (go_live_spec now) (matches s)), false).
Proof.
  intros Hsafe. unfold upcoming_to_live.
  rewrite (for_each_save_total _ (go_live_spec now)); [done|].
  intros m Hin. by apply upcoming_to_live_row_safe.
Qed.

(** ** The sweep refines its specification *)

(** C1 (functional): when every upcoming match's zone resolves, the two
    phases raise nothing and rewrite each match as [sweep_spec] says:
    first [go_live_spec] at the phase-1 clock, then the phase-2 filter
    at the phase-2 clock, on the row phase 1 left. *)
Theorem status_sweep_refines db now1 now2 s :
  sweep_safe db s = true ->
  status_sweep db now1 now2 s =
    (with_matches s (map (sweep_spec now1 now2) (matches s)), false).
Proof.
  intros Hsafe. unfold status_sweep. rewrite upcoming_to_live_refines by done.
  unfold live_to_completed, sweep_spec. simpl. by rewrite map_map.
Qed.

(** ** The step relation *)

Lemma upcoming_to_live_row_step db s now m m' :
  upcoming_to_live_row db s now m = Some m' -> star match_step m m'.
Proof.
  unfold upcoming_to_live_row. destruct (Match.status m) eqn:Hst;
    try (intros [= <-]; constructor).
  destruct (match_tournament s m) as [t|]; [|done].
  destruct (resolve_tz db t) as [z|]; [|done]. cbv zeta.
  rewrite astimezone_le. destruct (Z.leb_spec (Match.match_time m) now); intros [= <-].
  - eapply star_step; [by constructor|constructor].
  - constructor.
Qed.

Lemma live_to_completed_row_step now m : star match_step m (live_to_completed_row now m).
Proof.
  unfold live_to_completed_row. destruct (live_to_completed_selected now m) eqn:Hsel.
  - eapply star_step; [by constructor|constructor].
  - constructor.
Qed.

Lemma star_trans {A} (R : A -> A -> Prop) a b c : star R a b -> star R b c -> star R a c.
Proof. induction 1; eauto using star. Qed.

(** C17 (state machine): whatever happens, an exception included, every
    row after a sweep is reached from the same row before by a sequence
    of [match_step]s: the sweep only ever takes the transitions of the
    status machine. *)
Theorem status_sweep_steps db now1 now2 s :
  Forall2 (star match_step) (matches s) (matches (fst (status_sweep db now1 now2 s))).
Proof.
  unfold status_sweep, upcoming_to_live.
  pose proof (for_each_save_Forall2 (star match_step) (upcoming_to_live_row db s now1)
                (matches s) (star_refl _) (upcoming_to_live_row_step db s now1)) as H1.
  destruct (for_each_save _ _) as [ms raised]. simpl in H1.
  destruct raised; simpl; [done|].
  apply (Forall2_map_r _ _ _ _ _ H1). intros m m' Hm.
  eapply star_trans; [done|apply live_to_completed_row_step].
Qed.

Lemma match_step_rank m m' :
  match_step m m' -> (status_rank (Match.status m) < status_rank (Match.status m'))%nat.
Proof.
  destruct 1 as [m now Hst _|m now Hsel]; simpl; [rewrite Hst; simpl; lia|].
  unfold live_to_completed_selected in Hsel. destruct (Match.status m); simpl; [lia|lia|done].
Qed.

Lemma star_match_step_rank m m' :
  star match_step m m' -> (status_rank (Match.status m) <= status_rank (Match.status m'))%nat.
Proof. induction 1 as [|a b c Hab _ IH]; [lia|]. apply match_step_rank in Hab. lia. Qed.

Lemma status_rank_le st : (status_rank st <= 2)%nat.
Proof. destruct st; simpl; lia. Qed.


(** A step keeps the match's identity, teams, schedule and scores. *)
Lemma star_match_step_fields m m' :
  star match_step m m' ->
  Match.id m' = Match.id m /\ Match.tournament m' = Match.tournament m /\
  Match.match_time m' = Match.match_time m /\
  Match.team1_score m' = Match.team1_score m /\ Match.team2_score m' = Match.team2_score m.
Proof. induction 1 as [|a b c Hab _ IH]; [done|]. by destruct Hab. Qed.

Lemma match_step_ts_ok m m' : match_step m m' -> ts_ok m -> ts_ok m'.
Proof.
  destruct 1 as [m now Hst _|m now Hsel]; unfold ts_ok; simpl.
  - rewrite Hst. intros [Hc _]. split; [|split; [done|intros _; by eexists]].
    split; [intros HS; apply Hc in HS; congruence|done].
  - unfold live_to_completed_selected in Hsel. destruct (Match.status m) eqn:Hst; [done| |done].
    intros [_ Hl]. split; [split; [done|intros _; by eexists]|].
    split; [done|intros _; apply Hl; congruence].
Qed.

Lemma star_match_step_ts_ok m m' : star match_step m m' -> ts_ok m -> ts_ok m'.
Proof. induction 1; eauto using match_step_ts_ok. Qed.

#[export] Hint Resolve star_match_step_ts_ok star_match_step_rank : genze.

(** C18 (invariant): a sweep never moves a status backwards, and if every
    row had [completed_at] set exactly when completed and
    [live_started_at] set exactly when no longer upcoming, every row
    still does afterwards. *)
Theorem status_sweep_invariant db now1 now2 s :
  Forall ts_ok (matches s) ->
  Forall ts_ok (matches (fst (status_sweep db now1 now2 s))) /\
  Forall2 (fun m m' => status_rank (Match.status m) <= status_rank (Match.status m'))%nat
          (matches s) (matches (fst (status_sweep db now1 now2 s))).
Proof.
  intros Hok. pose proof (status_sweep_steps db now1 now2 s) as Hst. split.
  - eapply Forall2_transport; eauto with genze.
  - eapply Forall2_impl; [|exact Hst]. eauto with genze.
Qed.

(** ** Termination: statuses change finitely often *)

(** A sweep, at some clock readings, that changes the status of some
    match. *)
Definition sweep_changes (db : list zone) (s s' : Store) : Prop :=
  exists now1 now2, s' = fst (status_sweep db now1 now2 s) /\
    map Match.status (matches s') <> map Match.status (matches s).

(** The status steps still open to the matches of a list. *)
Definition pending (ms : list Match.t) : nat := sum_list_with (fun m => 2 - status_rank (Match.status m))%nat ms.

Lemma status_rank_inj st st' : status_rank st = status_rank st' -> st = st'.
Proof. by destruct st, st'. Qed.

Lemma pending_bound ms : (pending ms <= 2 * length ms)%nat.
Proof. induction ms as [|m ms IH]; simpl; [lia|]. fold (pending ms). lia. Qed.

Lemma pending_steps ms ms' :
  Forall2 (star match_step) ms ms' ->
  (pending ms' <= pending ms)%nat /\
  (map Match.status ms' <> map Match.status ms -> (pending ms' < pending ms)%nat).
Proof.
  induction 1 as [|m m' ms ms' Hm _ [IHle IHlt]]; simpl; [done|]. fold (pending ms) (pending ms').
  pose proof (star_match_step_rank m m' Hm). pose proof (status_rank_le (Match.status m')).
  split; [lia|]. intros Hne.
  destruct (decide (map Match.status ms' = map Match.status ms)) as [Heq|Hne']; [|specialize (IHlt Hne'); lia].
  destruct (decide (status_rank (Match.status m) = status_rank (Match.status m'))) as [Hr|Hr]; [|lia].
  apply status_rank_inj in Hr. exfalso. apply Hne. by f_equal.
Qed.

(** C19 (termination): whatever the clocks read at each run, and however
    often the command runs, the statuses of a store change only finitely
    often: the converse of "a sweep changes some status" is
    well-founded, and a chain of [n] status-changing sweeps from a store
    of [k] matches has [n <= 2 * k] (each match changes at most twice). *)
Theorem status_sweep_terminates (db : list zone) :
  well_founded (fun s' s => sweep_changes db s s') /\
  forall n s s', nsteps (sweep_changes db) n s s' -> (n <= 2 * length (matches s))%nat.
Proof.
  assert (Hdec : forall s s', sweep_changes db s s' -> (pending (matches s') < pending (matches s))%nat).
  { intros s s' (now1 & now2 & -> & Hne). exact (proj2 (pending_steps _ _ (status_sweep_steps db now1 now2 s)) Hne). }
  split.
  - apply (well_founded_lt_compat _ (fun s => pending (matches s))). intros s' s. apply Hdec.
  - intros n s s' Hn. enough (n + pending (matches s') <= pending (matches s))%nat
      by (pose proof (pending_bound (matches s)); lia).
    induction Hn as [s|n s1 s2 s3 H12 _ IH]; [lia|]. specialize (Hdec _ _ H12). lia.
Qed.

(** ** What one sweep does to each match *)

(** C2: phase 1, with every upcoming match's zone resolvable, moves an
    upcoming match whose start time has passed to live with
    [live_started_at] set to the current instant, and leaves one whose
    start is still ahead as it was. *)
Theorem upcoming_to_live_due db now s m :
  sweep_safe db s = true -> In m (matches s) -> Match.status m = Match.upcoming ->
  snd (upcoming_to_live db now s) = false /\
  In (if Z.leb (Match.match_time m) now
      then Match.save_status_live_started_at m Match.live now else m)
     (matches (fst (upcoming_to_live db now s))).
Proof.
  intros Hsafe Hin Hst. rewrite upcoming_to_live_refines by done. split; [done|].
  simpl. eapply in_map_eq; [done|]. unfold go_live_spec. by rewrite Hst.
Qed.

(** C3: phase 2 completes a live match with both scores and no stream
    link, stamping [completed_at] with the current instant. *)
Theorem live_to_completed_no_stream now s m :
  In m (matches s) -> Match.status m = Match.live -> Match.scored m = true ->
  Match.youtube_live_url m = "" ->
  In (Match.save_status_completed_at m Match.completed now) (matches (live_to_completed now s)).
Proof.
  intros Hin Hst Hsc Hurl. simpl. eapply in_map_eq; [done|].
  unfold live_to_completed_row, live_to_completed_selected. by rewrite Hst, Hsc, Hurl.
Qed.

(** C4: a live match with both scores and a stream link is completed
    only once the current instant is more than 15 minutes past its start;
    until then phase 2 leaves it live. *)
Theorem live_to_completed_with_stream now s m :
  In m (matches s) -> Match.status m = Match.live -> Match.scored m = true ->
  Match.youtube_live_url m <> "" ->
  In (if Z.ltb (Match.match_time m + minutes 15) now
      then Match.save_status_completed_at m Match.completed now else m)
     (matches (live_to_completed now s)).
Proof.
  intros Hin Hst Hsc Hurl. simpl. eapply in_map_eq; [done|].
  unfold live_to_completed_row, live_to_completed_selected, grace_period.
  rewrite Hst, Hsc. apply String.eqb_neq in Hurl. rewrite Hurl. simpl.
  by destruct (Z.ltb_spec (Match.match_time m) (now - minutes 15));
       destruct (Z.ltb_spec (Match.match_time m + minutes 15) now); try lia.
Qed.

(** C5 (frame): phase 2 leaves unchanged every match that is not live
    or lacks a score, and never completes a match with a stream link
    whose start is less than 15 minutes old. *)
Theorem live_to_completed_frame now s m :
  In m (matches s) ->
  (Match.status m <> Match.live \/ Match.scored m = false \/
   (Match.youtube_live_url m <> "" /\ now <= Match.match_time m + minutes 15)) ->
  In m (matches (live_to_completed now s)).
Proof.
  intros Hin Hcase. simpl. eapply in_map_eq; [done|].
  unfold live_to_completed_row, live_to_completed_selected, grace_period.
  destruct (Match.status m); try done.
  destruct Hcase as [Hst|[Hsc|[Hurl Ht]]]; [done|by rewrite Hsc|].
  apply String.eqb_neq in Hurl. rewrite Hurl. simpl.
  destruct (Z.ltb_spec (Match.match_time m) (now - minutes 15)); [lia|].
  by rewrite andb_false_r.
Qed.

(** C20 (spec gap): within one run of the command, an upcoming match whose
    start has passed, with both scores entered and no stream link, goes
    live in phase 1 and is completed by phase 2 of the same run: it is
    never observed live. *)
Theorem status_sweep_upcoming_to_completed db now1 now2 s m :
  sweep_safe db s = true -> In m (matches s) -> Match.status m = Match.upcoming ->
  Match.match_time m <= now1 -> Match.scored m = true -> Match.youtube_live_url m = "" ->
  In (Match.save_status_completed_at
        (Match.save_status_live_started_at m Match.live now1) Match.completed now2)
     (matches (fst (status_sweep db now1 now2 s))).
Proof.
  intros Hsafe Hin Hst Ht Hsc Hurl. rewrite status_sweep_refines by done. simpl.
  eapply in_map_eq; [done|].
  unfold sweep_spec, go_live_spec. rewrite Hst. apply Z.leb_le in Ht. rewrite Ht.
  unfold live_to_completed_row, live_to_completed_selected, Match.scored in *. simpl.
  rewrite Hurl. by destruct (Match.team1_score m), (Match.team2_score m).
Qed.

(** ** Idempotence *)

Lemma live_to_completed_row_fixed now m :
  live_to_completed_row now (live_to_completed_row now m) = live_to_completed_row now m.
Proof.
  unfold live_to_completed_row at 2 3.
  destruct (live_to_completed_selected now m) eqn:Hsel; [reflexivity|].
  unfold live_to_completed_row. by rewrite Hsel.
Qed.

Lemma live_to_completed_row_upcoming now m :
  Match.status m = Match.upcoming -> live_to_completed_row now m = m.
Proof. intros Hst. unfold live_to_completed_row, live_to_completed_selected. by rewrite Hst. Qed.

Lemma live_to_completed_row_not_upcoming now m :
  Match.status m <> Match.upcoming -> Match.status (live_to_completed_row now m) <> Match.upcoming.
Proof. intros Hst. unfold live_to_completed_row. by case_match. Qed.

Lemma go_live_spec_not_upcoming now m :
  Match.status m <> Match.upcoming -> go_live_spec now m = m.
Proof. intros Hst. unfold go_live_spec. by destruct (Match.status m). Qed.

Lemma go_live_spec_after_row now1 now2 m :
  go_live_spec now1 (live_to_completed_row now2 (go_live_spec now1 m)) =
  live_to_completed_row now2 (go_live_spec now1 m).
Proof.
  destruct (decide (Match.status m = Match.upcoming)) as [Hst|Hst].
  - unfold go_live_spec at 2 3. rewrite Hst.
    destruct (Z.leb_spec (Match.match_time m) now1).
    + by apply go_live_spec_not_upcoming, live_to_completed_row_not_upcoming.
    + rewrite live_to_completed_row_upcoming by done.
      unfold go_live_spec. rewrite Hst. by destruct (Z.leb_spec (Match.match_time m) now1); [lia|].
  - rewrite (go_live_spec_not_upcoming now1 m) by done.
    by apply go_live_spec_not_upcoming, live_to_completed_row_not_upcoming.
Qed.

Lemma sweep_spec_idem now1 now2 m :
  sweep_spec now1 now2 (sweep_spec now1 now2 m) = sweep_spec now1 now2 m.
Proof.
  unfold sweep_spec at 1 2. rewrite go_live_spec_after_row.
  apply live_to_completed_row_fixed.
Qed.

Lemma sweep_spec_step now1 now2 m : star match_step m (sweep_spec now1 now2 m).
Proof.
  unfold sweep_spec. eapply star_trans; [|apply live_to_completed_row_step].
  unfold go_live_spec. destruct (Match.status m) eqn:Hst; try constructor.
  destruct (Z.leb_spec (Match.match_time m) now1); [|constructor].
  eapply star_step; [by constructor|constructor].
Qed.

(** A scored match whose start is more than the grace period before
    both clock readings is completed by one sweep, whatever its status
    and stream link; a completed match stays completed. *)
Lemma sweep_spec_completes now1 now2 m :
  Match.scored m = true -> Match.match_time m + grace_period < now1 <= now2 ->
  Match.status (sweep_spec now1 now2 m) = Match.completed.
Proof.
  intros Hsc Ht. unfold sweep_spec, go_live_spec.
  assert (Hsel : forall m', Match.status m' = Match.live -> Match.scored m' = true ->
            Match.match_time m' = Match.match_time m ->
            Match.status (live_to_completed_row now2 m') = Match.completed).
  { intros m' Hl Hs' Ht'. unfold live_to_completed_row, live_to_completed_selected.
    rewrite Hl, Hs', Ht'. replace (Match.match_time m <? now2 - grace_period) with true by lia.
    by rewrite orb_true_r. }
  destruct (Match.status m) eqn:Hst.
  - rewrite (proj2 (Z.leb_le _ _)) by (unfold grace_period, minutes in *; lia). by apply Hsel.
  - by apply Hsel.
  - unfold live_to_completed_row, live_to_completed_selected. by rewrite Hst.
Qed.

Lemma sweep_spec_scored now1 now2 m :
  Match.scored (sweep_spec now1 now2 m) = Match.scored m /\
  Match.match_time (sweep_spec now1 now2 m) = Match.match_time m.
Proof.
  destruct (star_match_step_fields _ _ (sweep_spec_step now1 now2 m)) as (_ & _ & Ht & H1 & H2).
  unfold Match.scored. by rewrite H1, H2, Ht.
Qed.

Lemma sweep_safe_after db now1 now2 s :
  sweep_safe db s = true ->
  sweep_safe db (with_matches s (map (sweep_spec now1 now2) (matches s))) = true.
Proof.
  unfold sweep_safe. rewrite !forallb_forall. intros Hsafe m' Hin. simpl in Hin.
  apply in_map_iff in Hin as (m & <- & Hin).
  destruct (star_match_step_fields _ _ (sweep_spec_step now1 now2 m)) as (_ & Ht & _).
  pose proof (star_match_step_rank _ _ (sweep_spec_step now1 now2 m)) as Hr.
  specialize (Hsafe m Hin). unfold match_tournament in *. simpl. rewrite Ht.
  destruct (Match.status (sweep_spec now1 now2 m)) eqn:Hst'; [|done|done].
  simpl in Hr. destruct (Match.status m); simpl in Hr; [done|lia|lia].
Qed.

(** At a fixed clock, running the sweep on its own result changes
    nothing: the command is idempotent, as the spec requires. *)
Theorem status_sweep_idempotent db now1 now2 s :
  sweep_safe db s = true ->
  status_sweep db now1 now2 (fst (status_sweep db now1 now2 s)) = status_sweep db now1 now2 s.
Proof.
  intros Hsafe. rewrite (status_sweep_refines db now1 now2 s) by done. simpl.
  rewrite status_sweep_refines by (by apply sweep_safe_after). simpl.
  rewrite map_map. f_equal. unfold with_matches; simpl. f_equal.
  apply map_ext. apply sweep_spec_idem.
Qed.

(** ** Witnesses on the sample store *)

Lemma sample_sweep_safe : sweep_safe sample_db sample_store = true.
Proof. vm_compute. reflexivity. Qed.

Lemma status_sweep_refines_witness :
  sweep_safe sample_db sample_store = true /\
  status_sweep sample_db now_a now_a sample_store =
    (with_matches sample_store (map (sweep_spec now_a now_a) (matches sample_store)), false).
Proof. split; [exact sample_sweep_safe|]. apply status_sweep_refines. exact sample_sweep_safe. Defined.

Lemma upcoming_to_live_refines_witness :
  sweep_safe sample_db sample_store = true /\
  upcoming_to_live sample_db now_a sample_store =
    (with_matches sample_store (map (go_live_spec now_a) (matches sample_store)), false).
Proof. split; [exact sample_sweep_safe|]. apply upcoming_to_live_refines. exact sample_sweep_safe. Defined.

Lemma upcoming_to_live_due_witness :
  snd (upcoming_to_live sample_db now_a sample_store) = false /\
  In (if Z.leb (Match.match_time m_due) now_a
      then Match.save_status_live_started_at m_due Match.live now_a else m_due)
     (matches (fst (upcoming_to_live sample_db now_a sample_store))).
Proof.
  apply upcoming_to_live_due; [exact sample_sweep_safe|simpl; tauto|reflexivity].
Defined.

Lemma live_to_completed_no_stream_witness :
  In (Match.save_status_completed_at
        (Match.save_status_live_started_at m_due Match.live t0) Match.completed now_a)
     (matches (live_to_completed now_a
        (with_matches sample_store
           [Match.save_status_live_started_at m_due Match.live t0]))).
Proof. apply live_to_completed_no_stream; simpl; tauto || reflexivity. Defined.

Lemma live_to_completed_with_stream_witness :
  In (if Z.ltb (Match.match_time m_streamed + minutes 15) now_a
      then Match.save_status_completed_at m_streamed Match.completed now_a else m_streamed)
     (matches (live_to_completed now_a sample_store)).
Proof.
  apply live_to_completed_with_stream; [simpl; tauto|reflexivity|reflexivity|].
  vm_compute. discriminate.
Defined.

Lemma status_sweep_upcoming_to_completed_witness :
  In (Match.save_status_completed_at
        (Match.save_status_live_started_at m_due Match.live now_a) Match.completed now_a)
     (matches (fst (status_sweep sample_db now_a now_a sample_store))).
Proof.
  apply status_sweep_upcoming_to_completed;
    [exact sample_sweep_safe|simpl; tauto|reflexivity|vm_compute; discriminate|
     reflexivity|reflexivity].
Defined.

Lemma live_to_completed_frame_witness :
  In m_streamed (matches (live_to_completed now_a sample_store)).
Proof.
  apply live_to_completed_frame; [simpl; tauto|]. right. right.
  split; [vm_compute; discriminate|vm_compute; discriminate].
Defined.

Lemma status_sweep_invariant_witness :
  Forall ts_ok (matches sample_store) /\
  Forall ts_ok (matches (fst (status_sweep sample_db now_a now_a sample_store))) /\
  Forall2 (fun m m' => status_rank (Match.status m) <= status_rank (Match.status m'))%nat
          (matches sample_store) (matches (fst (status_sweep sample_db now_a now_a sample_store))).
Proof.
  assert (H : Forall ts_ok (matches sample_store)) by (apply (bool_decide_unpack _); vm_compute; reflexivity).
  split; [exact H|]. apply status_sweep_invariant. exact H.
Defined.

Lemma status_sweep_idempotent_witness :
  sweep_safe sample_db sample_store = true /\
  status_sweep sample_db now_a now_a (fst (status_sweep sample_db now_a now_a sample_store)) =
    status_sweep sample_db now_a now_a sample_store.
Proof. split; [exact sample_sweep_safe|]. apply status_sweep_idempotent. exact sample_sweep_safe. Defined.

