(* ===== verification/ReminderDispatch.v ===== *)
(** * ReminderDispatch: the two reminder senders

    - Phase 3 of [management/commands/update_match_statuses.py]
      (lines 55-86): every unsent [Reminder] whose send time
      [match_time - notify_minutes_before] has come gets one call of
      [send_mail]; on success it is marked sent, on a failed delivery the
      failure is logged and the row stays unsent, to be retried by the
      next run.  A missing team raises while the subject is composed, and
      again in the [except] handler, which formats the match: the
      exception leaves the loop.  [select_related('match', ...)] is an
      inner join: a reminder whose match row is gone is not in the
      queryset.
    - [management/commands/send_due_reminders.py] (lines 11-55): every
      unsent [MatchReminder] whose notify time has come is sent if it has
      an e-mail address, and then marked sent whatever happened.  Its
      match and teams are read outside any [try]: a missing row ends the
      command.

    The foreign keys of [models.py] ([Match.team1], [Match.team2],
    [Match.tournament], [Reminder.match]) are [on_delete=CASCADE], so a
    store the program reaches has no such dangling row; the theorems
    assume it ([dispatch_refs_ok]).

    The transport is a function [deliver] telling, for the run, which
    messages [send_mail] delivers ([false]: it raised).  A message is
    modelled by its recipient, its subject and the link line the body
    ends with; the rest of the body is [strftime] text that no decision
    depends on. *)

From S2P Require Import Prelude Models Samples.
From Stdlib Require Import List.
Import ListNotations.
Local Open Scope Z_scope.

Record Mail := mkMail { recipient : string; subject : string; link_line : string }.

(** What a run prints, per reminder it acts on. *)
Inductive log_entry :=
  | ReminderSent (reminder_id : nat) (m : Mail)
  | ReminderFailed (reminder_id : nat) (email : string).

Definition log_sent_id (e : log_entry) : option nat :=
  match e with ReminderSent k _ => Some k | ReminderFailed _ _ => None end.

Definition log_id (e : log_entry) : nat :=
  match e with ReminderSent k _ | ReminderFailed k _ => k end.

(** [send_time = match_time - timedelta(minutes=notify_minutes_before)];
    the test [send_time <= now]. *)
Definition reminder_due (match_time : instant) (notify_minutes_before : nat) (now : instant) : bool :=
  Z.leb (match_time - minutes (Z.of_nat notify_minutes_before)) now.

(** ** Phase 3 of [update_match_statuses] ([Reminder]) *)

(** The subject and link line of lines 63-76; [None] when a team row is
    missing. *)
Definition upcoming_match_mail (s : Store) (m : Match.t) (email : string) : option Mail :=
  match team_name s (Match.team1 m), team_name s (Match.team2 m) with
  | Some n1, Some n2 =>
      Some (mkMail email ("Upcoming Match: " ++ n1 ++ " vs " ++ n2)
              ("Watch Live: " ++
               (if String.eqb (Match.youtube_live_url m) ""
                then "Link will be available when live" else Match.youtube_live_url m)))
  | _, _ => None
  end.

(** Lines 59-86 for one row of [Reminder.objects.filter(sent=False)];
    [select_related('match', 'match__tournament')] is an inner join, so a
    row whose match or tournament is missing is not iterated.  A missing
    team raises inside the [try]; the handler then formats
    [{reminder.match}], whose [__str__] reads the team again and raises
    out of the loop: [None]. *)
Definition send_reminder_row (deliver : Mail -> bool) (s : Store) (now : instant)
    (r : Reminder.t) : option (Reminder.t * list log_entry) :=
  if Reminder.sent r then Some (r, []) else
  match reminder_match s r with
  | None => Some (r, [])
  | Some m =>
      if match_tournament s m is Some _ then
      if reminder_due (Match.match_time m) (Reminder.notify_minutes_before r) now then
        match upcoming_match_mail s m (Reminder.email r) with
        | Some mail =>
            if deliver mail then Some (Reminder.save_sent r, [ReminderSent (Reminder.id r) mail])
            else Some (r, [ReminderFailed (Reminder.id r) (Reminder.email r)])
        | None => None
        end
      else Some (r, [])
      else Some (r, [])
  end.

(** Lines 55-86: the new store, the log, and whether an exception
    escaped. *)
Definition send_reminders (deliver : Mail -> bool) (now : instant) (s : Store)
    : Store * list log_entry * bool :=
  let '(rs, log, raised) := for_each_logged (send_reminder_row deliver s now) (reminders s) in
  (with_reminders s rs, log, raised).

(** ** [send_due_reminders] ([MatchReminder]) *)

(** The body's last line (lines 29-32): the stream link of a live match,
    the recap of a completed one, else nothing. *)
Definition due_link_line (m : Match.t) : string :=
  match Match.status m with
  | Match.live => if String.eqb (Match.youtube_live_url m) "" then ""
                  else "Watch Live: " ++ Match.youtube_live_url m
  | Match.completed => if String.eqb (Match.youtube_recap_url m) "" then ""
                       else "View Recap: " ++ Match.youtube_recap_url m
  | Match.upcoming => ""
  end.

(** Lines 18-55 for one row; [None] is an exception that ends the
    command (the match, a team or the tournament row is missing: they are
    read at lines 18, 24 and 26, outside the [try]). *)
Definition send_due_row (deliver : Mail -> bool) (s : Store) (now : instant)
    (r : MatchReminder.t) : option (MatchReminder.t * list log_entry) :=
  if MatchReminder.sent r then Some (r, []) else
  match match_reminder_match s r with
  | None => None
  | Some m =>
      if reminder_due (Match.match_time m) (MatchReminder.notify_minutes_before r) now then
        match team_name s (Match.team1 m), team_name s (Match.team2 m), match_tournament s m with
        | Some n1, Some n2, Some _ =>
            let log :=
              if String.eqb (MatchReminder.email r) "" then []
              else
                let mail := mkMail (MatchReminder.email r)
                                   ("Match Reminder: " ++ n1 ++ " vs " ++ n2) (due_link_line m) in
                if deliver mail then [ReminderSent (MatchReminder.id r) mail]
                else [ReminderFailed (MatchReminder.id r) (MatchReminder.email r)] in
            Some (MatchReminder.save_sent r, log)
        | _, _, _ => None
        end
      else Some (r, [])
  end.

(** [Command.handle] of [send_due_reminders.py]. *)
Definition send_due_reminders (deliver : Mail -> bool) (now : instant) (s : Store)
    : Store * list log_entry * bool :=
  let '(rs, log, raised) := for_each_logged (send_due_row deliver s now) (match_reminders s) in
  (with_match_reminders s rs, log, raised).

Local Close Scope Z_scope.

(** ** One row of phase 3 *)

Section Phase3Row.
Context (deliver : Mail -> bool) (s : Store) (now : instant).

(** Every entry a row logs carries the row's id, and only unsent rows log. *)
Lemma send_reminder_row_log r r' log e :
  send_reminder_row deliver s now r = Some (r', log) -> In e log ->
  log_id e = Reminder.id r /\ Reminder.sent r = false.
Proof.
  unfold send_reminder_row. destruct (Reminder.sent r); [by intros [= _ <-]|].
  repeat case_match; intros [= _ <-]; simpl; intuition; subst; done.
Qed.

(** A row that logs a delivery is saved as sent. *)
Lemma send_reminder_row_sent r r' log k mail :
  send_reminder_row deliver s now r = Some (r', log) -> In (ReminderSent k mail) log ->
  r' = Reminder.save_sent r.
Proof.
  unfold send_reminder_row. destruct (Reminder.sent r); [by intros [= _ <-]|].
  repeat case_match; intros [= <- <-]; simpl; intuition; discriminate.
Qed.

(** The row is either unchanged or an unsent row now marked sent. *)
Lemma send_reminder_row_frame r r' log :
  send_reminder_row deliver s now r = Some (r', log) ->
  r' = r \/ (Reminder.sent r = false /\ r' = Reminder.save_sent r).
Proof.
  unfold send_reminder_row. destruct (Reminder.sent r) eqn:Hs; [intros [= <- _]; by left|].
  repeat case_match; intros [= <- _]; auto.
Qed.

Lemma send_reminder_row_log_le r r' log (P : log_entry -> bool) :
  send_reminder_row deliver s now r = Some (r', log) -> countb P log <= 1.
Proof.
  unfold send_reminder_row. repeat case_match; intros [= _ <-]; unfold countb; simpl;
    repeat case_match; simpl; lia.
Qed.

(** The log of a row, empty when the row raises. *)
Definition row_log (r : Reminder.t) : list log_entry :=
  match send_reminder_row deliver s now r with Some (_, log) => log | None => [] end.

Lemma row_log_ids r e : In e (row_log r) -> log_id e = Reminder.id r.
Proof.
  unfold row_log. destruct (send_reminder_row deliver s now r) as [[r' log]|] eqn:Hr; [|done].
  intros He. by apply (send_reminder_row_log r r' log e Hr He).
Qed.

Lemma row_log_le r P : countb P (row_log r) <= 1.
Proof.
  unfold row_log. destruct (send_reminder_row deliver s now r) as [[r' log]|] eqn:Hr;
    [by apply (send_reminder_row_log_le r r' log P Hr)|unfold countb; simpl; lia].
Qed.

(** The run processes a prefix of the table, rewriting each processed
    row by its result and logging their logs. *)
Lemma send_reminders_prefix :
  exists pre suf outs, reminders s = pre ++ suf /\
    Forall2 (fun r o => send_reminder_row deliver s now r = Some o) pre outs /\
    reminders (fst (fst (send_reminders deliver now s))) = map fst outs ++ suf /\
    snd (fst (send_reminders deliver now s)) = concat (map row_log pre).
Proof.
  destruct (for_each_logged_prefix (send_reminder_row deliver s now) (reminders s))
    as (pre & suf & outs & Hs & Hf & Hrows & Hlog).
  exists pre, suf, outs. split_and!; [done|done| |].
  - unfold send_reminders. destruct (for_each_logged _ _) as [[rs log] raised]. done.
  - unfold send_reminders. destruct (for_each_logged _ _) as [[rs log] raised]. simpl in *.
    rewrite Hlog. clear -Hf. induction Hf as [|r [r' log] pre outs Hr _ IH]; [done|].
    simpl. unfold row_log at 1. rewrite Hr. by f_equal.
Qed.
End Phase3Row.

(** ** Counting log entries over rows with unique ids *)

Section UniqueLog.
Context {A : Type} (key : A -> nat) (g : A -> list log_entry) (P : log_entry -> bool) (k : nat).
Hypothesis g_ids : forall r e, In e (g r) -> log_id e = key r.
Hypothesis g_le : forall r, countb P (g r) <= 1.
Hypothesis P_id : forall e, P e = true -> log_id e = k.

Lemma countb_row_other r : key r <> k -> countb P (g r) = 0.
Proof.
  intros Hne. unfold countb. destruct (List.filter P (g r)) as [|e l] eqn:Hf; [done|].
  exfalso. assert (He : In e (List.filter P (g r))) by (rewrite Hf; left; done).
  apply filter_In in He as [Hin HP]. apply Hne. rewrite <- (g_ids r e Hin). by apply P_id.
Qed.

(** With unique keys, the entries satisfying [P] come from the one row
    with key [k], so there is at most one. *)
Lemma countb_concat_unique rs :
  NoDup (map key rs) ->
  countb P (concat (map g rs)) <= 1 /\
  (countb P (concat (map g rs)) = 1 -> exists r, In r rs /\ key r = k /\ countb P (g r) = 1).
Proof.
  induction rs as [|r rs IH]; intros Hnd; simpl; [unfold countb; simpl; lia|].
  inversion Hnd as [|? ? Hnot Hnd']; subst. rewrite countb_app.
  destruct (IH Hnd') as [Hle Hone]. destruct (decide (key r = k)) as [Hk|Hk].
  - assert (Hz : countb P (concat (map g rs)) = 0).
    { destruct (countb P (concat (map g rs))) as [|[|]] eqn:Hc; [done| |lia].
      destruct (Hone eq_refl) as (r' & Hin & Hk' & _). exfalso. apply Hnot.
      rewrite Hk, <- Hk'. by apply in_map. }
    rewrite Hz. pose proof (g_le r). split; [lia|]. intros H1. exists r. split_and!; auto with datatypes; lia.
  - rewrite (countb_row_other r Hk). split; [lia|]. simpl. intros H1.
    destruct (Hone H1) as (r' & ? & ? & ?). exists r'. auto with datatypes.
Qed.
End UniqueLog.

(** ** Phase 3 on the whole table *)








(** C21 (frame): whatever happens, an exception included, phase 3
    changes no reminder except by marking an unsent one sent; in
    particular a sent reminder is never reset. *)
Theorem send_reminders_frame (deliver : Mail -> bool) (now : instant) (s : Store) :
  Forall2 (fun r r' => r' = r \/ (Reminder.sent r = false /\ r' = Reminder.save_sent r))
          (reminders s) (reminders (fst (fst (send_reminders deliver now s)))).
Proof.
  unfold send_reminders.
  pose proof (for_each_logged_Forall2 (fun r r' => r' = r \/ (Reminder.sent r = false /\ r' = Reminder.save_sent r))
                (send_reminder_row deliver s now) (reminders s) (fun r => or_introl eq_refl)
                (fun r r' log H => send_reminder_row_frame deliver s now r r' log H)) as H.
  destruct (for_each_logged _ _) as [[rs log] raised]. done.
Qed.

Definition is_sent_to (k : nat) (e : log_entry) : bool := bool_decide (log_sent_id e = Some k).

Lemma is_sent_to_id k e : is_sent_to k e = true -> log_id e = k.
Proof. unfold is_sent_to. rewrite bool_decide_eq_true. destruct e; simpl; congruence. Qed.

Lemma send_reminders_keys (deliver : Mail -> bool) (now : instant) (s : Store) :
  map Reminder.id (reminders (fst (fst (send_reminders deliver now s)))) = map Reminder.id (reminders s).
Proof.
  pose proof (send_reminders_frame deliver now s) as H.
  induction H as [|r r' rs rs' Hr _ IH]; [done|]. simpl. rewrite IH.
  by destruct Hr as [->|[_ ->]].
Qed.

(** A run logs at most one delivery of the reminder with id [k]; if it
    does, that reminder was unsent and is saved as sent. *)
Lemma send_reminders_count (deliver : Mail -> bool) (now : instant) (s : Store) (k : nat) :
  keys_unique Reminder.id (reminders s) ->
  countb (is_sent_to k) (snd (fst (send_reminders deliver now s))) <= 1 /\
  (countb (is_sent_to k) (snd (fst (send_reminders deliver now s))) = 1 ->
   exists r, In r (reminders s) /\ Reminder.id r = k /\ Reminder.sent r = false /\
        In (Reminder.save_sent r) (reminders (fst (fst (send_reminders deliver now s))))).
Proof.
  intros Hu. destruct (send_reminders_prefix deliver s now) as (pre & suf & outs & Hs & Hf & Hrows & Hlog).
  rewrite Hlog. unfold keys_unique in Hu. rewrite Hs, map_app in Hu. apply NoDup_app_remove_r in Hu.
  destruct (countb_concat_unique Reminder.id (row_log deliver s now) (is_sent_to k) k
              (row_log_ids deliver s now) (fun r => row_log_le deliver s now r _) (is_sent_to_id k)
              pre Hu) as [Hle Hone].
  split; [done|]. intros H1. destruct (Hone H1) as (r & Hin & Hk & Hc). exists r.
  unfold countb in Hc. destruct (List.filter _ _) as [|e l] eqn:Hflt; [done|].
  assert (He : In e (List.filter (is_sent_to k) (row_log deliver s now r))) by (rewrite Hflt; by left).
  apply filter_In in He as [He Hsk]. unfold row_log in He.
  destruct (send_reminder_row deliver s now r) as [[r' log]|] eqn:Hr; [|done].
  unfold is_sent_to in Hsk. rewrite bool_decide_eq_true in Hsk. destruct e as [k' mail|]; [|done].
  split_and!; [rewrite Hs; apply in_or_app; by left|done|by apply (send_reminder_row_log deliver s now r r' log _ Hr He)|].
  rewrite Hrows. apply in_or_app. left.
  assert (Hin' : exists o, In (r, o) (combine pre outs) /\ send_reminder_row deliver s now r = Some o).
  { clear -Hf Hin. induction Hf as [|r0 o0 pre0 outs0 H0 _ IH]; [done|].
    destruct Hin as [<-|Hin]; [exists o0; split; [by left|done]|].
    destruct (IH Hin) as (o & ? & ?). exists o. split; [by right|done]. }
  destruct Hin' as (o & Hco & Ho). rewrite Hr in Ho. injection Ho as <-.
  apply in_combine_r in Hco. apply (in_map fst) in Hco. simpl in Hco.
  by rewrite <- (send_reminder_row_sent deliver s now r r' log k' mail Hr He).
Qed.

(** C8 (safety): across two consecutive runs of phase 3 (any clocks,
    any transports, any changes to matches or teams in between, either
    run possibly ended by an exception, the reminders table handed from
    the first run to the second), a reminder is reported delivered at
    most once: the retry of failures never duplicates a delivery. *)
Theorem send_reminders_at_most_once (deliver1 deliver2 : Mail -> bool) (now1 now2 : instant)
    (s s2 : Store) (k : nat) :
  keys_unique Reminder.id (reminders s) ->
  reminders s2 = reminders (fst (fst (send_reminders deliver1 now1 s))) ->
  countb (is_sent_to k)
    (snd (fst (send_reminders deliver1 now1 s)) ++ snd (fst (send_reminders deliver2 now2 s2))) <= 1.
Proof.
  intros Hu Hs2. rewrite countb_app.
  assert (Hu2 : keys_unique Reminder.id (reminders s2))
    by (unfold keys_unique; rewrite Hs2, send_reminders_keys; done).
  destruct (send_reminders_count deliver1 now1 s k Hu) as [Hle1 Hone1].
  destruct (send_reminders_count deliver2 now2 s2 k Hu2) as [Hle2 Hone2].
  destruct (countb (is_sent_to k) (snd (fst (send_reminders deliver1 now1 s)))) as [|[|]] eqn:Hc1;
    [lia| |lia].
  destruct (Hone1 eq_refl) as (r & _ & Hk & _ & Hsaved).
  destruct (countb (is_sent_to k) (snd (fst (send_reminders deliver2 now2 s2)))) as [|[|]] eqn:Hc2;
    [lia| |lia].
  exfalso. destruct (Hone2 eq_refl) as (r2 & Hin2 & Hk2 & Hunsent & _).
  rewrite Hs2 in Hin2, Hu2.
  assert (Reminder.save_sent r = r2) as <- by (eapply keys_unique_inj; eauto; simpl; congruence).
  done.
Qed.

(** ** [send_due_reminders] *)

(** The referential integrity the command relies on: every unsent
    [MatchReminder]'s match exists, and so do that match's teams and
    tournament. *)
Definition due_refs_ok (s : Store) : bool :=
  forallb (fun r =>
    MatchReminder.sent r ||
    match match_reminder_match s r with
    | Some m => if team_name s (Match.team1 m) is Some _ then
                  if team_name s (Match.team2 m) is Some _ then
                    if match_tournament s m is Some _ then true else false
                  else false
                else false
    | None => false
    end) (match_reminders s).

(** [send_due_row] with its exception case read as "row unchanged";
    the two agree on every row when [due_refs_ok] holds. *)
Definition send_due_row_total (deliver : Mail -> bool) (s : Store) (now : instant)
    (r : MatchReminder.t) : MatchReminder.t * list log_entry :=
  match send_due_row deliver s now r with Some p => p | None => (r, []) end.

Lemma send_due_row_some deliver s now r :
  due_refs_ok s = true -> In r (match_reminders s) ->
  send_due_row deliver s now r = Some (send_due_row_total deliver s now r).
Proof.
  intros Hok Hin. unfold due_refs_ok in Hok. rewrite forallb_forall in Hok.
  specialize (Hok r Hin). unfold send_due_row_total, send_due_row in *.
  destruct (MatchReminder.sent r); [done|]. simpl in Hok.
  destruct (match_reminder_match s r) as [m|]; [|done].
  destruct (reminder_due _ _ _); [|done].
  destruct (team_name s (Match.team1 m)), (team_name s (Match.team2 m)),
    (match_tournament s m); done.
Qed.

(** C9 (divergence from the spec): [send_due_reminders] marks every due
    unsent [MatchReminder] sent, whatever the transport does: the
    reminder is saved as sent even when [send_mail] raised, and when it
    has no e-mail address no message is attempted at all.  A failed
    delivery is never retried. *)
Theorem send_due_reminders_marks_sent (deliver : Mail -> bool) (now : instant) (s : Store)
    (r : MatchReminder.t) (m : Match.t) :
  due_refs_ok s = true -> In r (match_reminders s) -> MatchReminder.sent r = false ->
  match_reminder_match s r = Some m ->
  reminder_due (Match.match_time m) (MatchReminder.notify_minutes_before r) now = true ->
  snd (send_due_reminders deliver now s) = false /\
  In (MatchReminder.save_sent r) (match_reminders (fst (fst (send_due_reminders deliver now s)))).
Proof.
  intros Hok Hin Hs Hm Hdue. unfold send_due_reminders.
  rewrite (for_each_logged_rows _ (send_due_row_total deliver s now))
    by (intros; by apply send_due_row_some). split; [done|]. simpl.
  eapply in_map_eq; [done|]. pose proof (send_due_row_some deliver s now r Hok Hin) as Hrow.
  unfold send_due_row in Hrow. rewrite Hs, Hm, Hdue in Hrow.
  destruct (team_name s (Match.team1 m)) eqn:H1, (team_name s (Match.team2 m)) eqn:H2,
    (match_tournament s m) eqn:H3; [|discriminate..].
  unfold send_due_row_total, send_due_row. rewrite Hs, Hm, Hdue, H1, H2, H3. done.
Qed.

(** ** Witnesses on the sample store *)

Definition always_deliver (_ : Mail) : bool := true.



Lemma sample_reminder_keys : keys_unique Reminder.id (reminders sample_store).
Proof. apply (bool_decide_unpack _). vm_compute. reflexivity. Qed.

Lemma send_reminders_at_most_once_witness :
  countb (is_sent_to 1)
    (snd (fst (send_reminders always_deliver now_a sample_store)) ++
     snd (fst (send_reminders always_deliver (now_a + minutes 60)%Z
            (fst (fst (send_reminders always_deliver now_a sample_store)))))) <= 1.
Proof.
  apply send_reminders_at_most_once; [exact sample_reminder_keys|reflexivity].
Defined.

Lemma send_due_reminders_marks_sent_witness :
  snd (send_due_reminders (fun _ => false) now_a sample_store) = false /\
  In (MatchReminder.save_sent mr_due)
     (match_reminders (fst (fst (send_due_reminders (fun _ => false) now_a sample_store)))).
Proof.
  apply (send_due_reminders_marks_sent (fun _ => false) now_a sample_store mr_due m_due);
    [vm_compute; reflexivity|simpl; tauto|reflexivity|reflexivity|vm_compute; reflexivity].
Defined.

