(* ===== verification/UpdateMatchStatuses.v ===== *)
(** * UpdateMatchStatuses: [Command.handle] of [update_match_statuses.py]

    The command (lines 13-88) runs phase 1 and phase 2 ([StatusSweep])
    and then phase 3 ([ReminderDispatch]), each phase reading the clock
    ([timezone.now()]) for itself.  An exception in phase 1 ends the
    command before the reminders are looked at; phase 2 raises nothing;
    phase 3 would raise, after saving the rows before it, if a due
    reminder's match had lost a team, which the CASCADE foreign keys
    rule out.  The Celery task of [tasks.py] is one call of this
    command. *)

From S2P Require Import Prelude Models Timezone Samples StatusSweep ReminderDispatch.
From Stdlib Require Import List.
Import ListNotations.

(** The three clock readings of one run. *)
Record Clock := mkClock { now_phase1 : instant; now_phase2 : instant; now_phase3 : instant }.

(** Lines 13-88: the new store, what was printed, and whether an
    exception escaped. *)
Definition handle (db : list zone) (deliver : Mail -> bool) (c : Clock) (s : Store)
    : Store * list log_entry * bool :=
  let '(s2, raised) := status_sweep db (now_phase1 c) (now_phase2 c) s in
  if raised then (s2, [], true)
  else send_reminders deliver (now_phase3 c) s2.

(** [tasks.py] lines 4-8: the Celery task calls the command. *)
Definition update_match_statuses_task (db : list zone) (deliver : Mail -> bool) (c : Clock) (s : Store)
    : Store * list log_entry * bool :=
  handle db deliver c s.

(** The scheduler runs the task again and again.  A state is the store
    and the last clock reading; a run reads its three clocks in order, the
    first at least [period] after the previous run's last one, and any
    transport may answer. *)
Definition run_step (db : list zone) (period : Z) (x y : Store * instant) : Prop :=
  exists deliver c, (snd x + period <= now_phase1 c <= now_phase2 c)%Z /\ (now_phase2 c <= now_phase3 c)%Z /\
    y = (fst (fst (update_match_statuses_task db deliver c (fst x))), now_phase3 c).

Lemma status_sweep_reminders db now1 now2 s :
  reminders (fst (status_sweep db now1 now2 s)) = reminders s.
Proof.
  unfold status_sweep, upcoming_to_live. destruct (for_each_save _ _) as [ms []]; done.
Qed.

(** When every upcoming match's zone resolves, one run
    of the command is the sweep specification applied to every match,
    followed by phase 3 on the resulting store. *)
Theorem handle_refines db deliver c s :
  sweep_safe db s = true ->
  handle db deliver c s =
    send_reminders deliver (now_phase3 c)
      (with_matches s (map (sweep_spec (now_phase1 c) (now_phase2 c)) (matches s))).
Proof.
  intros Hsafe. unfold handle. by rewrite status_sweep_refines by done.
Qed.

(** A run either raised in phase 1, logging nothing and leaving the
    reminders alone, or ran phase 3 on a store whose reminders are the
    ones it started with. *)
Lemma handle_cases db deliver c s :
  (snd (fst (handle db deliver c s)) = [] /\
   reminders (fst (fst (handle db deliver c s))) = reminders s) \/
  exists s2, reminders s2 = reminders s /\
    handle db deliver c s = send_reminders deliver (now_phase3 c) s2.
Proof.
  unfold handle. pose proof (status_sweep_reminders db (now_phase1 c) (now_phase2 c) s) as Hr.
  destruct (status_sweep _ _ _ _) as [s2 raised]. simpl in Hr. destruct raised; [by left|].
  right. by exists s2.
Qed.

(** C22 (safety): across two consecutive runs of the whole command, with
    any zone database, transports and clocks, a reminder is reported
    delivered at most once. *)
Theorem handle_at_most_once db (deliver1 deliver2 : Mail -> bool) (c1 c2 : Clock) (s : Store) (k : nat) :
  keys_unique Reminder.id (reminders s) ->
  countb (is_sent_to k)
    (snd (fst (handle db deliver1 c1 s)) ++
     snd (fst (handle db deliver2 c2 (fst (fst (handle db deliver1 c1 s)))))) <= 1.
Proof.
  intros Hu. set (s1 := fst (fst (handle db deliver1 c1 s))).
  destruct (handle_cases db deliver1 c1 s) as [[Hl1 Hr1]|(sa & Hsa & Hs1)];
  destruct (handle_cases db deliver2 c2 s1) as [[Hl2 Hr2]|(sb & Hsb & Hs2)];
  [rewrite Hl1, Hl2|rewrite Hl1, Hs2|rewrite Hl2, Hs1|rewrite Hs1, Hs2]; rewrite ?app_nil_r.
  - unfold countb. simpl. lia.
  - apply (send_reminders_count deliver2 (now_phase3 c2) sb k).
    unfold keys_unique. rewrite Hsb. fold s1 in Hr1. by rewrite Hr1.
  - apply (send_reminders_count deliver1 (now_phase3 c1) sa k).
    unfold keys_unique. by rewrite Hsa.
  - apply send_reminders_at_most_once; [unfold keys_unique; by rewrite Hsa|].
    rewrite Hsb. unfold s1. by rewrite Hs1.
Qed.

(** ** Progress under the scheduler *)

Lemma send_reminders_matches deliver now s : matches (fst (fst (send_reminders deliver now s))) = matches s.
Proof. unfold send_reminders. by destruct (for_each_logged _ _) as [[rs log] raised]. Qed.

(** One run of a safe store sweeps every match and keeps the store safe. *)
Lemma run_step_sweeps db period s t y :
  sweep_safe db s = true -> run_step db period (s, t) y ->
  exists c1 c2, (t + period <= c1 <= c2)%Z /\ (c2 <= snd y)%Z /\
    matches (fst y) = map (sweep_spec c1 c2) (matches s) /\ sweep_safe db (fst y) = true.
Proof.
  intros Hsafe (deliver & c & Hc1 & Hc2 & ->). exists (now_phase1 c), (now_phase2 c). cbn [fst snd] in *.
  split_and!; [lia|lia|lia|..]; unfold update_match_statuses_task; rewrite handle_refines by done.
  - by rewrite send_reminders_matches.
  - unfold send_reminders. destruct (for_each_logged _ _) as [[rs log] raised].
    by apply (sweep_safe_after db (now_phase1 c) (now_phase2 c)) in Hsafe.
Qed.

Lemma run_step_exists db period x : exists y, run_step db period x y.
Proof.
  set (t := (snd x + period)%Z). eexists. exists (fun _ => true), (mkClock t t t). cbn. split_and!; [lia|lia|lia|done].
Qed.

Lemma scored_match_completes_within db period (N : nat) :
  (0 < period)%Z -> forall s t i m,
  sweep_safe db s = true -> nth_error (matches s) i = Some m -> Match.scored m = true ->
  (Match.match_time m + grace_period < t + Z.of_nat N * period)%Z ->
  eventually (run_step db period)
    (fun x => exists m', nth_error (matches (fst x)) i = Some m' /\ Match.status m' = Match.completed) (s, t).
Proof.
  intros Hp. induction N as [|N IH]; intros s t i m Hsafe Hm Hsc Ht;
    (destruct (decide (Match.status m = Match.completed)) as [Hdone|Hdone]; [apply ev_now; by exists m|]);
    apply ev_later; [apply run_step_exists| |apply run_step_exists|];
    intros [s' t'] Hstep; destruct (run_step_sweeps _ _ _ _ _ Hsafe Hstep) as (c1 & c2 & Hc & Ht' & Hms & Hsafe');
    cbn [fst snd] in *; destruct (sweep_spec_scored c1 c2 m) as [Hsc' Hmt'].
  - apply ev_now. simpl fst. exists (sweep_spec c1 c2 m). rewrite Hms, nth_error_map, Hm. split; [done|].
    apply sweep_spec_completes; [done|lia].
  - apply (IH s' t' i (sweep_spec c1 c2 m)); [done| |by rewrite Hsc'|lia].
    by rewrite Hms, nth_error_map, Hm.
Qed.

(** C6 (liveness): when the scheduler keeps running the task, each run
    at least [period] after the previous one, every scored match of a
    store whose upcoming matches all have a tournament with a resolvable
    zone is eventually completed, whatever its stream link and whatever
    the transports answer. *)
Theorem scored_match_eventually_completed db period s t i m :
  (0 < period)%Z -> sweep_safe db s = true -> nth_error (matches s) i = Some m -> Match.scored m = true ->
  eventually (run_step db period)
    (fun x => exists m', nth_error (matches (fst x)) i = Some m' /\ Match.status m' = Match.completed) (s, t).
Proof.
  intros Hp Hsafe Hm Hsc.
  apply (scored_match_completes_within db period (Z.to_nat (Match.match_time m + grace_period - t) + 1)%nat Hp s t i m);
    [done..|]. rewrite Nat2Z.inj_add. nia.
Qed.

(** ** Witnesses on the sample store *)

Definition sample_clock : Clock := mkClock now_a now_a now_a.

Lemma handle_refines_witness :
  handle sample_db always_deliver sample_clock sample_store =
    send_reminders always_deliver now_a
      (with_matches sample_store (map (sweep_spec now_a now_a) (matches sample_store))).
Proof. apply handle_refines. exact sample_sweep_safe. Defined.

Lemma handle_at_most_once_witness :
  countb (is_sent_to 1)
    (snd (fst (handle sample_db always_deliver sample_clock sample_store)) ++
     snd (fst (handle sample_db always_deliver sample_clock
                 (fst (fst (handle sample_db always_deliver sample_clock sample_store)))))) <= 1.
Proof. apply handle_at_most_once. exact sample_reminder_keys. Defined.

Lemma scored_match_eventually_completed_witness :
  eventually (run_step sample_db (minutes 1))
    (fun x => exists m', nth_error (matches (fst x)) 1 = Some m' /\ Match.status m' = Match.completed) (sample_store, now_a).
Proof. apply (scored_match_eventually_completed _ _ _ _ _ m_streamed); [vm_compute; reflexivity|exact sample_sweep_safe|reflexivity|reflexivity]. Defined.
