(* ===== verification/Stats.v ===== *)
(** * Stats: the team statistics of [views.py]

    - [team_detail] (lines 159-180) and [team_tournaments] (lines
      512-537) count a team's matches with [.filter(...).count()] on each
      side ([matches_as_team1], [matches_as_team2]) and add the two.
    - [teams_page] (lines 61-108) and [overall_match_stats] (lines
      707-735) compute the same figures as [annotate(Count(...) +
      Count(...))] over both reverse relations at once.  The ORM joins
      both relations into one query, so each team row is repeated once
      per (team1-side row, team2-side row) pair, and each [Count] counts
      that product: [join_rows], [count_left], [count_right] model the
      SQL, and [teams_page_stats] the view.
    - [win_rate] is [round((wins / matches_played) * 100, 1) if
      matches_played else 0], in tenths of a percent, computed on
      rationals with round-half-even (see the root file for the float
      caveat).
    - The ranking [order_by('-points', '-wins', 'name')] is Stdlib's merge
      sort under the lexicographic order [RankOrder.leb]; [points] is
      [wins * 3].
    - [points_delta] (lines 110-126) builds a [dict] of recent wins per
      team id, modelled as a stdpp [gmap nat nat].

    SQL comparisons with a [NULL] operand are unknown and filter the row
    out: [score_gt] returns [false] unless both scores are present. *)

From S2P Require Import Prelude Models Samples.
From Stdlib Require Import List Sorting.Mergesort Sorting.Sorted Orders.
Import ListNotations.

(** ** Row predicates shared by the views *)

(** [a > b] in SQL on nullable integers. *)
Definition score_gt (a b : option nat) : bool :=
  match a, b with Some x, Some y => Nat.ltb y x | _, _ => false end.

(** [status='completed', team1_score__isnull=False, team2_score__isnull=False] *)
Definition completed_scored (m : Match.t) : bool :=
  bool_decide (Match.status m = Match.completed) && Match.scored m.

(** The team's side wins: [team1_score__gt=F('team2_score')] on side 1,
    [team2_score__gt=F('team1_score')] on side 2. *)
Definition won_as_team1 (m : Match.t) : bool := score_gt (Match.team1_score m) (Match.team2_score m).
Definition won_as_team2 (m : Match.t) : bool := score_gt (Match.team2_score m) (Match.team1_score m).

(** [stage__icontains='final'] *)
Definition is_final (m : Match.t) : bool := icontains (Match.stage m) "final".

Definition on_side1 (k : nat) (m : Match.t) : bool := Nat.eqb (Match.team1 m) k.
Definition on_side2 (k : nat) (m : Match.t) : bool := Nat.eqb (Match.team2 m) k.

(** ** Win rate *)

(** [n / d] rounded to the nearest integer, ties to even ([d > 0]). *)
Definition div_round_half_even (n d : nat) : nat :=
  let q := n / d in
  let r := n mod d in
  if Nat.ltb (2 * r) d then q
  else if Nat.ltb d (2 * r) then S q
  else if Nat.even q then q else S q.

(** [round((wins / matches_played) * 100, 1) if matches_played else 0],
    in tenths of a percent. *)
Definition win_rate (wins matches_played : nat) : nat :=
  if Nat.eqb matches_played 0 then 0 else div_round_half_even (1000 * wins) matches_played.

(** ** [team_detail] *)

Record TeamDetail := mkTeamDetail {
  td_matches_played : nat; td_wins : nat; td_championships : nat; td_win_rate : nat }.

(** Lines 159-180 for the team with primary key [k]. *)
Definition team_detail (ms : list Match.t) (k : nat) : TeamDetail :=
  let cs1 := fun m => on_side1 k m && completed_scored m in
  let cs2 := fun m => on_side2 k m && completed_scored m in
  let matches_played := countb cs1 ms + countb cs2 ms in
  let wins := countb (fun m => cs1 m && won_as_team1 m) ms +
              countb (fun m => cs2 m && won_as_team2 m) ms in
  let championships := countb (fun m => cs1 m && is_final m && won_as_team1 m) ms +
                       countb (fun m => cs2 m && is_final m && won_as_team2 m) ms in
  mkTeamDetail matches_played wins championships (win_rate wins matches_played).

(** ** [team_tournaments] *)

Record TeamTournaments := mkTeamTournaments {
  tt_matches_played : nat; tt_matches_won : nat; tt_win_rate : nat;
  tt_tournaments_played : nat; tt_tournaments_won : nat }.

(** Lines 512-537.  The two tournament counts are
    [Tournament.objects.filter(Q(...) | Q(...)).distinct().count()]:
    tournaments with one match satisfying the conditions of a [Q] (all
    conditions of one [filter] call refer to the same joined match). *)
Definition team_tournaments (s : Store) (k : nat) : TeamTournaments :=
  let ms := matches s in
  let cs1 := fun m => on_side1 k m && completed_scored m in
  let cs2 := fun m => on_side2 k m && completed_scored m in
  let matches_played := countb cs1 ms + countb cs2 ms in
  let matches_won := countb (fun m => cs1 m && won_as_team1 m) ms +
                     countb (fun m => cs2 m && won_as_team2 m) ms in
  let in_tournament t m := Nat.eqb (Match.tournament m) (Tournament.id t) in
  let tournaments_played :=
    countb (fun t => existsb (fun m => in_tournament t m && (on_side1 k m || on_side2 k m)) ms)
           (tournaments s) in
  let tournaments_won :=
    countb (fun t => existsb (fun m => in_tournament t m &&
               ((on_side1 k m && is_final m && won_as_team1 m) ||
                (on_side2 k m && is_final m && won_as_team2 m))) ms)
           (tournaments s) in
  mkTeamTournaments matches_played matches_won (win_rate matches_won matches_played)
                    tournaments_played tournaments_won.

(** ** Win rate: nearest tenth, bounded *)

Lemma div_round_half_even_nearest n d :
  0 < d ->
  2 * n <= (2 * div_round_half_even n d + 1) * d /\
  2 * div_round_half_even n d * d <= 2 * n + d.
Proof.
  intros Hd. unfold div_round_half_even.
  pose proof (Nat.div_mod n d ltac:(lia)) as Hn. pose proof (Nat.mod_upper_bound n d ltac:(lia)).
  set (q := n / d) in *. set (r := n mod d) in *.
  destruct (Nat.ltb_spec (2 * r) d); [lia|].
  destruct (Nat.ltb_spec d (2 * r)); [lia|].
  destruct (Nat.even q); lia.
Qed.

Lemma div_round_half_even_le n d m :
  0 < d -> n <= m * d -> div_round_half_even n d <= m.
Proof.
  intros Hd Hn. unfold div_round_half_even.
  pose proof (Nat.div_mod n d ltac:(lia)) as Hdm. pose proof (Nat.mod_upper_bound n d ltac:(lia)).
  assert (Hq : n / d <= m) by (apply Nat.Div0.div_le_upper_bound; lia).
  destruct (Nat.ltb_spec (2 * (n mod d)) d); [lia|].
  assert (n / d < m) by (destruct (Nat.eq_dec (n / d) m); [subst; nia|lia]).
  destruct (Nat.ltb_spec d (2 * (n mod d))); [lia|]. destruct (Nat.even (n / d)); lia.
Qed.

(** C14 (bounds): the win rate is exactly 0 when no match was played;
    otherwise it is the nearest tenth of a percent to
    [wins / matches_played * 100] (at most half a tenth away), and it
    never exceeds 100% when [wins <= matches_played]. *)
Theorem win_rate_spec wins played :
  (played = 0 -> win_rate wins played = 0) /\
  (0 < played ->
     2 * (1000 * wins) <= (2 * win_rate wins played + 1) * played /\
     2 * win_rate wins played * played <= 2 * (1000 * wins) + played) /\
  (wins <= played -> win_rate wins played <= 1000).
Proof.
  unfold win_rate. split; [by intros ->|]. split.
  - intros Hp. destruct (Nat.eqb_spec played 0); [lia|]. by apply div_round_half_even_nearest.
  - intros Hw. destruct (Nat.eqb_spec played 0); [lia|]. apply div_round_half_even_le; lia.
Qed.

(** ** [team_detail]: bounds and the spec's example *)

#[local] Hint Resolve andb_prop : core.

Lemma countb_andb_le {A} (p q : A -> bool) l : countb (fun x => p x && q x) l <= countb p l.
Proof. apply countb_mono. intros x _ H. by apply andb_prop in H as [-> _]. Qed.

#[export] Hint Resolve countb_andb_le : genze.

(** For every team, [team_detail] reports no more wins
    than matches played, no more championships than wins, and a win rate
    of at most 100%. *)
Theorem team_detail_bounds ms k :
  td_wins (team_detail ms k) <= td_matches_played (team_detail ms k) /\
  td_championships (team_detail ms k) <= td_wins (team_detail ms k) /\
  td_win_rate (team_detail ms k) <= 1000.
Proof.
  assert (Hw : td_wins (team_detail ms k) <= td_matches_played (team_detail ms k)).
  { simpl. pose proof (countb_andb_le (fun m => on_side1 k m && completed_scored m) won_as_team1 ms).
    pose proof (countb_andb_le (fun m => on_side2 k m && completed_scored m) won_as_team2 ms). lia. }
  split; [done|]. split.
  - simpl. apply Nat.add_le_mono; apply countb_mono; intros m _;
      by destruct (on_side1 k m), (on_side2 k m), (completed_scored m), (is_final m),
        (won_as_team1 m), (won_as_team2 m).
  - apply win_rate_spec. exact Hw.
Qed.

(** ** The annotations of [teams_page]: two counts over one join *)

(** One side of a [LEFT OUTER JOIN]: the matching rows, or one [NULL]
    row when there is none. *)
Definition or_null {A} (l : list A) : list (option A) :=
  match l with [] => [None] | _ => map Some l end.

(** The rows of [team LEFT JOIN match m1 ON m1.team1_id = team.id
    LEFT JOIN match m2 ON m2.team2_id = team.id] for the team [k]: every
    pair of a team1-side row and a team2-side row. *)
Definition join_rows (ms : list Match.t) (k : nat) : list (option Match.t * option Match.t) :=
  list_prod (or_null (List.filter (on_side1 k) ms)) (or_null (List.filter (on_side2 k) ms)).

(** [Count('matches_as_team1', filter=c)] and [Count('matches_as_team2',
    filter=c)]: the joined rows whose side is not [NULL] and satisfies
    [c]. *)
Definition count_left (c : Match.t -> bool) (rows : list (option Match.t * option Match.t)) : nat :=
  countb (fun row => match fst row with Some m => c m | None => false end) rows.
Definition count_right (c : Match.t -> bool) (rows : list (option Match.t * option Match.t)) : nat :=
  countb (fun row => match snd row with Some m => c m | None => false end) rows.

Definition lost_as_team1 (m : Match.t) : bool := score_gt (Match.team2_score m) (Match.team1_score m).
Definition lost_as_team2 (m : Match.t) : bool := score_gt (Match.team1_score m) (Match.team2_score m).

Record TeamStats := mkTeamStats {
  st_wins : nat; st_losses : nat; st_matches_played : nat; st_championships : nat }.

(** Lines 61-96: [wins], [losses], [matches_played], [championships]. *)
Definition teams_page_annotations (ms : list Match.t) (k : nat) : TeamStats :=
  let rows := join_rows ms k in
  mkTeamStats
    (count_left (fun m => completed_scored m && won_as_team1 m) rows +
     count_right (fun m => completed_scored m && won_as_team2 m) rows)
    (count_left (fun m => completed_scored m && lost_as_team1 m) rows +
     count_right (fun m => completed_scored m && lost_as_team2 m) rows)
    (count_left completed_scored rows + count_right completed_scored rows)
    (count_left (fun m => is_final m && completed_scored m && won_as_team1 m) rows +
     count_right (fun m => is_final m && completed_scored m && won_as_team2 m) rows).

(** ** Counting over a join *)

Lemma countb_map_Some {A} (c : A -> bool) l :
  countb (fun o => match o with Some x => c x | None => false end) (map Some l) = countb c l.
Proof. induction l as [|x l IH]; [done|]. rewrite map_cons, !countb_cons, IH. done. Qed.

Lemma countb_or_null {A} (c : A -> bool) l :
  countb (fun o => match o with Some x => c x | None => false end) (or_null l) = countb c l.
Proof. destruct l as [|x l]; [done|]. apply countb_map_Some. Qed.

Lemma countb_map {A B} (c : B -> bool) (f : A -> B) l :
  countb c (map f l) = countb (fun x => c (f x)) l.
Proof. induction l as [|x l IH]; [done|]. rewrite map_cons, !countb_cons, IH. done. Qed.

Lemma countb_const {A} (b : bool) (l : list A) :
  countb (fun _ => b) l = if b then length l else 0.
Proof. destruct b; [apply countb_true|apply countb_false]. Qed.

Lemma countb_list_prod_fst {A B} (c : A -> bool) (la : list A) (lb : list B) :
  countb (fun row => c (fst row)) (list_prod la lb) = countb c la * length lb.
Proof.
  induction la as [|a la IH]; [done|]. simpl. rewrite countb_app, IH, countb_cons.
  rewrite countb_map. simpl. rewrite countb_const. destruct (c a); lia.
Qed.

Lemma countb_list_prod_snd {A B} (c : B -> bool) (la : list A) (lb : list B) :
  countb (fun row => c (snd row)) (list_prod la lb) = length la * countb c lb.
Proof.
  induction la as [|a la IH]; [done|]. simpl. rewrite countb_app, IH, countb_map.
  change (countb (fun x => c (snd (a, x))) lb) with (countb c lb). lia.
Qed.

Lemma length_or_null {A} (l : list A) : length (or_null l) = Nat.max 1 (length l).
Proof. destruct l; simpl; [done|]. rewrite length_map. lia. Qed.

Lemma countb_filter_and {A} (p c : A -> bool) l :
  countb c (List.filter p l) = countb (fun x => p x && c x) l.
Proof.
  unfold countb. induction l as [|x l IH]; [done|]. simpl.
  destruct (p x); simpl; destruct (c x); simpl; rewrite ?IH; done.
Qed.

(** Each count over the join is the count on its side times the number
    of rows the other side contributes (at least one, the [NULL] row). *)
Lemma count_left_join c ms k :
  count_left c (join_rows ms k) =
  countb (fun m => on_side1 k m && c m) ms * Nat.max 1 (countb (on_side2 k) ms).
Proof.
  unfold count_left, join_rows.
  rewrite (countb_list_prod_fst (fun o => match o with Some m => c m | None => false end)).
  rewrite countb_or_null, countb_filter_and, length_or_null. unfold countb at 3.
  done.
Qed.

Lemma count_right_join c ms k :
  count_right c (join_rows ms k) =
  Nat.max 1 (countb (on_side1 k) ms) * countb (fun m => on_side2 k m && c m) ms.
Proof.
  unfold count_right, join_rows.
  rewrite (countb_list_prod_snd (fun o => match o with Some m => c m | None => false end)).
  rewrite countb_or_null, countb_filter_and, length_or_null. unfold countb at 1.
  done.
Qed.

(** C13 (code bug): the [wins] and [matches_played] that [teams_page]
    annotates are the per-side counts of [team_detail], each multiplied
    by the number of joined rows of the other side: a team with matches
    on both sides has its figures inflated. *)
Theorem teams_page_annotations_inflated ms k :
  let n1 := Nat.max 1 (countb (on_side1 k) ms) in
  let n2 := Nat.max 1 (countb (on_side2 k) ms) in
  let side1 c := countb (fun m => on_side1 k m && c m) ms in
  let side2 c := countb (fun m => on_side2 k m && c m) ms in
  st_wins (teams_page_annotations ms k) =
    side1 (fun m => completed_scored m && won_as_team1 m) * n2 +
    n1 * side2 (fun m => completed_scored m && won_as_team2 m) /\
  st_matches_played (teams_page_annotations ms k) =
    side1 completed_scored * n2 + n1 * side2 completed_scored /\
  td_wins (team_detail ms k) =
    side1 (fun m => completed_scored m && won_as_team1 m) +
    side2 (fun m => completed_scored m && won_as_team2 m) /\
  td_matches_played (team_detail ms k) = side1 completed_scored + side2 completed_scored.
Proof.
  simpl. rewrite !count_left_join, !count_right_join. split_and!; [done|done| |].
  - f_equal; apply countb_ext; intros m _; by rewrite andb_assoc.
  - done.
Qed.

(** On the sample store, team Alpha
    has one win by [team_detail] but three by [teams_page]'s annotation,
    and two completed scored matches against five annotated. *)
Theorem teams_page_differs_from_team_detail :
  td_wins (team_detail (matches sample_store) 1) = 1 /\
  st_wins (teams_page_annotations (matches sample_store) 1) = 3 /\
  td_matches_played (team_detail (matches sample_store) 1) = 2 /\
  st_matches_played (teams_page_annotations (matches sample_store) 1) = 5.
Proof. vm_compute. repeat split. Qed.

Lemma won_lost_disjoint1 m : won_as_team1 m = true -> lost_as_team1 m = false.
Proof.
  unfold won_as_team1, lost_as_team1, score_gt.
  destruct (Match.team1_score m), (Match.team2_score m); try done.
  intros H. apply Nat.ltb_lt in H. apply Nat.ltb_ge. lia.
Qed.

Lemma won_lost_disjoint2 m : won_as_team2 m = true -> lost_as_team2 m = false.
Proof.
  unfold won_as_team2, lost_as_team2, score_gt.
  destruct (Match.team1_score m), (Match.team2_score m); try done.
  intros H. apply Nat.ltb_lt in H. apply Nat.ltb_ge. lia.
Qed.

(** Wins and losses on one side together count at most the side's
    completed scored matches. *)
Lemma side_wins_losses_le (side won lost : Match.t -> bool) ms :
  (forall m, won m = true -> lost m = false) ->
  countb (fun m => side m && (completed_scored m && won m)) ms +
  countb (fun m => side m && (completed_scored m && lost m)) ms <=
  countb (fun m => side m && completed_scored m) ms.
Proof.
  intros Hd. rewrite countb_disjoint_add.
  - apply countb_mono. intros m _.
    destruct (side m), (completed_scored m), (won m), (lost m); done.
  - intros m _. destruct (side m), (completed_scored m), (won m) eqn:Hw; simpl; try done.
    intros _. by apply Hd.
Qed.

(** Despite the inflation, the annotated wins plus losses
    never exceed the annotated matches played (ties count toward
    neither), and championships never exceed wins. *)
Theorem teams_page_annotations_bounds ms k :
  st_wins (teams_page_annotations ms k) + st_losses (teams_page_annotations ms k) <=
    st_matches_played (teams_page_annotations ms k) /\
  st_championships (teams_page_annotations ms k) <= st_wins (teams_page_annotations ms k).
Proof.
  simpl. rewrite !count_left_join, !count_right_join.
  pose proof (side_wins_losses_le (on_side1 k) won_as_team1 lost_as_team1 ms won_lost_disjoint1).
  pose proof (side_wins_losses_le (on_side2 k) won_as_team2 lost_as_team2 ms won_lost_disjoint2).
  split; [nia|].
  apply Nat.add_le_mono; [apply Nat.mul_le_mono_r|apply Nat.mul_le_mono_l];
    apply countb_mono; intros m _;
    by destruct (on_side1 k m), (on_side2 k m), (is_final m), (completed_scored m),
      (won_as_team1 m), (won_as_team2 m).
Qed.

(** ** [points_delta]: the 24-hour dictionary of recent wins *)

Local Open Scope Z_scope.

(** [since = timezone.now() - timedelta(days=1)] *)
Definition one_day : Z := minutes (24 * 60).

(** [Match.objects.filter(status='completed', match_time__gte=since)] *)
Definition recent (now : instant) (m : Match.t) : bool :=
  bool_decide (Match.status m = Match.completed) && Z.leb (now - one_day) (Match.match_time m).

Local Close Scope Z_scope.

(** [recent_wins_map[k] = recent_wins_map.get(k, 0) + 1] *)
Definition bump (k : nat) (mp : gmap nat nat) : gmap nat nat :=
  <[k := default 0 (mp !! k) + 1]> mp.

(** Lines 118-123 for one row: the winner's id is bumped if it is truthy
    ([0] is falsy); the [elif] is only reached when team 1 did not win
    with a truthy id. *)
Definition recent_wins_step (mp : gmap nat nat) (m : Match.t) : gmap nat nat :=
  match Match.team1_score m, Match.team2_score m with
  | Some s1, Some s2 =>
      if Nat.ltb s2 s1 && negb (Nat.eqb (Match.team1 m) 0) then bump (Match.team1 m) mp
      else if Nat.ltb s1 s2 && negb (Nat.eqb (Match.team2 m) 0) then bump (Match.team2 m) mp
      else mp
  | _, _ => mp
  end.

(** Lines 111-123. *)
Definition recent_wins_map (now : instant) (ms : list Match.t) : gmap nat nat :=
  fold_left recent_wins_step (List.filter (recent now) ms) ∅.

(** Line 126: [recent_wins_map.get(t.id, 0) * 3]. *)
Definition points_delta (now : instant) (ms : list Match.t) (k : nat) : nat :=
  default 0 (recent_wins_map now ms !! k) * 3.

(** The team [k] won the match, on either side. *)
Definition won_by (k : nat) (m : Match.t) : bool :=
  (on_side1 k m && won_as_team1 m) || (on_side2 k m && won_as_team2 m).

Lemma bump_lookup j mp k :
  default 0 (bump j mp !! k) = default 0 (mp !! k) + (if Nat.eqb j k then 1 else 0).
Proof.
  unfold bump. destruct (Nat.eqb_spec j k) as [->|Hne].
  - rewrite lookup_insert_eq. simpl. lia.
  - rewrite lookup_insert_ne by done. lia.
Qed.

Lemma recent_wins_step_lookup mp m k :
  k <> 0 ->
  default 0 (recent_wins_step mp m !! k) =
  default 0 (mp !! k) + (if won_by k m then 1 else 0).
Proof.
  intros Hk. unfold recent_wins_step, won_by, on_side1, on_side2, won_as_team1, won_as_team2, score_gt.
  destruct (Match.team1_score m) as [s1|], (Match.team2_score m) as [s2|];
    rewrite ?andb_false_r; simpl; try lia.
  destruct (Nat.ltb_spec s2 s1), (Nat.ltb_spec s1 s2); try lia; simpl;
    rewrite ?andb_true_r, ?andb_false_r, ?orb_false_r, ?orb_false_l;
    destruct (Nat.eqb_spec (Match.team1 m) 0), (Nat.eqb_spec (Match.team2 m) 0); simpl;
    rewrite ?bump_lookup; destruct (Nat.eqb_spec (Match.team1 m) k), (Nat.eqb_spec (Match.team2 m) k);
    simpl; lia.
Qed.

Lemma fold_recent_wins_lookup l mp k :
  k <> 0 ->
  default 0 (fold_left recent_wins_step l mp !! k) = default 0 (mp !! k) + countb (won_by k) l.
Proof.
  revert mp. induction l as [|m l IH]; intros mp Hk; simpl; [rewrite countb_nil; lia|].
  rewrite IH, recent_wins_step_lookup, countb_cons by done. lia.
Qed.

(** C15 (functional): for every team with a non-zero id, [points_delta]
    is three times the number of completed matches that started in the
    last 24 hours and that the team won, on either side. *)
Theorem points_delta_spec now ms k :
  k <> 0 ->
  points_delta now ms k = 3 * countb (fun m => recent now m && won_by k m) ms.
Proof.
  intros Hk. unfold points_delta, recent_wins_map.
  rewrite fold_recent_wins_lookup, countb_filter_and, lookup_empty by done. simpl. lia.
Qed.

(** ** The ranking: [order_by('-points', '-wins', 'name')] *)

Record TeamRow := mkTeamRow { row_team : Team.t; row_stats : TeamStats; row_points : nat }.

(** [annotate(points=F('wins') * 3)] on one annotated team. *)
Definition team_row (ms : list Match.t) (t : Team.t) : TeamRow :=
  let st := teams_page_annotations ms (Team.id t) in mkTeamRow t st (st_wins st * 3).

Module RankOrder <: TotalLeBool.
Definition t := TeamRow.

(** [a] may come before [b]: more points, or as many and more wins, or
    as many of both and a name that is not greater. *)
Definition leb (a b : t) : bool :=
  Nat.ltb (row_points b) (row_points a) ||
  (Nat.eqb (row_points a) (row_points b) &&
   (Nat.ltb (st_wins (row_stats b)) (st_wins (row_stats a)) ||
    (Nat.eqb (st_wins (row_stats a)) (st_wins (row_stats b)) &&
     String.leb (Team.name (row_team a)) (Team.name (row_team b))))).

Theorem leb_total : forall a b, leb a b = true \/ leb b a = true.
Proof.
  intros a b. unfold leb.
  destruct (Nat.ltb_spec (row_points b) (row_points a)); [by left|].
  destruct (Nat.ltb_spec (row_points a) (row_points b)); [by right|].
  assert (row_points a = row_points b) as Hp by lia. rewrite Hp, Nat.eqb_refl. simpl.
  destruct (Nat.ltb_spec (st_wins (row_stats b)) (st_wins (row_stats a))); [by left|].
  destruct (Nat.ltb_spec (st_wins (row_stats a)) (st_wins (row_stats b))); [by right|].
  assert (st_wins (row_stats a) = st_wins (row_stats b)) as Hw by lia.
  rewrite Hw, Nat.eqb_refl. simpl. apply String.leb_total.
Qed.
End RankOrder.

Module RankSort := Sort RankOrder.

(** [teams_with_stats.annotate(points=...).order_by(...)] over the teams
    of the queryset. *)
Definition team_rankings (ms : list Match.t) (ts : list Team.t) : list TeamRow :=
  RankSort.sort (map (team_row ms) ts).

Lemma rank_leb_points a b : RankOrder.leb a b = true -> row_points b <= row_points a.
Proof.
  unfold RankOrder.leb. intros H. apply orb_true_iff in H as [H|H].
  - apply Nat.ltb_lt in H. lia.
  - apply andb_prop in H as [H _]. apply Nat.eqb_eq in H. lia.
Qed.

(** The ranking holds exactly the queryset's teams,
    each with [points = wins * 3], sorted by [order_by('-points',
    '-wins', 'name')]: each team ranks at or above the next, and points
    never increase down the list. *)
Theorem team_rankings_sorted ms ts :
  Permutation (map (team_row ms) ts) (team_rankings ms ts) /\
  Sorted (fun a b => RankOrder.leb a b = true) (team_rankings ms ts) /\
  StronglySorted (fun a b => row_points b <= row_points a) (team_rankings ms ts) /\
  Forall (fun r => row_points r = st_wins (row_stats r) * 3) (team_rankings ms ts).
Proof.
  pose proof (RankSort.Permuted_sort (map (team_row ms) ts)) as Hperm.
  pose proof (RankSort.LocallySorted_sort (map (team_row ms) ts)) as Hsorted.
  apply Sorted_LocallySorted_iff in Hsorted.
  unfold team_rankings. split_and!; [exact Hperm|exact Hsorted| |].
  - apply Sorted_StronglySorted; [intros x y z; lia|].
    eapply Sorted_weaken; [|exact Hsorted]. intros a b H. by apply rank_leb_points.
  - eapply Permutation_Forall; [exact Hperm|]. apply Forall_forall.
    intros r Hr. apply in_map_iff in Hr as (t & <- & _). reflexivity.
Qed.

(** The spec's ranking example: rows with (points,
    wins) (9, 3), (9, 2), (6, 2), given in any order, sort with the
    points tie broken by wins. *)
Theorem rank_sort_spec_example :
  let row name w p := mkTeamRow (sample_team 0 name) (mkTeamStats w 0 w 0) p in
  RankSort.sort [row "C" 2 6; row "B" 2 9; row "A" 3 9] = [row "A" 3 9; row "B" 2 9; row "C" 2 6] /\
  RankSort.sort [row "B" 2 9; row "A" 3 9; row "C" 2 6] = [row "A" 3 9; row "B" 2 9; row "C" 2 6].
Proof. vm_compute. split; reflexivity. Qed.

(** C34 (spec gap): in the ranking the view builds, equal points mean
    equal wins ([points = wins * 3]), so the [-wins] key never breaks a
    tie: two teams are ordered by points, then by name.  The spec's
    example of two teams with 9 points and different wins cannot arise. *)
Theorem team_row_wins_tiebreak_dead ms t1 t2 :
  RankOrder.leb (team_row ms t1) (team_row ms t2) =
    Nat.ltb (row_points (team_row ms t2)) (row_points (team_row ms t1)) ||
    (Nat.eqb (row_points (team_row ms t1)) (row_points (team_row ms t2)) &&
     String.leb (Team.name t1) (Team.name t2)).
Proof.
  unfold RankOrder.leb, team_row. cbv zeta. cbn [row_points row_stats row_team].
  remember (st_wins (teams_page_annotations ms (Team.id t1))) as w1.
  remember (st_wins (teams_page_annotations ms (Team.id t2))) as w2.
  destruct (Nat.eqb_spec (w1 * 3) (w2 * 3)) as [H|H]; simpl; [|done].
  replace w2 with w1 by lia. by rewrite !Nat.ltb_irrefl, Nat.eqb_refl.
Qed.

(** ** The [teams_page] view *)

(** [game__name__iexact=game_filter] on a nullable [game] foreign key. *)
Definition game_name_iexact (s : Store) (g : option nat) (name : string) : bool :=
  match g with
  | Some gid => match get_by Game.id gid (games s) with
                | Some gm => iexact (Game.name gm) name
                | None => false
                end
  | None => false
  end.

(** [team1__game__name__iexact] / [team2__game__name__iexact] *)
Definition team_game_iexact (s : Store) (k : nat) (name : string) : bool :=
  match get_by Team.id k (teams s) with
  | Some t => game_name_iexact s (Team.game t) name
  | None => false
  end.

(** A team row of the rendered table with the two attributes set in
    Python. *)
Record RankedTeam := mkRankedTeam { rk_row : TeamRow; rk_win_rate : nat; rk_points_delta : nat }.

Record TeamsPage := mkTeamsPage {
  tp_tab : string;
  tp_teams : list RankedTeam;
  tp_top_teams : list RankedTeam;
  tp_professional_teams_count : nat;
  tp_countries_count : nat;
  tp_matches_played : nat;
  tp_total_prize_pool : Z;
  tp_championships_count : nat
}.

(** [region] values that are neither [NULL] nor [''], distinct. *)
Definition distinct_regions (ts : list Team.t) : list string :=
  remove_dups (omap (fun t => match Team.region t with
                              | Some r => if String.eqb r "" then None else Some r
                              | None => None
                              end) ts).

(** [Sum('prize_pool') or 0]: SQL [SUM] skips [NULL]s. *)
Definition total_prize_pool (ts : list Tournament.t) : Z :=
  fold_right Z.add 0%Z (omap Tournament.prize_pool ts).

(** Lines 35-153: the context [teams_page] renders. *)
Definition teams_page (s : Store) (now : instant) (tab_param game_param : option string) : TeamsPage :=
  let tab := tab_param or_else "rankings" in
  let game_filter := game_param or_else "" in
  let filtered := negb (String.eqb game_filter "") in
  let teams_qs := if filtered
                  then List.filter (fun t => game_name_iexact s (Team.game t) game_filter) (teams s)
                  else teams s in
  let matches_qs := if filtered
                    then List.filter (fun m => team_game_iexact s (Match.team1 m) game_filter ||
                                               team_game_iexact s (Match.team2 m) game_filter) (matches s)
                    else matches s in
  let tournaments_qs := if filtered
                        then List.filter (fun t => game_name_iexact s (Tournament.game t) game_filter)
                                         (tournaments s)
                        else tournaments s in
  let ranked := map (fun r =>
                  mkRankedTeam r (win_rate (st_wins (row_stats r)) (st_matches_played (row_stats r)))
                               (points_delta now (matches s) (Team.id (row_team r))))
                (team_rankings (matches s) teams_qs) in
  let top_teams := firstn 4 ranked in
  mkTeamsPage tab (if String.eqb tab "all" then ranked else top_teams) top_teams
    (length teams_qs) (length (distinct_regions teams_qs))
    (countb (fun m => bool_decide (Match.status m = Match.completed)) matches_qs)
    (total_prize_pool tournaments_qs)
    (countb (fun t => bool_decide (Tournament.status t = Tournament.completed)) tournaments_qs).

Lemma Sorted_firstn {A} (R : A -> A -> Prop) n l : Sorted R l -> Sorted R (firstn n l).
Proof.
  intros H. revert n. induction H as [|a l Hs IH Hd]; intros [|n]; simpl; try constructor.
  - apply IH.
  - destruct Hd; destruct n; simpl; constructor; done.
Qed.

Lemma teams_page_rows s now tab game :
  let P := teams_page s now tab game in
  exists ts, (forall t, In t ts -> In t (teams s)) /\
    map rk_row (tp_teams P) =
      (if String.eqb (tab or_else "rankings") "all" then team_rankings (matches s) ts
       else firstn 4 (team_rankings (matches s) ts)) /\
    map rk_row (tp_top_teams P) = firstn 4 (team_rankings (matches s) ts) /\
    Forall (fun rk => rk_win_rate rk = win_rate (st_wins (row_stats (rk_row rk)))
                                                (st_matches_played (row_stats (rk_row rk))) /\
                      rk_points_delta rk = points_delta now (matches s) (Team.id (row_team (rk_row rk))))
           (tp_teams P).
Proof.
  intros P. unfold P, teams_page. cbv zeta.
  set (ts := if negb _ then _ else teams s).
  exists ts. split_and!.
  - intros t Ht. unfold ts in Ht. case_match; [|done]. by apply filter_In in Ht as [? _].
  - simpl. case_match; rewrite ?firstn_map, map_map; simpl; by rewrite map_id.
  - simpl. rewrite firstn_map, map_map. simpl. by rewrite map_id.
  - simpl. apply Forall_forall. intros rk Hrk.
    assert (Hin : In rk (map (fun r => mkRankedTeam r
                    (win_rate (st_wins (row_stats r)) (st_matches_played (row_stats r)))
                    (points_delta now (matches s) (Team.id (row_team r))))
                  (team_rankings (matches s) ts))).
    { case_match; [done|]. by apply (In_firstn _ 4). }
    apply in_map_iff in Hin as (r & <- & _). done.
Qed.

(** The table [teams_page] renders shows at most four
    teams unless [tab=all], in ranking order; every row's win rate is at
    most 100%, and its points delta is three times the team's wins in
    completed matches of the last 24 hours. *)
Theorem teams_page_table s now tab game :
  let P := teams_page s now tab game in
  length (tp_top_teams P) <= 4 /\
  Sorted (fun a b => RankOrder.leb a b = true) (map rk_row (tp_teams P)) /\
  Forall (fun rk => rk_win_rate rk <= 1000 /\
           (Team.id (row_team (rk_row rk)) <> 0 ->
            rk_points_delta rk =
              3 * countb (fun m => recent now m && won_by (Team.id (row_team (rk_row rk))) m) (matches s)))
         (tp_teams P).
Proof.
  intros P. destruct (teams_page_rows s now tab game) as (ts & _ & Hrows & Htop & Hf). fold P in Hrows, Htop, Hf.
  destruct (team_rankings_sorted (matches s) ts) as (Hperm & Hsorted & _ & _).
  split_and!.
  - rewrite <- (length_map rk_row), Htop. apply firstn_le_length.
  - rewrite Hrows. case_match; [done|]. by apply Sorted_firstn.
  - apply Forall_forall. intros rk Hrk. eapply Forall_forall in Hf as [-> ->]; [|done].
    split; [|apply points_delta_spec].
    assert (Hr : In (rk_row rk) (team_rankings (matches s) ts)).
    { apply (in_map rk_row) in Hrk. rewrite Hrows in Hrk. case_match; [done|].
      by apply (In_firstn _ 4). }
    apply (Permutation_in _ (Permutation_sym Hperm)) in Hr. apply in_map_iff in Hr as (t & Ht & _).
    rewrite <- Ht. apply win_rate_spec. unfold team_row. cbv zeta. cbn [row_stats].
    pose proof (teams_page_annotations_bounds (matches s) (Team.id t)) as [Hb _]. lia.
Qed.

(** ** [team_detail] and [team_tournaments] on examples *)

(** Adding a completed match won
    3-1 by team [a] over team [b] at a stage containing "final" gives
    [a] one more match played, win and championship, and [b] one more
    match played and nothing else. *)
Theorem team_detail_final_win ms (m : Match.t) a b :
  a <> b -> Match.team1 m = a -> Match.team2 m = b -> Match.status m = Match.completed ->
  Match.team1_score m = Some 3 -> Match.team2_score m = Some 1 -> is_final m = true ->
  team_detail (m :: ms) a =
    mkTeamDetail (S (td_matches_played (team_detail ms a))) (S (td_wins (team_detail ms a)))
      (S (td_championships (team_detail ms a)))
      (win_rate (S (td_wins (team_detail ms a))) (S (td_matches_played (team_detail ms a)))) /\
  team_detail (m :: ms) b =
    mkTeamDetail (S (td_matches_played (team_detail ms b))) (td_wins (team_detail ms b))
      (td_championships (team_detail ms b))
      (win_rate (td_wins (team_detail ms b)) (S (td_matches_played (team_detail ms b)))).
Proof.
  intros Hab H1 H2 Hst Hs1 Hs2 Hf. unfold team_detail. simpl. rewrite !countb_cons.
  unfold on_side1, on_side2, completed_scored, won_as_team1, won_as_team2, score_gt, Match.scored.
  rewrite H1, H2, Hst, Hs1, Hs2, Hf, !Nat.eqb_refl. simpl.
  destruct (Nat.eqb_spec a b), (Nat.eqb_spec b a); [congruence..|]. simpl.
  split; f_equal; try lia; f_equal; lia.
Qed.

(** [team_tournaments] counts a tournament as won when
    the team won any match whose stage contains "final", whatever the
    match's status: on the sample store Bravo has no championship by
    [team_detail] but one tournament won, from a semifinal that is still
    live ("Semifinal" contains "final"). *)
Theorem team_tournaments_counts_live_semifinal :
  Match.status m_streamed = Match.live /\ is_final m_streamed = true /\
  td_championships (team_detail (matches sample_store) 2) = 0 /\
  tt_tournaments_won (team_tournaments sample_store 2) = 1.
Proof. vm_compute. repeat split. Qed.

(** ** The [overall_match_stats] view *)

Definition completed_m (m : Match.t) : bool := bool_decide (Match.status m = Match.completed).

(** Lines 707-727: the same four counts with the null checks removed
    ([status__iexact='completed'] is [status = 'completed'] on the
    model's choices). *)
Definition overall_annotations (ms : list Match.t) (k : nat) : TeamStats :=
  let rows := join_rows ms k in
  mkTeamStats
    (count_left (fun m => completed_m m && won_as_team1 m) rows +
     count_right (fun m => completed_m m && won_as_team2 m) rows)
    (count_left (fun m => completed_m m && lost_as_team1 m) rows +
     count_right (fun m => completed_m m && lost_as_team2 m) rows)
    (count_left completed_m rows + count_right completed_m rows)
    (count_left (fun m => is_final m && completed_m m && won_as_team1 m) rows +
     count_right (fun m => is_final m && completed_m m && won_as_team2 m) rows).

Definition overall_row (ms : list Match.t) (t : Team.t) : TeamRow :=
  let st := overall_annotations ms (Team.id t) in mkTeamRow t st (st_wins st * 3).

Record GameStats := mkGameStats {
  gs_game_name : string; gs_active_teams : nat; gs_matches_played : nat;
  gs_total_prize_pool : Z; gs_championships : nat }.

Record OverallStats := mkOverallStats {
  os_professional_teams_count : nat;
  os_matches_played_count : nat;
  os_total_prize_pool : Z;
  os_championships_count : nat;
  os_tournament_stats_by_game : list GameStats;
  os_top_performers : list RankedTeam;
  os_top_teams : list RankedTeam;
  os_team_names : list string;
  os_team_points : list nat
}.

(** Lines 755-770 for one game. *)
Definition game_stats (s : Store) (g : Game.t) : GameStats :=
  let game_tournaments := List.filter (fun t => bool_decide (Tournament.game t = Some (Game.id g)))
                                      (tournaments s) in
  let in_game m := existsb (fun t => Nat.eqb (Match.tournament m) (Tournament.id t)) game_tournaments in
  mkGameStats (Game.name g)
    (countb (fun t => existsb (fun m => in_game m &&
                 (on_side1 (Team.id t) m || on_side2 (Team.id t) m)) (matches s)) (teams s))
    (countb (fun m => in_game m && completed_m m) (matches s))
    (total_prize_pool game_tournaments)
    (countb (fun t => bool_decide (Tournament.status t = Tournament.completed)) game_tournaments).

(** Lines 686-785.  [None] is the [FieldError] Django raises at line 696:
    [game__iexact] is not a lookup a foreign key accepts.  The [team]
    parameter is taken as already converted to an id (a non-numeric
    value makes the ORM raise, not modelled). *)
Definition overall_match_stats (s : Store) (game_param : option string) (team_param : option nat)
    : option OverallStats :=
  if negb (String.eqb (game_param or_else "") "") then None else
  let teams_qs := match team_param with
                  | Some k => List.filter (fun t => Nat.eqb (Team.id t) k) (teams s)
                  | None => teams s
                  end in
  let matches_qs := match team_param with
                    | Some k => List.filter (fun m => on_side1 k m || on_side2 k m) (matches s)
                    | None => matches s
                    end in
  let rankings := map (fun r =>
                    mkRankedTeam r (win_rate (st_wins (row_stats r)) (st_matches_played (row_stats r))) 0)
                  (RankSort.sort (map (overall_row (matches s)) teams_qs)) in
  let top_performers := firstn 10 rankings in
  let team_names := map (fun rk => Team.name (row_team (rk_row rk))) top_performers in
  let team_points := map (fun rk => row_points (rk_row rk)) top_performers in
  let '(team_names, team_points) :=
    if team_names is [] then (["No Data"], [0]) else (team_names, team_points) in
  Some (mkOverallStats (length teams_qs)
          (countb completed_m matches_qs)
          (total_prize_pool (tournaments s))
          (countb (fun t => bool_decide (Tournament.status t = Tournament.completed)) (tournaments s))
          (map (game_stats s) (games s))
          top_performers rankings team_names team_points).

(** C35 (spec divergence): [overall_match_stats] reports the same wins,
    losses and championships as [teams_page], but its matches played
    also count completed matches without scores, so its win rates can be
    lower: the difference is exactly the unscored completed matches of
    each side, scaled by the join. *)
Theorem overall_vs_teams_page ms k :
  let n1 := Nat.max 1 (countb (on_side1 k) ms) in
  let n2 := Nat.max 1 (countb (on_side2 k) ms) in
  let unscored c := countb (fun m => c m && completed_m m && negb (Match.scored m)) ms in
  st_wins (overall_annotations ms k) = st_wins (teams_page_annotations ms k) /\
  st_losses (overall_annotations ms k) = st_losses (teams_page_annotations ms k) /\
  st_championships (overall_annotations ms k) = st_championships (teams_page_annotations ms k) /\
  st_matches_played (overall_annotations ms k) =
    st_matches_played (teams_page_annotations ms k) + unscored (on_side1 k) * n2 + n1 * unscored (on_side2 k).
Proof.
  simpl. rewrite !count_left_join, !count_right_join.
  assert (Hp : forall side,
    countb (fun m => side m && completed_m m) ms =
    countb (fun m => side m && completed_scored m) ms +
    countb (fun m => side m && completed_m m && negb (Match.scored m)) ms).
  { intros side. rewrite (countb_split _ Match.scored). f_equal. apply countb_ext. intros m _.
    unfold completed_scored, completed_m. by destruct (side m). }
  split_and!; [f_equal; f_equal..|rewrite !Hp; nia];
    apply countb_ext; intros m _; unfold completed_m, completed_scored, won_as_team1, won_as_team2,
      lost_as_team1, lost_as_team2, score_gt, Match.scored;
    by destruct (bool_decide (Match.status m = Match.completed)), (Match.team1_score m),
      (Match.team2_score m), (on_side1 k m), (on_side2 k m), (is_final m).
Qed.

(** ** Witnesses on the sample store *)

Lemma points_delta_spec_witness :
  points_delta now_a (matches sample_store) 1 =
    3 * countb (fun m => recent now_a m && won_by 1 m) (matches sample_store).
Proof. apply points_delta_spec. lia. Defined.

Definition final_3_1 : Match.t :=
  sample_match 9 1 1 2 t0 Match.completed "Grand Final" (Some 3) (Some 1) "" (Some t0) (Some t0).

Lemma team_detail_final_win_witness :
  team_detail (final_3_1 :: matches sample_store) 1 =
    mkTeamDetail (S (td_matches_played (team_detail (matches sample_store) 1)))
      (S (td_wins (team_detail (matches sample_store) 1)))
      (S (td_championships (team_detail (matches sample_store) 1)))
      (win_rate (S (td_wins (team_detail (matches sample_store) 1)))
                (S (td_matches_played (team_detail (matches sample_store) 1)))) /\
  team_detail (final_3_1 :: matches sample_store) 2 =
    mkTeamDetail (S (td_matches_played (team_detail (matches sample_store) 2)))
      (td_wins (team_detail (matches sample_store) 2))
      (td_championships (team_detail (matches sample_store) 2))
      (win_rate (td_wins (team_detail (matches sample_store) 2))
                (S (td_matches_played (team_detail (matches sample_store) 2)))).
Proof.
  apply (team_detail_final_win (matches sample_store) final_3_1 1 2);
    [lia|reflexivity|reflexivity|reflexivity|reflexivity|reflexivity|vm_compute; reflexivity].
Defined.
