(* ===== verification/NumberFormat.v ===== *)
(** * NumberFormat: the template filters of [templatetags/number_format.py]

    [k_format] (lines 6-22) and [mul] (lines 24-33).  A filter receives a
    Python value; the values the templates pass are integers, booleans,
    strings and [None] ([pyval]).  [int(value)] is CPython's conversion:
    [int] of an integer or a boolean, and of a string the base-10 literal
    parser (ASCII whitespace stripped at both ends, one optional sign,
    digits with single underscores between them); anything else raises
    [ValueError] or [TypeError], which both filters catch.  [str] of an
    integer is its decimal notation.

    [value / 1000] is CPython's true division of two integers, which is
    correctly rounded to a binary64 double (round half to even) and
    raises [OverflowError] when the result exceeds the largest double;
    that line is outside the [try], so the exception leaves the filter
    ([Raised]).  The double is kept exact, as a mantissa and a binary
    exponent.  [f"{x:.1f}"] prints the exact value of the double rounded
    half to even to one decimal, as CPython's [dtoa] does. *)

From S2P Require Import Prelude.
From Stdlib Require Import List DecimalString DecimalZ.
Import ListNotations.
Local Open Scope Z_scope.

(** The argument of a filter. *)
Inductive pyval :=
| PInt (z : Z)
| PBool (b : bool)
| PStr (s : string)
| PNone.

(** What a filter call gives the template: a value, or an exception
    escaping the filter. *)
Inductive filter_result :=
| Returned (v : pyval)
| Raised (exc : string).

#[global] Instance pyval_eq_dec : EqDecision pyval.
Proof. solve_decision. Defined.
#[global] Instance filter_result_eq_dec : EqDecision filter_result.
Proof. solve_decision. Defined.

(** ** [int(value)] *)

(** The characters [int()] strips: ['\t'], ['\n'], ['\v'], ['\f'],
    ['\r'] and the space. *)
Definition py_space (c : ascii) : bool :=
  let n := nat_of_ascii c in ((9 <=? n) && (n <=? 13) || (n =? 32))%nat.

Fixpoint drop_space (l : list ascii) : list ascii :=
  match l with
  | c :: r => if py_space c then drop_space r else l
  | [] => []
  end.

Definition strip (l : list ascii) : list ascii := rev (drop_space (rev (drop_space l))).

Definition digit_val (c : ascii) : option Z :=
  let n := nat_of_ascii c in
  if ((48 <=? n) && (n <=? 57))%nat then Some (Z.of_nat (n - 48)) else None.

(** Digits, with an underscore allowed only right after a digit and
    followed by one; [after_digit] records that the last character read
    was a digit.  The value accumulates left to right. *)
Fixpoint parse_digits (l : list ascii) (acc : Z) (after_digit : bool) : option Z :=
  match l with
  | [] => if after_digit then Some acc else None
  | c :: r =>
      match digit_val c with
      | Some d => parse_digits r (acc * 10 + d) true
      | None => if Ascii.eqb c "_" && after_digit then parse_digits r acc false else None
      end
  end.

Definition parse_int_literal (l : list ascii) : option Z :=
  match l with
  | c :: r =>
      if Ascii.eqb c "+" then parse_digits r 0 false
      else if Ascii.eqb c "-" then option_map Z.opp (parse_digits r 0 false)
      else parse_digits l 0 false
  | [] => None
  end.

Definition int_of_str (s : string) : option Z := parse_int_literal (strip (list_ascii_of_string s)).

(** [int(value)]; [None] is the [ValueError] / [TypeError] case. *)
Definition py_int (v : pyval) : option Z :=
  match v with
  | PInt z => Some z
  | PBool b => Some (if b then 1 else 0)
  | PStr s => int_of_str s
  | PNone => None
  end.

(** [str(z)] for an integer. *)
Definition py_str (z : Z) : string := NilZero.string_of_int (Z.to_int z).

(** ** Division and formatting of doubles *)

(** [n / d] rounded to the nearest integer, ties to even ([d > 0]). *)
Definition div_rhe (n d : Z) : Z :=
  let q := n / d in
  let r := n mod d in
  if 2 * r <? d then q else if d <? 2 * r then q + 1 else if Z.even q then q else q + 1.

(** [p / (q * 2^e)] rounded half to even. *)
Definition scale_div (p q e : Z) : Z :=
  if 0 <=? e then div_rhe p (q * 2 ^ e) else div_rhe (p * 2 ^ (- e)) q.

Definition floor_scale_div (p q e : Z) : Z :=
  if 0 <=? e then p / (q * 2 ^ e) else (p * 2 ^ (- e)) / q.

(** [p / q] for integers [p >= q > 0] as a double [m * 2^e] with a
    53-bit mantissa, rounded half to even; [None] when the result is not
    below [2^1024] (CPython's [OverflowError]).  The exponent [e1] puts
    the quotient in [[2^52, 2^54)]; one more step halves it when it is
    not below [2^53]. *)
Definition true_div (p q : Z) : option (Z * Z) :=
  let e1 := Z.log2 p - Z.log2 q - 53 in
  let e := if 2 ^ 53 <=? floor_scale_div p q e1 then e1 + 1 else e1 in
  let m := scale_div p q e in
  if 1024 <=? Z.log2 m + e then None else Some (m, e).

(** [f"{m * 2^e:.1f}"] for a non-negative double: the value in tenths,
    rounded half to even, printed with one decimal. *)
Definition format_1f (x : Z * Z) : string :=
  let '(m, e) := x in
  let t := if 0 <=? e then m * 2 ^ e * 10 else div_rhe (m * 10) (2 ^ (- e)) in
  py_str (t / 10) ++ "." ++ py_str (t mod 10).

(** ** The filters *)

(** Lines 6-22. *)
Definition k_format (value : pyval) : filter_result :=
  match py_int value with
  | None => Returned value
  | Some v =>
      if 1000 <=? v then
        if v mod 1000 =? 0 then Returned (PStr (py_str (v / 1000) ++ "K"))
        else match true_div v 1000 with
             | Some x => Returned (PStr (format_1f x ++ "K"))
             | None => Raised "OverflowError"
             end
      else Returned (PStr (py_str v))
  end.

(** Lines 24-33. *)
Definition mul (value arg : pyval) : pyval :=
  match py_int value, py_int arg with
  | Some a, Some b => PInt (a * b)
  | _, _ => PStr ""
  end.

(** ** [int(str(z)) = z] *)

(** The value of a digit string read left to right from [acc], as the
    parser and [Pos.of_uint_acc] both compute it. *)
Fixpoint uint_horner (d : Decimal.uint) (acc : Z) : Z :=
  match d with
  | Decimal.Nil => acc
  | Decimal.D0 l => uint_horner l (acc * 10)
  | Decimal.D1 l => uint_horner l (acc * 10 + 1)
  | Decimal.D2 l => uint_horner l (acc * 10 + 2)
  | Decimal.D3 l => uint_horner l (acc * 10 + 3)
  | Decimal.D4 l => uint_horner l (acc * 10 + 4)
  | Decimal.D5 l => uint_horner l (acc * 10 + 5)
  | Decimal.D6 l => uint_horner l (acc * 10 + 6)
  | Decimal.D7 l => uint_horner l (acc * 10 + 7)
  | Decimal.D8 l => uint_horner l (acc * 10 + 8)
  | Decimal.D9 l => uint_horner l (acc * 10 + 9)
  end.

Lemma of_uint_acc_horner l p : Z.pos (Pos.of_uint_acc l p) = uint_horner l (Z.pos p).
Proof. revert p; induction l; intros p; simpl; rewrite ?IHl; f_equal; lia. Qed.

Lemma of_uint_horner d : Z.of_uint d = uint_horner d 0.
Proof.
  unfold Z.of_uint. induction d; simpl; rewrite ?of_uint_acc_horner; done.
Qed.

Lemma parse_digits_uint d acc :
  parse_digits (list_ascii_of_string (NilEmpty.string_of_uint d)) acc true = Some (uint_horner d acc).
Proof.
  revert acc; induction d; intros acc; simpl; rewrite ?IHd; do 2 f_equal; lia.
Qed.

Lemma parse_string_of_uint d :
  parse_digits (list_ascii_of_string (NilZero.string_of_uint d)) 0 false = Some (Z.of_uint d).
Proof.
  rewrite of_uint_horner. unfold NilZero.string_of_uint.
  destruct d; simpl; rewrite ?parse_digits_uint; do 2 f_equal; lia.
Qed.

Lemma parse_literal_uint d :
  parse_int_literal (list_ascii_of_string (NilZero.string_of_uint d)) =
  parse_digits (list_ascii_of_string (NilZero.string_of_uint d)) 0 false.
Proof. by destruct d. Qed.

Lemma string_of_uint_nospace d :
  Forall (fun c => py_space c = false) (list_ascii_of_string (NilZero.string_of_uint d)).
Proof.
  assert (H : forall d, Forall (fun c => py_space c = false) (list_ascii_of_string (NilEmpty.string_of_uint d)))
    by (intros d0; induction d0; simpl; constructor; auto).
  destruct d; [repeat constructor|apply H..].
Qed.

(** [str(n)] of a natural number is a nonempty run of ASCII digits. *)
Lemma py_str_nat_digits (n : nat) :
  list_ascii_of_string (py_str (Z.of_nat n)) <> [] /\
  Forall (fun c => is_Some (digit_val c)) (list_ascii_of_string (py_str (Z.of_nat n))).
Proof.
  assert (H : forall d, Forall (fun c => is_Some (digit_val c)) (list_ascii_of_string (NilEmpty.string_of_uint d)))
    by (intros d; induction d; simpl; constructor; auto; eexists; reflexivity).
  unfold py_str. destruct n as [|n]; [split; [done|repeat constructor; eexists; reflexivity]|].
  simpl. unfold Z.to_int. destruct (Pos.to_uint _) eqn:E; simpl; split; try done; try apply H;
    try (constructor; [eexists; reflexivity|apply H]).
  exfalso. pose proof (DecimalPos.Unsigned.to_uint_nonnil (Pos.of_succ_nat n)). congruence.
Qed.

Lemma drop_space_nospace l : Forall (fun c => py_space c = false) l -> drop_space l = l.
Proof. destruct l as [|c l]; [done|]. intros Hf. inversion Hf; subst. simpl. by rewrite H1. Qed.

Lemma strip_nospace l : Forall (fun c => py_space c = false) l -> strip l = l.
Proof.
  intros Hf. unfold strip. rewrite (drop_space_nospace l Hf), drop_space_nospace, rev_involutive;
    [done|]. by apply Forall_rev.
Qed.

Lemma int_of_py_str z : int_of_str (py_str z) = Some z.
Proof.
  unfold int_of_str, py_str. rewrite <- (DecimalZ.of_to z) at 2.
  destruct (Z.to_int z) as [d|d]; simpl.
  - rewrite strip_nospace by apply string_of_uint_nospace.
    by rewrite parse_literal_uint, parse_string_of_uint.
  - rewrite strip_nospace by (constructor; [done|apply string_of_uint_nospace]).
    simpl. by rewrite parse_string_of_uint.
Qed.

(** ** Rounding *)

(** [div_rhe n d] is a nearest integer to [n / d]. *)
Lemma div_rhe_near n d : 0 < d -> - d <= 2 * n - 2 * d * div_rhe n d <= d.
Proof.
  intros Hd. unfold div_rhe. pose proof (Z.div_mod n d ltac:(lia)). pose proof (Z.mod_pos_bound n d Hd).
  destruct (Z.ltb_spec (2 * (n mod d)) d); [lia|].
  destruct (Z.ltb_spec d (2 * (n mod d))); [lia|]. destruct (Z.even (n / d)); lia.
Qed.

(** A quotient [p / q] of at most [2^50] is the double [m * 2^e] with
    a negative exponent [e] two or three below [log2 (p / q) - 50], and
    [m] the rounded [p * 2^-e / q]. *)
Lemma true_div_neg p q :
  0 < p < 2 ^ 900 -> 0 < q -> Z.log2 p - Z.log2 q <= 50 ->
  exists e, Z.log2 p - Z.log2 q - 53 <= e <= Z.log2 p - Z.log2 q - 52 /\
            true_div p q = Some (div_rhe (p * 2 ^ (- e)) q, e).
Proof.
  intros Hp Hq Hl. unfold true_div.
  set (e := if 2 ^ 53 <=? floor_scale_div p q (Z.log2 p - Z.log2 q - 53)
            then Z.log2 p - Z.log2 q - 53 + 1 else Z.log2 p - Z.log2 q - 53).
  assert (He : Z.log2 p - Z.log2 q - 53 <= e <= Z.log2 p - Z.log2 q - 52) by (unfold e; destruct (_ <=? _); lia).
  exists e. split; [done|]. unfold scale_div. rewrite (proj2 (Z.leb_gt 0 e)) by lia.
  pose proof (div_rhe_near (p * 2 ^ (- e)) q Hq).
  assert (HD : 0 < 2 ^ (- e)) by (apply Z.pow_pos_nonneg; lia).
  assert (Hm : div_rhe (p * 2 ^ (- e)) q <= p * 2 ^ (- e)) by nia.
  assert (Hlog : Z.log2 (div_rhe (p * 2 ^ (- e)) q) <= Z.log2 p - e + 1).
  { etrans; [by apply Z.log2_le_mono|]. etrans; [apply Z.log2_mul_above; lia|].
    rewrite Z.log2_pow2 by lia. lia. }
  assert (Z.log2 p < 900) by (apply Z.log2_lt_pow2; lia).
  rewrite (proj2 (Z.leb_gt _ _)) by lia. done.
Qed.

(** For [1000 <= v < 2^50] the quotient [v / 1000] is the double
    [m * 2^e] with [e <= -12]. *)
Lemma true_div_small v :
  1000 <= v < 2 ^ 50 ->
  exists e, -53 <= e <= -12 /\ true_div v 1000 = Some (div_rhe (v * 2 ^ (- e)) 1000, e).
Proof.
  intros Hv.
  assert (Hl : 9 <= Z.log2 v <= 49).
  { split.
    - change 9 with (Z.log2 1000). apply Z.log2_le_mono; lia.
    - apply Z.lt_succ_r, Z.log2_lt_pow2; lia. }
  destruct (true_div_neg v 1000) as (e & He & Hd); [lia|lia|change (Z.log2 1000) with 9; lia|].
  change (Z.log2 1000) with 9 in He. exists e. split; [lia|done].
Qed.

(** C36 (bounds): for an integer argument [v] (or a string [int()]
    reads as one) with [1000 <= v < 2^50] that is not a multiple of 1000,
    [k_format] prints [a.bK] where the tenths [t = 10a + b] are a nearest
    tenth to [v / 1000]: the two roundings (to a double, then to one
    decimal) never move the printed value by more than half a tenth. *)
Theorem k_format_nearest_tenth (value : pyval) (v : Z) :
  py_int value = Some v -> 1000 <= v < 2 ^ 50 -> v mod 1000 <> 0 ->
  exists t, k_format value = Returned (PStr ((py_str (t / 10) ++ "." ++ py_str (t mod 10)) ++ "K")) /\
            Z.abs (v - 100 * t) <= 50.
Proof.
  intros Hv Hb Hm. unfold k_format. rewrite Hv.
  rewrite (proj2 (Z.leb_le _ _)) by lia. rewrite (proj2 (Z.eqb_neq _ _)) by done.
  destruct (true_div_small v Hb) as (e & He & ->).
  set (D := 2 ^ (- e)). set (m := div_rhe (v * D) 1000).
  exists (div_rhe (m * 10) D). unfold format_1f. rewrite (proj2 (Z.leb_gt 0 e)) by lia.
  split; [done|].
  assert (HD : 2 ^ 12 <= D) by (apply Z.pow_le_mono_r; lia).
  pose proof (div_rhe_near (v * D) 1000 ltac:(lia)).
  pose proof (div_rhe_near (m * 10) D ltac:(lia)). fold m in H.
  apply Z.abs_le. nia.
Qed.

(** The filters treat an integer and its decimal string
    alike, since [int(str(z)) = z]: [k_format] gives the same result on
    both, and [mul] multiplies numbers passed as strings. *)
Theorem filters_int_str (v a b : Z) :
  k_format (PStr (py_str v)) = k_format (PInt v) /\
  mul (PStr (py_str a)) (PStr (py_str b)) = PInt (a * b).
Proof. unfold k_format, mul. simpl. by rewrite !int_of_py_str. Qed.

(** 1500 and
    2000 print as the docstring says, but 1999 prints [2.0K] next to
    2000's [2K], 999999 prints [1000.0K], and the halfway values 1050 and
    2050 round in opposite directions ([1.1K], [2.0K]), because
    [1.05] and [2.05] are not doubles. *)
Example k_format_examples :
  k_format (PInt 1500) = Returned (PStr "1.5K") /\
  k_format (PInt 2000) = Returned (PStr "2K") /\
  k_format (PInt 1999) = Returned (PStr "2.0K") /\
  k_format (PInt 999999) = Returned (PStr "1000.0K") /\
  k_format (PInt 1050) = Returned (PStr "1.1K") /\
  k_format (PInt 2050) = Returned (PStr "2.0K").
Proof. vm_compute. repeat split. Qed.

(** Rounding half to even never goes below the floor. *)
Lemma div_rhe_floor n d : n / d <= div_rhe n d.
Proof. unfold div_rhe. repeat case_match; lia. Qed.

(** A quotient of at least [2^1024] is past the largest double. *)
Lemma true_div_overflow v :
  1000 * 2 ^ 1024 <= v -> true_div v 1000 = None.
Proof.
  intros Hv. unfold true_div.
  assert (Hl : 1033 <= Z.log2 v).
  { change 1033 with (Z.log2 (2 ^ 1033)). apply Z.log2_le_mono. lia. }
  change (Z.log2 1000) with 9.
  set (e := if 2 ^ 53 <=? floor_scale_div v 1000 (Z.log2 v - 9 - 53) then _ else _).
  assert (He : 971 <= e) by (unfold e; case_match; lia).
  unfold scale_div. rewrite (proj2 (Z.leb_le 0 e)) by lia.
  assert (0 <= Z.log2 (div_rhe v (1000 * 2 ^ e))) by apply Z.log2_nonneg.
  destruct (Z.le_gt_cases 1024 e) as [Hbig|Hsmall].
  { rewrite (proj2 (Z.leb_le _ _)) by lia. done. }
  assert (Hq : 2 ^ (1024 - e) <= div_rhe v (1000 * 2 ^ e)).
  { etrans; [|apply div_rhe_floor].
    assert (Hd : 1000 * 2 ^ 1024 = 2 ^ (1024 - e) * (1000 * 2 ^ e)).
    { replace (2 ^ 1024) with (2 ^ (1024 - e) * 2 ^ e) by (rewrite <- Z.pow_add_r by lia; f_equal; lia).
      ring. }
    rewrite <- (Z.div_mul (2 ^ (1024 - e)) (1000 * 2 ^ e)) by (apply Z.neq_mul_0; split; [lia|apply Z.pow_nonzero; lia]).
    rewrite <- Hd. apply Z.div_le_mono; [|lia]. apply Z.mul_pos_pos; [lia|apply Z.pow_pos_nonneg; lia]. }
  apply Z.log2_le_mono in Hq. rewrite Z.log2_pow2 in Hq by lia.
  rewrite (proj2 (Z.leb_le _ _)) by lia. done.
Qed.

(** C39 (error): an argument [int()] rejects is returned unchanged by
    [k_format] and makes [mul] give [''] on either side; an integer
    argument (or string [int()] reads as one) of at least
    [1000 * 2^1024] that is not a multiple of 1000 makes the true
    division [value / 1000] raise [OverflowError] out of [k_format]. *)
Theorem k_format_errors (value : pyval) :
  (py_int value = None ->
     k_format value = Returned value /\ forall a, mul value a = PStr "" /\ mul a value = PStr "") /\
  (forall v, py_int value = Some v -> 1000 * 2 ^ 1024 <= v -> v mod 1000 <> 0 ->
     k_format value = Raised "OverflowError").
Proof.
  split.
  - intros H. unfold k_format, mul. rewrite H. split; [done|]. intros a. by destruct (py_int a).
  - intros v H Hv Hm. unfold k_format. rewrite H, (proj2 (Z.leb_le 1000 v)) by lia.
    rewrite (proj2 (Z.eqb_neq _ _)) by done. by rewrite true_div_overflow.
Qed.

(** Concrete cases: a thousands separator is rejected, underscores and
    surrounding blanks are accepted, and next to an overflowing value the
    multiple of 1000 is printed exactly. *)
Example k_format_error_examples :
  k_format PNone = Returned PNone /\
  k_format (PStr "1,500") = Returned (PStr "1,500") /\
  k_format (PStr " 1_500 ") = Returned (PStr "1.5K") /\
  mul (PStr "four") (PInt 4) = PStr "" /\
  k_format (PInt (1000 * 2 ^ 1024 + 1)) = Raised "OverflowError" /\
  k_format (PInt (1000 * 2 ^ 1024)) = Returned (PStr (py_str (2 ^ 1024) ++ "K")).
Proof. vm_compute. repeat split. Qed.

(** ** Witness *)

Lemma k_format_nearest_tenth_witness :
  exists t, k_format (PInt 1050) = Returned (PStr ((py_str (t / 10) ++ "." ++ py_str (t mod 10)) ++ "K")) /\
            Z.abs (1050 - 100 * t) <= 50.
Proof. apply (k_format_nearest_tenth (PInt 1050) 1050); [reflexivity|lia|discriminate]. Defined.

Lemma k_format_errors_witness :
  k_format (PStr "1,500") = Returned (PStr "1,500") /\
  k_format (PStr "179769313486231590772930519078902473361797697894230657273430081157732675805500963132708477322407536021120113879871393357658789768814416622492847430639474124377767893424865485276302219601246094119453082952085005768838150682342462881473913110540827237163350510684586298239947245938479716304835356329624224137216001") = Raised "OverflowError".
Proof.
  split.
  - apply (proj1 (k_format_errors (PStr "1,500"))). reflexivity.
  - apply (proj2 (k_format_errors _) (1000 * 2 ^ 1024 + 1)); [vm_compute; reflexivity|lia|vm_compute; discriminate].
Defined.
