(* ===== verification/Handlers.v ===== *)
(** * Handlers: the request handlers of [views.py] that write rows

    [create_reminder] (lines 367-440), [delete_reminder] (lines 442-447),
    [register_page] (lines 548-608) and [tournament_register] (lines
    787-819).  A request is its method, its [GET] and [POST] query
    dictionaries, the names of its uploaded files and the logged-in user.
    A handler runs in a small state-and-exception monad [M] over the
    [Store]: each [Model.objects.create] writes its row at once (Django's
    autocommit), an early [return] or an exception ends the handler, and
    the rows written before an exception stay written.  An exception
    that leaves the view becomes [ServerError] (Django's 500 page).

    [get_object_or_404] with a string argument converts it with
    [int()] as [IntegerField.get_prep_value] does: a string [int()]
    rejects raises [ValueError]; a key with no row gives the 404 page.
    New rows get the primary key one above the largest one of their
    table.  The database's own checks are modelled where the handlers
    can hit them: [PositiveIntegerField]'s [CHECK (x >= 0)] and
    [TournamentParticipant]'s [unique_together]; both raise
    [IntegrityError]. *)

From S2P Require Import Prelude Models NumberFormat ReminderDispatch Samples.
From Stdlib Require Import List.
Import ListNotations.
Local Open Scope Z_scope.

(** ** Requests and responses *)

(** A [QueryDict]; [get] returns the last value of a key. *)
Definition QueryDict := list (string * string).

Definition qd_get (k : string) (q : QueryDict) : option string :=
  fold_left (fun acc kv => if String.eqb (fst kv) k then Some (snd kv) else acc) q None.

Record AuthUser := mkUser { user_id : nat; user_email : string }.

Record Request := mkRequest {
  method : string;
  GET : QueryDict;
  POST : QueryDict;
  FILES : list (string * string);  (** field name, uploaded file name *)
  user : option AuthUser            (** [None]: anonymous *)
}.

Inductive Response :=
| JsonResponse (status : nat) (ok : bool) (text : string)
| HttpResponseBadRequest (text : string)
| Http404
| Redirect (url : string)
| Render (template : string) (msgs : list string)
| ServerError (exc : string).

#[global] Instance Response_eq_dec : EqDecision Response.
Proof. solve_decision. Defined.

(** Python truthiness of an optional string. *)
Definition py_truthy (x : option string) : bool :=
  match x with Some v => negb (String.eqb v "") | None => false end.

Lemma py_truthy_Some v : v <> "" -> py_truthy (Some v) = true.
Proof. intros Hv. simpl. by rewrite (proj2 (String.eqb_neq _ _) Hv). Qed.

(** ** The handler monad *)

(** A computation reads and writes the store and either goes on with a
    value ([inr]) or has produced the response ([inl]): an early
    [return] or an exception. *)
Definition M (A : Type) := Store -> Store * (Response + A).

Definition ret {A} (a : A) : M A := fun s => (s, inr a).

Definition bind {A B} (x : M A) (f : A -> M B) : M B :=
  fun s => let '(s1, r) := x s in
           match r with inl resp => (s1, inl resp) | inr a => f a s1 end.

Definition respond {A} (resp : Response) : M A := fun s => (s, inl resp).

Definition raise {A} (exc : string) : M A := respond (ServerError exc).

Definition get_store : M Store := fun s => (s, inr s).

Definition modify (f : Store -> Store) : M unit := fun s => (f s, inr tt).

(** [None] raises: a related row that is gone ([RelatedObjectDoesNotExist]). *)
Definition related {A} (x : option A) : M A :=
  match x with Some a => ret a | None => raise "DoesNotExist" end.

Declare Scope handler_scope.
Delimit Scope handler_scope with handler.
Notation "x <- m ;; k" := (bind m (fun x => k))
  (at level 100, m at next level, k at level 200, right associativity) : handler_scope.
Local Open Scope handler_scope.

(** The response a view returns, with the store it leaves. *)
Definition run (m : M Response) (s : Store) : Store * Response :=
  let '(s', r) := m s in (s', match r with inl resp => resp | inr resp => resp end).

(** [get_object_or_404(Model, pk=raw)] for a string [raw]. *)
Definition get_object_or_404 {A} (key : A -> nat) (rows : list A) (raw : string) : M A :=
  match int_of_str raw with
  | None => raise "ValueError"
  | Some z => if z <? 0 then respond Http404 else
              match get_by key (Z.to_nat z) rows with
              | Some a => ret a
              | None => respond Http404
              end
  end.

(** The primary key the database gives a new row. *)
Definition fresh_id (ids : list nat) : nat := S (list_max ids).

(** ** [create_reminder] (lines 367-440) *)

(** [Reminder.objects.create(...)]: the [CHECK] of the
    [PositiveIntegerField] rejects a negative offset. *)
Definition create_reminder_row (m : Match.t) (u : option AuthUser) (email : string) (nmb : Z)
    : M Reminder.t :=
  if nmb <? 0 then raise "IntegrityError" else
  fun s =>
    let r := Reminder.mk (fresh_id (map Reminder.id (reminders s))) (Match.id m)
                         (option_map user_id u) email (Z.to_nat nmb) false in
    (with_reminders s (reminders s ++ [r]), inr r).

(** Lines 388-395: one reminder per match, in queryset order. *)
Fixpoint create_each (u : option AuthUser) (email : string) (nmb : Z) (ms : list Match.t)
    : M (list Reminder.t) :=
  match ms with
  | [] => ret []
  | m :: rest =>
      r <- create_reminder_row m u email nmb ;;
      rs <- create_each u email nmb rest ;;
      ret (r :: rs)
  end.

(** [Match.objects.filter(status='upcoming', match_time__gte=now)]. *)
Definition upcoming_from (now : instant) (m : Match.t) : bool :=
  bool_decide (Match.status m = Match.upcoming) && (now <=? Match.match_time m).

(** The recipient of lines 375-379 ([None] and [""] are rejected). *)
Definition request_email (req : Request) : option string :=
  match user req with
  | Some u => Some (qd_get "email" (POST req) or_else user_email u)
  | None => qd_get "email" (POST req)
  end.

(** [int(request.POST.get('notify_minutes_before', 30))]. *)
Definition request_notify (req : Request) : option Z :=
  py_int (match qd_get "notify_minutes_before" (POST req) with
          | Some v => PStr v
          | None => PInt 30
          end).

(** Lines 385-425: the reminders are created and the confirmation is
    composed; its third field is the line of the body that differs
    between the two cases. *)
Definition create_reminder_rows (now : instant) (req : Request) (email : string) (nmb : Z) : M Mail :=
  if bool_decide (qd_get "bulk_reminder" (POST req) = Some "true") then
    s <- get_store ;;
    created <- create_each (user req) email nmb (List.filter (upcoming_from now) (matches s)) ;;
    ret (mkMail email "Bulk reminders set for upcoming matches"
                ("Total matches: " ++ py_str (Z.of_nat (length created))))
  else if negb (py_truthy (qd_get "match_id" (POST req))) then
    respond (JsonResponse 400 false "match_id is required")
  else
    s <- get_store ;;
    m <- get_object_or_404 Match.id (matches s) (default "" (qd_get "match_id" (POST req))) ;;
    _ <- create_reminder_row m (user req) email nmb ;;
    n1 <- related (team_name s (Match.team1 m)) ;;
    n2 <- related (team_name s (Match.team2 m)) ;;
    t <- related (match_tournament s m) ;;
    ret (mkMail email ("Reminder set for " ++ n1 ++ " vs " ++ n2) ("Tournament: " ++ Tournament.title t)).

(** Lines 367-440; [confirm] tells whether [send_mail] delivers (the
    error text of line 437 is kept up to the exception's message). *)
Definition create_reminder (confirm : Mail -> bool) (now : instant) (req : Request) : M Response :=
  if negb (String.eqb (method req) "POST") then respond (JsonResponse 400 false "Invalid request") else
  match request_notify req with
  | None => raise "ValueError"
  | Some nmb =>
      if negb (py_truthy (request_email req)) then respond (JsonResponse 400 false "Email is required") else
      mail <- create_reminder_rows now req (default "" (request_email req)) nmb ;;
      if confirm mail then ret (JsonResponse 200 true "Reminder(s) set and email sent")
      else ret (JsonResponse 200 false "Email sending failed")
  end.

(** ** [delete_reminder] (lines 442-447) *)

(** [pk] comes from the URL converter [<int:pk>]. *)
Definition delete_reminder (req : Request) (pk : nat) : M Response :=
  if negb (String.eqb (method req) "POST") then respond (HttpResponseBadRequest "Invalid method") else
  s <- get_store ;;
  match get_by MatchReminder.id pk (match_reminders s) with
  | None => respond Http404
  | Some _ =>
      _ <- modify (fun s => with_match_reminders s
                     (List.filter (fun r => negb (Nat.eqb (MatchReminder.id r) pk)) (match_reminders s))) ;;
      ret (JsonResponse 200 true "")
  end.

(** ** URL reversing ([core/urls.py]) *)

(** A route: its name, the path before the parameter, and the
    parameter's name and the path after it. *)
Record Route := mkRoute { route_name : string; route_prefix : string; route_param : option (string * string) }.

(** Lines 6-26 of [core/urls.py], in order. *)
Definition urlpatterns : list Route :=
  [mkRoute "home" "" None;
   mkRoute "tournaments" "tournaments/" None;
   mkRoute "teams" "teams/" None;
   mkRoute "schedule" "schedule/" None;
   mkRoute "results" "results/" None;
   mkRoute "register" "register/" None;
   mkRoute "tournament_detail" "tournaments/" (Some ("pk", "/"));
   mkRoute "news_detail" "news/" (Some ("pk", "/"));
   mkRoute "news" "news/" None;
   mkRoute "schedule" "schedule/" None;
   mkRoute "results" "results/" None;
   mkRoute "create_reminder" "create-reminder/" None;
   mkRoute "delete_reminder" "delete-reminder/" (Some ("pk", "/"));
   mkRoute "team_detail" "teams/" (Some ("team_id", "/"));
   mkRoute "team_tournaments" "teams/" (Some ("team_id", "/tournaments/"));
   mkRoute "calendar_view" "calendar/" None;
   mkRoute "overall_match_stats" "match-stats/" None;
   mkRoute "tournament_register" "tournaments/" (Some ("pk", "/register/"))].

(** [reverse(name, kwargs=...)] with at most one integer keyword
    argument; [None] is [NoReverseMatch].  Django fills its reverse
    dictionary from [reversed(urlpatterns)], so of two routes with the
    same name the later one is tried first. *)
Definition reverse (name : string) (kw : option (string * nat)) : option string :=
  match List.find (fun r => String.eqb (route_name r) name &&
                            match route_param r, kw with
                            | None, None => true
                            | Some (p, _), Some (k, _) => String.eqb p k
                            | _, _ => false
                            end) (rev urlpatterns) with
  | Some r => Some ("/" ++ route_prefix r ++
                    match route_param r, kw with
                    | Some (_, suf), Some (_, v) => py_str (Z.of_nat v) ++ suf
                    | _, _ => ""
                    end)%string
  | None => None
  end.

Definition has_char (c : ascii) (x : string) : bool := existsb (Ascii.eqb c) (list_ascii_of_string x).

(** [redirect(to, **kwargs)] through [resolve_url]: a URL name is
    reversed; a string that is not one is used as the URL if it has a
    ['/'] or a ['.'], and otherwise [NoReverseMatch] propagates. *)
Definition redirect {A} (to : string) (kw : option (string * nat)) : M A :=
  match reverse to kw with
  | Some url => respond (Redirect url)
  | None => if has_char "/" to || has_char "." to then respond (Redirect to) else raise "NoReverseMatch"
  end.

(** ** [register_page] (lines 548-608) *)

(** [Team.objects.create(...)] of lines 562-570; the other columns
    keep their defaults. *)
Definition create_team (name tag : string) (g : Game.t) (region : option string)
    (banner logo : option string) (description : option string) : M Team.t :=
  fun s =>
    let t := Team.mk (fresh_id (map Team.id (teams s))) name (Some (Game.id g)) region None
                     banner logo Team.none None (Some tag) description in
    (with_teams s (teams s ++ [t]), inr t).

(** [Player.objects.create(...)] of lines 578-583. *)
Definition create_player (team : nat) (name : string) (role : string) (avatar : option string)
    : M Player.t :=
  fun s =>
    let p := Player.mk (fresh_id (map Player.id (players s))) name (Some role)
                       "no-email@example.com" "" team false avatar in
    (with_players s (players s ++ [p]), inr p).

(** One iteration of the loop of lines 573-583. *)
Definition player_slot (req : Request) (team : nat) (i : nat) : M unit :=
  let suffix := py_str (Z.of_nat i) in
  let name := qd_get ("player_name_" ++ suffix) (POST req) in
  let role := qd_get ("player_role_" ++ suffix) (POST req) in
  let avatar := qd_get ("player_avatar_" ++ suffix) (FILES req) in
  if py_truthy name || py_truthy avatar then
    _ <- create_player team (name or_else ("Player " ++ suffix)) (role or_else "") avatar ;;
    ret tt
  else ret tt.

Fixpoint for_each_slot (req : Request) (team : nat) (slots : list nat) : M unit :=
  match slots with
  | [] => ret tt
  | i :: rest => _ <- player_slot req team i ;; for_each_slot req team rest
  end.

(** Lines 587-597: the open tournaments the page lists, their count and
    their prize pool ([Sum] skips [NULL]s; [or 0] for an empty set). *)
Definition open_tournaments (s : Store) : list Tournament.t :=
  List.filter (fun t => bool_decide (Tournament.status t = Tournament.registration)) (tournaments s).

Definition register_context (s : Store) : nat * Z :=
  (length (open_tournaments s),
   fold_right Z.add 0 (omap Tournament.prize_pool (open_tournaments s))).

(** Lines 548-608. *)
Definition register_page (req : Request) : M Response :=
  let P k := qd_get k (POST req) in
  if String.eqb (method req) "POST" &&
     py_truthy (P "teamName") && py_truthy (P "teamTag") && py_truthy (P "teamGame") then
    s <- get_store ;;
    g <- get_object_or_404 Game.id (games s) (default "" (P "teamGame")) ;;
    t <- create_team (default "" (P "teamName")) (default "" (P "teamTag")) g (P "teamRegion")
                     (qd_get "banner" (FILES req)) (qd_get "logo" (FILES req)) (P "teamDescription") ;;
    _ <- for_each_slot req (Team.id t) [1; 2; 3; 4; 5]%nat ;;
    redirect ("/teams/?highlight=" ++ py_str (Z.of_nat (Team.id t)) ++ "&tab=rankings") None
  else ret (Render "core/register.html" []).

(** ** [tournament_register] (lines 787-819) *)

(** [TournamentParticipant.objects.create(...)]: [unique_together =
    ('tournament', 'team')] rejects a second row for the pair.
    [manager_phone] is not passed, so it keeps its default [""]. *)
Definition create_participant (now : instant) (tour : Tournament.t) (team : Team.t)
    (name email : string) : M TournamentParticipant.t :=
  fun s =>
    if existsb (fun p => Nat.eqb (TournamentParticipant.tournament p) (Tournament.id tour) &&
                         Nat.eqb (TournamentParticipant.team p) (Team.id team)) (participants s)
    then (s, inl (ServerError "IntegrityError"))
    else
      let p := TournamentParticipant.mk (fresh_id (map TournamentParticipant.id (participants s)))
                 (Tournament.id tour) (Team.id team) name email "" now in
      (with_participants s (participants s ++ [p]), inr p).

Definition tournament_register_template : string := "core/tournament_register.html".

(** [request.GET.get('team_id') or request.POST.get('team_id')]. *)
Definition request_team_id (req : Request) : option string :=
  if py_truthy (qd_get "team_id" (GET req)) then qd_get "team_id" (GET req)
  else qd_get "team_id" (POST req).

(** Lines 787-819; [pk] comes from the URL converter [<int:pk>]. *)
Definition tournament_register (now : instant) (req : Request) (pk : nat) : M Response :=
  s <- get_store ;;
  tour <- (match get_by Tournament.id pk (tournaments s) with
           | Some t => ret t
           | None => respond Http404
           end) ;;
  let team_id := request_team_id req in
  team <- (if py_truthy team_id
           then t <- get_object_or_404 Team.id (teams s) (default "" team_id) ;; ret (Some t)
           else ret None) ;;
  if String.eqb (method req) "POST" then
    let name := qd_get "manager_name" (POST req) in
    let email := qd_get "manager_email" (POST req) in
    match team with
    | None => ret (Render tournament_register_template ["Please select a team to register."])
    | Some tm =>
        if negb (py_truthy name) || negb (py_truthy email) then
          ret (Render tournament_register_template ["Manager name and email are required."])
        else
          _ <- create_participant now tour tm (default "" name) (default "" email) ;;
          redirect "tournament_detail_page" (Some ("pk", Tournament.id tour))
    end
  else ret (Render tournament_register_template []).

(** ** Reasoning about handlers: how a computation moves the store *)

(** [m] relates the store before it to the store after it by [R],
    whatever it returns or raises. *)
Definition grows {A} (R : relation Store) (m : M A) : Prop := forall s, R s (fst (m s)).

Create HintDb handlers discriminated.

Section Grows.
Context (R : relation Store) `{!PreOrder R}.

Lemma grows_ret {A} (a : A) : grows R (ret a).
Proof. intros s. reflexivity. Qed.

Lemma grows_respond {A} resp : grows R (@respond A resp).
Proof. intros s. reflexivity. Qed.

Lemma grows_raise {A} exc : grows R (@raise A exc).
Proof. intros s. reflexivity. Qed.

Lemma grows_get_store : grows R get_store.
Proof. intros s. reflexivity. Qed.

Lemma grows_related {A} (x : option A) : grows R (related x).
Proof. destruct x; intros s; reflexivity. Qed.

Lemma grows_bind {A B} (x : M A) (f : A -> M B) :
  grows R x -> (forall a, grows R (f a)) -> grows R (bind x f).
Proof.
  intros Hx Hf s. unfold bind. specialize (Hx s).
  destruct (x s) as [s1 [resp|a]]; [done|]. etrans; [exact Hx|apply Hf].
Qed.

Lemma grows_get_object_or_404 {A} (key : A -> nat) rows raw : grows R (get_object_or_404 key rows raw).
Proof. unfold get_object_or_404. intros s. repeat case_match; reflexivity. Qed.

Lemma grows_redirect {A} to kw : grows R (@redirect A to kw).
Proof. unfold redirect. intros s. repeat case_match; reflexivity. Qed.

Lemma grows_modify (f : Store -> Store) : (forall s, R s (f s)) -> grows R (modify f).
Proof. intros Hf s. apply Hf. Qed.
End Grows.

#[export] Hint Resolve grows_ret grows_respond grows_raise grows_get_store
  grows_related grows_get_object_or_404 grows_redirect : handlers.

(** [m] keeps the property [P] of the store. *)
Abbreviation preserves P := (grows (fun s s' => P s -> P s')).

#[global] Instance preserves_preorder (P : Store -> Prop) : PreOrder (fun s s' : Store => P s -> P s').
Proof. split; [by intros s|by intros s1 s2 s3 H12 H23 ?%H12%H23]. Qed.

(** Split a handler into its steps and discharge the steps that do not
    write. *)
Ltac grows_steps :=
  repeat match goal with
  | |- grows _ (bind _ _) => apply grows_bind; [typeclasses eauto| |intros ?]
  | |- grows _ (if _ then _ else _) => case_match
  | |- grows _ (match _ with _ => _ end) => case_match
  | |- grows _ _ => solve [eauto with handlers typeclass_instances]
  end.

(** ** Fresh keys *)

Lemma fresh_id_notin ids : ~ In (fresh_id ids) ids.
Proof.
  unfold fresh_id. intros Hin.
  assert (Hle : Forall (fun k => k <= list_max ids)%nat ids) by (apply list_max_le; lia).
  rewrite Forall_forall in Hle. specialize (Hle _ Hin). lia.
Qed.

Lemma keys_unique_snoc {A} (key : A -> nat) rows r :
  keys_unique key rows -> key r = fresh_id (map key rows) -> keys_unique key (rows ++ [r]).
Proof.
  unfold keys_unique. intros Hu Hk. rewrite map_app. simpl.
  apply NoDup_app; [done|constructor; [intros []|constructor]|].
  intros x Hx [<-|[]]. apply (fresh_id_notin (map key rows)). by rewrite <- Hk.
Qed.

Lemma keys_unique_filter {A} (key : A -> nat) (p : A -> bool) rows :
  keys_unique key rows -> keys_unique key (List.filter p rows).
Proof.
  unfold keys_unique. induction rows as [|r rows IH]; [done|]. simpl.
  intros Hnd. inversion Hnd as [|? ? Hnot Hnd']; subst. destruct (p r); [|by apply IH].
  simpl. constructor; [|by apply IH]. intros Hin. apply Hnot.
  apply in_map_iff in Hin as (r' & Hk & Hin). apply filter_In in Hin as [Hin _].
  rewrite <- Hk. by apply in_map.
Qed.

#[export] Hint Resolve keys_unique_snoc keys_unique_filter : handlers.

(** ** The store invariant the handlers keep *)

Definition participant_pair (p : TournamentParticipant.t) : nat * nat :=
  (TournamentParticipant.tournament p, TournamentParticipant.team p).

(** Primary keys are unique in every table the handlers write, and no
    two participants share a (tournament, team) pair. *)
Record store_wf (s : Store) : Prop := {
  wf_reminders : keys_unique Reminder.id (reminders s);
  wf_match_reminders : keys_unique MatchReminder.id (match_reminders s);
  wf_teams : keys_unique Team.id (teams s);
  wf_players : keys_unique Player.id (players s);
  wf_participants : keys_unique TournamentParticipant.id (participants s);
  wf_pairs : NoDup (map participant_pair (participants s))
}.

Lemma create_reminder_row_wf m u email nmb : preserves store_wf (create_reminder_row m u email nmb).
Proof.
  unfold create_reminder_row. case_match; [grows_steps|].
  intros s [] ; constructor; simpl; eauto with handlers.
Qed.
#[export] Hint Resolve create_reminder_row_wf : handlers.

Lemma create_each_wf u email nmb ms : preserves store_wf (create_each u email nmb ms).
Proof. induction ms as [|m ms IH]; simpl; grows_steps. Qed.
#[export] Hint Resolve create_each_wf : handlers.

Lemma create_team_wf name tag g region banner logo descr :
  preserves store_wf (create_team name tag g region banner logo descr).
Proof. intros s []; constructor; simpl; eauto with handlers. Qed.
#[export] Hint Resolve create_team_wf : handlers.

Lemma create_player_wf team name role avatar : preserves store_wf (create_player team name role avatar).
Proof. intros s []; constructor; simpl; eauto with handlers. Qed.
#[export] Hint Resolve create_player_wf : handlers.

Lemma for_each_slot_wf req team slots : preserves store_wf (for_each_slot req team slots).
Proof. induction slots as [|i slots IH]; simpl; grows_steps. unfold player_slot. grows_steps. Qed.
#[export] Hint Resolve for_each_slot_wf : handlers.

Lemma create_participant_wf now tour team name email :
  preserves store_wf (create_participant now tour team name email).
Proof.
  intros s [] ; unfold create_participant. case_match; [by constructor|].
  constructor; simpl; eauto with handlers.
  rewrite map_app. apply NoDup_app; [done|constructor; [intros []|constructor]|].
  intros x Hx [<-|[]]. apply in_map_iff in Hx as (p & Hp & Hin).
  assert (Hex : existsb (fun p => Nat.eqb (TournamentParticipant.tournament p) (Tournament.id tour) &&
                          Nat.eqb (TournamentParticipant.team p) (Team.id team)) (participants s) = true).
  { apply existsb_exists. exists p. split; [done|]. unfold participant_pair in Hp. simpl in Hp.
    injection Hp as -> ->. by rewrite !Nat.eqb_refl. }
  congruence.
Qed.

#[export] Hint Resolve create_participant_wf : handlers.

Lemma run_fst (m : M Response) s : fst (run m s) = fst (m s).
Proof. unfold run. by destruct (m s). Qed.

Lemma create_reminder_wf confirm now req : preserves store_wf (create_reminder confirm now req).
Proof. unfold create_reminder, create_reminder_rows. grows_steps. Qed.

Lemma delete_reminder_wf req pk : preserves store_wf (delete_reminder req pk).
Proof.
  unfold delete_reminder. grows_steps.
  apply grows_modify. intros s' []. constructor; simpl; eauto with handlers.
Qed.

Lemma register_page_wf req : preserves store_wf (register_page req).
Proof. unfold register_page. grows_steps. Qed.

Lemma tournament_register_wf now req pk : preserves store_wf (tournament_register now req pk).
Proof. unfold tournament_register. grows_steps. Qed.

(** Every handler that writes rows keeps the primary
    keys of every table unique and the (tournament, team) pairs of the
    participants unique, whatever the request, including the runs that
    end in an exception after writing. *)
Theorem handlers_preserve_wf (confirm : Mail -> bool) (now : instant) (req : Request) (pk : nat) (s : Store) :
  store_wf s ->
  store_wf (fst (run (create_reminder confirm now req) s)) /\
  store_wf (fst (run (delete_reminder req pk) s)) /\
  store_wf (fst (run (register_page req) s)) /\
  store_wf (fst (run (tournament_register now req pk) s)).
Proof.
  intros Hs. rewrite !run_fst. split_and!;
    [apply create_reminder_wf|apply delete_reminder_wf|apply register_page_wf|apply tournament_register_wf];
    done.
Qed.

(** ** [create_reminder] for one match *)

Section SingleReminder.
Context (confirm : Mail -> bool) (now : instant) (req : Request) (s : Store)
        (m : Match.t) (mid em : string) (nmb : Z) (n1 n2 : string) (t : Tournament.t).
Hypothesis Hpost : method req = "POST".
Hypothesis Hnotify : request_notify req = Some nmb.
Hypothesis Hnonneg : 0 <= nmb.
Hypothesis Hemail : request_email req = Some em.
Hypothesis Hem : em <> "".
Hypothesis Hsingle : qd_get "bulk_reminder" (POST req) <> Some "true".
Hypothesis Hmid : qd_get "match_id" (POST req) = Some mid.
Hypothesis Hmid_int : int_of_str mid = Some (Z.of_nat (Match.id m)).
Hypothesis Hget : get_by Match.id (Match.id m) (matches s) = Some m.
Hypothesis Hn1 : team_name s (Match.team1 m) = Some n1.
Hypothesis Hn2 : team_name s (Match.team2 m) = Some n2.
Hypothesis Ht : match_tournament s m = Some t.

(** The row [Reminder.objects.create] writes. *)
Definition new_reminder : Reminder.t :=
  Reminder.mk (fresh_id (map Reminder.id (reminders s))) (Match.id m)
              (option_map user_id (user req)) em (Z.to_nat nmb) false.

Definition confirmation : Mail :=
  mkMail em ("Reminder set for " ++ n1 ++ " vs " ++ n2) ("Tournament: " ++ Tournament.title t).

(** The request writes one reminder and answers with the outcome of the
    confirmation e-mail. *)
Lemma create_reminder_single :
  run (create_reminder confirm now req) s =
    (with_reminders s (reminders s ++ [new_reminder]),
     if confirm confirmation then JsonResponse 200 true "Reminder(s) set and email sent"
     else JsonResponse 200 false "Email sending failed").
Proof.
  assert (Hne : mid <> "") by (intros ->; discriminate Hmid_int).
  unfold run, create_reminder, create_reminder_rows, get_object_or_404, create_reminder_row.
  rewrite Hpost, Hnotify, Hemail, Hmid. cbn [default from_option]. unfold id. rewrite Hmid_int, !py_truthy_Some by done.
  rewrite bool_decide_eq_false_2 by done.
  rewrite (proj2 (Z.ltb_ge _ _)) by lia. rewrite (proj2 (Z.ltb_ge nmb 0)) by lia. rewrite Nat2Z.id.
  cbv beta iota zeta delta [bind get_store ret negb]. rewrite String.eqb_refl. cbv beta iota. rewrite Hget.
  cbv beta iota zeta delta [related ret]. unfold team_name, match_tournament in *. simpl teams. simpl tournaments.
  rewrite Hn1, Hn2, Ht.
  unfold confirmation, new_reminder. by destruct (confirm _).
Qed.


(** C12 (no deduplication): [create_reminder] never looks for an existing
    reminder: each request adds one more unsent reminder for the match
    and the address, so a visitor who submits twice (or retries after
    "Email sending failed") gets the reminder e-mail twice. *)
Theorem create_reminder_duplicates :
  countb (fun r => Nat.eqb (Reminder.match_ r) (Match.id m) && String.eqb (Reminder.email r) em &&
                   negb (Reminder.sent r))
         (reminders (fst (run (create_reminder confirm now req) s))) =
  S (countb (fun r => Nat.eqb (Reminder.match_ r) (Match.id m) && String.eqb (Reminder.email r) em &&
                      negb (Reminder.sent r)) (reminders s)).
Proof.
  rewrite create_reminder_single. simpl. rewrite countb_app. unfold countb at 2. simpl.
  rewrite Nat.eqb_refl, String.eqb_refl. simpl. lia.
Qed.
End SingleReminder.

(** ** What [create_reminder] writes *)

(** The store [s'] is [s] with some unsent reminders to [em] appended. *)
Definition appends_unsent (em : string) (s s' : Store) : Prop :=
  exists new, s' = with_reminders s (reminders s ++ new) /\
              Forall (fun r => Reminder.sent r = false /\ Reminder.email r = em) new.

#[global] Instance appends_unsent_preorder em : PreOrder (appends_unsent em).
Proof.
  split.
  - intros s. exists []. split; [|done]. destruct s. unfold with_reminders. simpl. by rewrite app_nil_r.
  - intros s1 s2 s3 (n1 & -> & H1) (n2 & -> & H2). exists (n1 ++ n2). split.
    + unfold with_reminders. simpl. by rewrite app_assoc.
    + by apply Forall_app.
Qed.

Lemma create_reminder_row_appends m u email nmb : grows (appends_unsent email) (create_reminder_row m u email nmb).
Proof.
  unfold create_reminder_row. case_match; [grows_steps|].
  intros s. eexists [_]. split; [reflexivity|]. by repeat constructor.
Qed.
#[export] Hint Resolve create_reminder_row_appends : handlers.

Lemma create_each_appends u email nmb ms : grows (appends_unsent email) (create_each u email nmb ms).
Proof. induction ms as [|m ms IH]; simpl; grows_steps. Qed.
#[export] Hint Resolve create_each_appends : handlers.

(** Whatever the request, [create_reminder] only appends
    reminders, each unsent and addressed to the request's recipient: it
    never changes or removes an existing reminder and never marks one
    sent, and no other table changes. *)
Theorem create_reminder_appends_unsent (confirm : Mail -> bool) (now : instant) (req : Request) (s : Store) :
  exists new, fst (run (create_reminder confirm now req) s) = with_reminders s (reminders s ++ new) /\
    Forall (fun r => Reminder.sent r = false /\ Reminder.email r = default "" (request_email req)) new.
Proof.
  rewrite run_fst. revert s. change (grows (appends_unsent (default "" (request_email req)))
                                          (create_reminder confirm now req)).
  unfold create_reminder, create_reminder_rows. grows_steps.
Qed.

(** C23 (the table [delete_reminder] deletes from): no request to
    [delete-reminder/<pk>/] changes the [Reminder] table, the one
    [create_reminder] writes; a POST for a [MatchReminder] key deletes
    exactly that [MatchReminder] and answers success; any other request
    (another method, or an unknown key) leaves the store as it was. *)
Theorem delete_reminder_tables (req : Request) (pk : nat) (s : Store) :
  reminders (fst (run (delete_reminder req pk) s)) = reminders s /\
  (method req = "POST" -> is_Some (get_by MatchReminder.id pk (match_reminders s)) ->
   snd (run (delete_reminder req pk) s) = JsonResponse 200 true "" /\
   (forall r, In r (match_reminders (fst (run (delete_reminder req pk) s))) <->
              In r (match_reminders s) /\ MatchReminder.id r <> pk)) /\
  (method req <> "POST" \/ get_by MatchReminder.id pk (match_reminders s) = None ->
   fst (run (delete_reminder req pk) s) = s).
Proof.
  unfold run, delete_reminder.
  destruct (String.eqb_spec (method req) "POST") as [Hpost|Hpost]; cbn [negb].
  - cbv beta iota zeta delta [bind get_store ret modify].
    destruct (get_by MatchReminder.id pk (match_reminders s)) as [mr|] eqn:Hmr; simpl.
    + split_and!; [done| |by intros [|]]. intros _ _. split; [done|]. intros r. rewrite filter_In.
      destruct (Nat.eqb_spec (MatchReminder.id r) pk); simpl; split; intros [? ?]; by try split.
    + split_and!; [done|by intros _ []|done].
  - split_and!; [done|done|done].
Qed.

(** ** [tournament_register] with a complete form *)

Section RegisterPost.
Context (now : instant) (req : Request) (pk : nat) (s : Store) (tour : Tournament.t) (team : Team.t)
        (tid name email : string).
Hypothesis Htour : get_by Tournament.id pk (tournaments s) = Some tour.
Hypothesis Htid : request_team_id req = Some tid.
Hypothesis Htid_int : int_of_str tid = Some (Z.of_nat (Team.id team)).
Hypothesis Hteam : get_by Team.id (Team.id team) (teams s) = Some team.
Hypothesis Hpost : method req = "POST".
Hypothesis Hname : qd_get "manager_name" (POST req) = Some name.
Hypothesis Hname_ne : name <> "".
Hypothesis Hemail : qd_get "manager_email" (POST req) = Some email.
Hypothesis Hemail_ne : email <> "".

Definition already_registered : bool :=
  existsb (fun p => Nat.eqb (TournamentParticipant.tournament p) (Tournament.id tour) &&
                    Nat.eqb (TournamentParticipant.team p) (Team.id team)) (participants s).

Definition new_participant : TournamentParticipant.t :=
  TournamentParticipant.mk (fresh_id (map TournamentParticipant.id (participants s)))
    (Tournament.id tour) (Team.id team) name email "" now.

(** [redirect('tournament_detail_page', pk=...)] names no route of
    [core/urls.py] (the route is named ['tournament_detail']). *)
Lemma redirect_tournament_detail_page {A} k :
  @redirect A "tournament_detail_page" (Some ("pk", k)) = raise "NoReverseMatch".
Proof. reflexivity. Qed.

(** C11 (the outcome of a valid registration): a POST naming a team, a
    manager and an e-mail either saves the participant (with an empty
    [manager_phone], the one the form sent being dropped) and then fails
    with [NoReverseMatch], because the redirect names a route that
    [core/urls.py] does not have; or, when the team is already
    registered, fails with the [IntegrityError] of [unique_together]
    and writes nothing.  The user sees a server error in both cases. *)
Theorem tournament_register_post :
  run (tournament_register now req pk) s =
    if already_registered then (s, ServerError "IntegrityError")
    else (with_participants s (participants s ++ [new_participant]), ServerError "NoReverseMatch").
Proof.
  assert (Hne : tid <> "") by (intros ->; discriminate Htid_int).
  unfold run, tournament_register. cbv beta iota zeta delta [bind get_store ret].
  rewrite Htour. cbv beta iota. rewrite Htid, py_truthy_Some by done. cbn [default from_option]. unfold id.
  unfold get_object_or_404. rewrite Htid_int, (proj2 (Z.ltb_ge _ _)) by lia. rewrite Nat2Z.id, Hteam.
  cbv beta iota zeta delta [ret]. rewrite Hpost, String.eqb_refl, Hname, Hemail, !py_truthy_Some by done.
  cbn [negb orb default from_option]. unfold id, create_participant, already_registered, new_participant.
  destruct (existsb _ _); [done|]. cbv beta iota. by rewrite redirect_tournament_detail_page.
Qed.
End RegisterPost.

(** ** [register_page] with a complete form *)

Lemma player_slot_run req team i s :
  exists ps, player_slot req team i s = (with_players s (players s ++ ps), inr tt) /\
             (length ps <= 1)%nat /\ Forall (fun p => Player.team p = team) ps.
Proof.
  unfold player_slot. case_match.
  - eexists [_]. split_and!; [reflexivity|simpl; lia|by repeat constructor].
  - exists []. split_and!; [|simpl; lia|done]. destruct s. unfold with_players. simpl. by rewrite app_nil_r.
Qed.

(** The loop of lines 573-583 appends at most one player per slot, each
    in the new team. *)
Lemma for_each_slot_run req team slots s :
  exists ps, for_each_slot req team slots s = (with_players s (players s ++ ps), inr tt) /\
             (length ps <= length slots)%nat /\ Forall (fun p => Player.team p = team) ps.
Proof.
  revert s. induction slots as [|i slots IH]; intros s; simpl.
  - exists []. split_and!; [|simpl; lia|done]. destruct s. unfold with_players, ret. simpl. by rewrite app_nil_r.
  - destruct (player_slot_run req team i s) as (p1 & H1 & Hl1 & Hf1).
    unfold bind. rewrite H1. destruct (IH (with_players s (players s ++ p1))) as (p2 & H2 & Hl2 & Hf2).
    exists (p1 ++ p2). rewrite H2. split_and!.
    + unfold with_players. simpl. by rewrite app_assoc.
    + rewrite length_app. lia.
    + by apply Forall_app.
Qed.

Section RegisterTeam.
Context (req : Request) (s : Store) (g : Game.t) (nm tg gid : string).
Hypothesis Hpost : method req = "POST".
Hypothesis Hname : qd_get "teamName" (POST req) = Some nm.
Hypothesis Hname_ne : nm <> "".
Hypothesis Htag : qd_get "teamTag" (POST req) = Some tg.
Hypothesis Htag_ne : tg <> "".
Hypothesis Hgid : qd_get "teamGame" (POST req) = Some gid.
Hypothesis Hgid_int : int_of_str gid = Some (Z.of_nat (Game.id g)).
Hypothesis Hgame : get_by Game.id (Game.id g) (games s) = Some g.

Definition new_team : Team.t :=
  Team.mk (fresh_id (map Team.id (teams s))) nm (Some (Game.id g)) (qd_get "teamRegion" (POST req)) None
          (qd_get "banner" (FILES req)) (qd_get "logo" (FILES req)) Team.none None (Some tg)
          (qd_get "teamDescription" (POST req)).

(** A POST with a name, a tag and
    an existing game creates one team with a fresh key and the form's
    fields, and at most five players, all in that team, and redirects to
    the rankings with the new team highlighted. *)
Theorem register_page_creates :
  exists ps,
    run (register_page req) s =
      (with_players (with_teams s (teams s ++ [new_team])) (players s ++ ps),
       Redirect ("/teams/?highlight=" ++ py_str (Z.of_nat (Team.id new_team)) ++ "&tab=rankings")) /\
    (length ps <= 5)%nat /\ Forall (fun p => Player.team p = Team.id new_team) ps.
Proof.
  assert (Hne : gid <> "") by (intros ->; discriminate Hgid_int).
  destruct (for_each_slot_run req (Team.id new_team) [1; 2; 3; 4; 5]%nat
              (with_teams s (teams s ++ [new_team]))) as (ps & Hrun & Hl & Hf).
  exists ps. split_and!; [|simpl in Hl; lia|done].
  unfold run, register_page. rewrite Hpost, String.eqb_refl, Hname, Htag, Hgid, !py_truthy_Some by done.
  cbn [andb default from_option]. unfold id.
  cbv beta iota zeta delta [bind get_store ret]. unfold get_object_or_404.
  rewrite Hgid_int, (proj2 (Z.ltb_ge _ _)) by lia. rewrite Nat2Z.id, Hgame. cbv beta iota zeta delta [ret].
  unfold create_team. fold new_team. rewrite Hrun. cbv beta iota.
  unfold redirect. simpl. done.
Qed.
End RegisterTeam.

(** ** Witnesses on the sample store *)

Definition req_single : Request :=
  mkRequest "POST" [] [("email", "fan@example.com"); ("match_id", "1"); ("notify_minutes_before", "30")] [] None.

Definition req_register : Request :=
  mkRequest "POST" [] [("team_id", "2"); ("manager_name", "Mia"); ("manager_email", "mia@example.com");
                       ("manager_phone", "555")] [] None.

Definition req_team : Request :=
  mkRequest "POST" [] [("teamName", "Zeta"); ("teamTag", "ZT"); ("teamGame", "1"); ("player_name_2", "Kai")]
            [("player_avatar_4", "a.png")] None.

Lemma sample_store_wf : store_wf sample_store.
Proof. constructor; [apply (bool_decide_unpack _); vm_compute; reflexivity..|constructor]. Qed.

Lemma handlers_preserve_wf_witness :
  store_wf (fst (run (create_reminder always_deliver now_a req_single) sample_store)) /\
  store_wf (fst (run (delete_reminder req_single 1) sample_store)) /\
  store_wf (fst (run (register_page req_single) sample_store)) /\
  store_wf (fst (run (tournament_register now_a req_single 1) sample_store)).
Proof. apply handlers_preserve_wf. exact sample_store_wf. Defined.


Lemma create_reminder_duplicates_witness :
  countb (fun r => Nat.eqb (Reminder.match_ r) (Match.id m_due) && String.eqb (Reminder.email r) "fan@example.com" &&
                   negb (Reminder.sent r))
         (reminders (fst (run (create_reminder always_deliver now_a req_single) sample_store))) =
  S (countb (fun r => Nat.eqb (Reminder.match_ r) (Match.id m_due) && String.eqb (Reminder.email r) "fan@example.com" &&
                      negb (Reminder.sent r)) (reminders sample_store)).
Proof.
  apply (create_reminder_duplicates always_deliver now_a req_single sample_store m_due "1" "fan@example.com"
           30 "Alpha" "Bravo" (sample_tournament 1 "Spring Cup" (Some "america/NEW_YORK")));
    first [reflexivity | discriminate | lia].
Defined.

Lemma delete_reminder_tables_witness :
  reminders (fst (run (delete_reminder req_single 1) sample_store)) = reminders sample_store /\
  snd (run (delete_reminder req_single 1) sample_store) = JsonResponse 200 true "" /\
  (forall r, In r (match_reminders (fst (run (delete_reminder req_single 1) sample_store))) <->
             In r (match_reminders sample_store) /\ MatchReminder.id r <> 1%nat).
Proof.
  destruct (delete_reminder_tables req_single 1 sample_store) as (H1 & H2 & _).
  assert (Hk : is_Some (get_by MatchReminder.id 1 (match_reminders sample_store))) by (vm_compute; by eexists).
  destruct (H2 ltac:(reflexivity) Hk) as [H3 H4]. split; [exact H1|split; [exact H3|exact H4]].
Defined.

Lemma tournament_register_post_witness :
  run (tournament_register now_a req_register 1) sample_store =
    if already_registered sample_store (sample_tournament 1 "Spring Cup" (Some "america/NEW_YORK"))
         (sample_team 2 "Bravo")
    then (sample_store, ServerError "IntegrityError")
    else (with_participants sample_store
            (participants sample_store ++
             [new_participant now_a sample_store (sample_tournament 1 "Spring Cup" (Some "america/NEW_YORK"))
                (sample_team 2 "Bravo") "Mia" "mia@example.com"]),
          ServerError "NoReverseMatch").
Proof.
  apply (tournament_register_post now_a req_register 1 sample_store
           (sample_tournament 1 "Spring Cup" (Some "america/NEW_YORK")) (sample_team 2 "Bravo") "2");
    first [reflexivity | discriminate].
Defined.

Lemma register_page_creates_witness :
  exists ps,
    run (register_page req_team) sample_store =
      (with_players (with_teams sample_store (teams sample_store ++ [new_team req_team sample_store (Game.mk 1 "Valorant") "Zeta" "ZT"]))
                    (players sample_store ++ ps),
       Redirect ("/teams/?highlight=" ++ py_str (Z.of_nat (Team.id (new_team req_team sample_store (Game.mk 1 "Valorant") "Zeta" "ZT")))
                 ++ "&tab=rankings")) /\
    (length ps <= 5)%nat /\
    Forall (fun p => Player.team p = Team.id (new_team req_team sample_store (Game.mk 1 "Valorant") "Zeta" "ZT")) ps.
Proof. apply (register_page_creates req_team sample_store (Game.mk 1 "Valorant") "Zeta" "ZT" "1"); first [reflexivity | discriminate]. Defined.
