(* ===== verification/Urls.v ===== *)
(** * Urls: dispatch through [core/urls.py]

    [Handlers.urlpatterns] holds the routes of urls.py in order; here a
    request path is dispatched to the first route whose pattern matches
    it, as Django's [URLResolver.resolve] does with the patterns [path()]
    compiles: the whole path must match; [<int:name>] is [[0-9]+]
    converted with [int()].  The media route that [static()] adds in
    DEBUG is not modelled.  The round trip: the URL [reverse] builds for
    a route name and argument dispatches back to a route of that name
    with that argument. *)

From S2P Require Import Prelude Models NumberFormat Handlers.
From Stdlib Require Import List.
Import ListNotations.
Local Open Scope Z_scope.

(** ** Matching one route *)

Definition is_digit (c : ascii) : bool := if digit_val c is Some _ then true else false.

(** [[0-9]+] matched greedily: the digits and what follows them. *)
Fixpoint span_digits (l : list ascii) : list ascii * list ascii :=
  match l with
  | c :: r => if is_digit c then let '(ds, rest) := span_digits r in (c :: ds, rest) else ([], l)
  | [] => ([], [])
  end.

Fixpoint strip_prefix (p l : list ascii) : option (list ascii) :=
  match p, l with
  | [], _ => Some l
  | a :: p', b :: l' => if Ascii.eqb a b then strip_prefix p' l' else None
  | _ :: _, [] => None
  end.

(** The pattern of one route against a path (the leading ['/']
    removed): [None] when it does not match, otherwise the keyword
    argument it captures. *)
Definition match_route (r : Route) (path : list ascii) : option (option (string * Z)) :=
  match strip_prefix (list_ascii_of_string (route_prefix r)) path with
  | None => None
  | Some rest =>
      match route_param r with
      | None => if rest is [] then Some None else None
      | Some (name, suf) =>
          let '(ds, rest') := span_digits rest in
          if bool_decide (ds <> []) && bool_decide (rest' = list_ascii_of_string suf) then
            match int_of_str (string_of_list_ascii ds) with
            | Some v => Some (Some (name, v))
            | None => None
            end
          else None
      end
  end.

(** [resolve(path)]: the first route that matches; [None] is
    [Resolver404]. *)
Fixpoint resolve_in (rs : list Route) (path : list ascii) : option (Route * option (string * Z)) :=
  match rs with
  | [] => None
  | r :: rs' => match match_route r path with
                | Some a => Some (r, a)
                | None => resolve_in rs' path
                end
  end.

Definition resolve (path : string) : option (Route * option (string * Z)) :=
  match list_ascii_of_string path with
  | c :: rest => if Ascii.eqb c "/"%char then resolve_in urlpatterns rest else None
  | [] => None
  end.

(** The shape of a route's pattern: its prefix and the suffix after its
    integer, if it has one. *)
Definition shape (r : Route) : string * option string := (route_prefix r, option_map snd (route_param r)).

(** The patterns are of the kind the round trip needs: prefixes without
    digits, suffixes starting with ['/'], and the first route of each
    shape has the name and parameter of every route of that shape. *)
Definition digit_free (s : string) : bool := forallb (fun c => negb (is_digit c)) (list_ascii_of_string s).

Definition patterns_ok (rs : list Route) : bool :=
  forallb (fun r => digit_free (route_prefix r) &&
                    match route_param r with
                    | Some (_, suf) => if list_ascii_of_string suf is c :: _ then Ascii.eqb c "/"%char else false
                    | None => true
                    end &&
                    match List.find (fun r' => bool_decide (shape r' = shape r)) rs with
                    | Some r' => bool_decide (route_name r' = route_name r /\ route_param r' = route_param r)
                    | None => false
                    end) rs.

(** The path (after the leading ['/']) of route [r] with the digits [L]
    in place of its integer. *)
Definition url_of (r : Route) (L : list ascii) : list ascii :=
  list_ascii_of_string (route_prefix r) ++
  match route_param r with None => [] | Some (_, suf) => L ++ list_ascii_of_string suf end.

Definition route_ok (r : Route) : Prop :=
  Forall (fun c => is_digit c = false) (list_ascii_of_string (route_prefix r)) /\
  match route_param r with
  | Some (_, suf) => exists t, list_ascii_of_string suf = "/"%char :: t
  | None => True
  end.

(** ** Lemmas *)

Lemma list_ascii_of_string_app s1 s2 :
  list_ascii_of_string (s1 ++ s2)%string = list_ascii_of_string s1 ++ list_ascii_of_string s2.
Proof. induction s1 as [|a s1 IH]; simpl; [done|by rewrite IH]. Qed.

Lemma strip_prefix_app p l : strip_prefix p (p ++ l) = Some l.
Proof. induction p; simpl; [done|]. by rewrite Ascii.eqb_refl. Qed.

Lemma span_digits_app L S :
  Forall (fun c => is_digit c = true) L -> (match S with c :: _ => is_digit c = false | [] => True end) ->
  span_digits (L ++ S) = (L, S).
Proof.
  induction 1 as [|c L Hc _ IH]; intros HS; simpl.
  - destruct S; simpl; [done|]. by rewrite HS.
  - by rewrite Hc, IH.
Qed.

(** Stripping a digit-free prefix from a digit-free word followed by
    nothing or by a digit: the prefix is the word, or a proper prefix of
    it. *)
Lemma strip_prefix_digit_free p q t rest :
  Forall (fun c => is_digit c = false) p -> Forall (fun c => is_digit c = false) q ->
  (match t with c :: _ => is_digit c = true | [] => True end) ->
  strip_prefix p (q ++ t) = Some rest ->
  (p = q /\ rest = t) \/ (exists c u, q = p ++ c :: u /\ rest = c :: u ++ t).
Proof.
  revert q. induction p as [|a p IH]; intros q Hp Hq Ht H; simpl in H.
  - injection H as <-. destruct q as [|c u]; [by left|right; by exists c, u].
  - inversion Hp as [|? ? Ha Hp']; subst. destruct q as [|b q'].
    + destruct t as [|c t']; [done|]. simpl in H. destruct (Ascii.eqb_spec a c); [subst; congruence|done].
    + simpl in H. destruct (Ascii.eqb_spec a b) as [<-|]; [|done]. inversion Hq; subst.
      destruct (IH q' ltac:(done) ltac:(done) Ht H) as [[-> ->]|(c & u & -> & ->)]; [by left|right; by exists c, u].
Qed.

Lemma string_of_list_ascii_inj s1 s2 : list_ascii_of_string s1 = list_ascii_of_string s2 -> s1 = s2.
Proof. intros H. by rewrite <- (string_of_list_ascii_of_string s1), H, string_of_list_ascii_of_string. Qed.

(** A route's pattern matches the path of route [r] exactly when the
    two have the same shape, and then captures the value of the
    digits. *)
Lemma match_route_url r r' L v :
  route_ok r -> route_ok r' -> L <> [] -> Forall (fun c => is_digit c = true) L ->
  int_of_str (string_of_list_ascii L) = Some v ->
  match_route r' (url_of r L) =
    if bool_decide (shape r' = shape r) then Some (option_map (fun '(k, _) => (k, v)) (route_param r')) else None.
Proof.
  intros [HP HS] [HP' HS'] HL HLd Hv. unfold match_route, url_of, shape.
  destruct (strip_prefix _ _) as [rest|] eqn:Hs.
  - assert (Ht : match (match route_param r with None => [] | Some (_, suf) => L ++ list_ascii_of_string suf end)
                 with c :: _ => is_digit c = true | [] => True end)
      by (destruct (route_param r) as [[? ?]|]; [destruct L; [done|by inversion HLd]|done]).
    destruct (strip_prefix_digit_free _ _ _ _ HP' HP Ht Hs) as [[Hpre ->]|(c & u & Hpre & ->)].
    + apply string_of_list_ascii_inj in Hpre. rewrite Hpre.
      destruct (route_param r') as [[k' suf']|], (route_param r) as [[k suf]|]; cbn [option_map snd].
      * destruct HS as [t Ht']. rewrite span_digits_app by (by rewrite ?Ht').
        destruct (decide (suf = suf')) as [->|Hne].
        -- rewrite !bool_decide_true by done. cbn. by rewrite Hv.
        -- rewrite (bool_decide_false (list_ascii_of_string suf = _)), andb_false_r, bool_decide_false; [done| |].
           ++ intros [= ?]. congruence.
           ++ intros ?%string_of_list_ascii_inj. congruence.
      * rewrite bool_decide_false by congruence. done.
      * rewrite bool_decide_false by congruence. destruct L; [done|]. done.
      * by rewrite bool_decide_true.
    + assert (Hc : is_digit c = false).
      { rewrite Hpre in HP. apply Forall_app in HP as [_ HP]. by inversion HP. }
      rewrite bool_decide_false.
      * destruct (route_param r') as [[k' suf']|]; [|done]. cbn. by rewrite Hc.
      * intros [= Heq _]. apply (f_equal (fun s => length (list_ascii_of_string s))) in Heq.
        rewrite Hpre, length_app in Heq. simpl in Heq. lia.
  - rewrite bool_decide_false; [done|]. intros [= Heq _]. rewrite Heq, strip_prefix_app in Hs. done.
Qed.

(** Dispatch of the path of route [r]: the first route of its shape. *)
Lemma resolve_in_url rs r L v :
  Forall route_ok rs -> route_ok r -> L <> [] -> Forall (fun c => is_digit c = true) L ->
  int_of_str (string_of_list_ascii L) = Some v ->
  resolve_in rs (url_of r L) =
    option_map (fun r' => (r', option_map (fun '(k, _) => (k, v)) (route_param r')))
               (List.find (fun r' => bool_decide (shape r' = shape r)) rs).
Proof.
  intros Hrs Hr HL HLd Hv. induction Hrs as [|r' rs Hr' _ IH]; [done|]. simpl.
  rewrite (match_route_url r r' L v) by done. by case_bool_decide.
Qed.

Lemma urlpatterns_ok : patterns_ok urlpatterns = true.
Proof. vm_compute. reflexivity. Qed.

Lemma patterns_ok_route rs r :
  patterns_ok rs = true -> In r rs ->
  route_ok r /\ exists r0, List.find (fun r' => bool_decide (shape r' = shape r)) rs = Some r0 /\
                           route_name r0 = route_name r /\ route_param r0 = route_param r.
Proof.
  intros Hok Hin. unfold patterns_ok in Hok. rewrite forallb_forall in Hok. specialize (Hok r Hin).
  apply andb_true_iff in Hok as [Hok Hfirst]. apply andb_true_iff in Hok as [Hdf Hsuf]. split; [split|].
  - unfold digit_free in Hdf. apply Forall_forall. intros c Hc. rewrite forallb_forall in Hdf.
    apply negb_true_iff, Hdf, Hc.
  - destruct (route_param r) as [[k suf]|]; [|done].
    destruct (list_ascii_of_string suf) as [|c t]; [done|]. apply Ascii.eqb_eq in Hsuf. subst. by exists t.
  - destruct (List.find _ rs) as [r0|]; [|done]. apply bool_decide_eq_true in Hfirst as [? ?]. by exists r0.
Qed.

Lemma patterns_ok_all rs : patterns_ok rs = true -> Forall route_ok rs.
Proof. intros Hok. apply Forall_forall. intros r Hr. exact (proj1 (patterns_ok_route rs r Hok Hr)). Qed.

(** C38 (roundtrip): every URL [reverse] builds, for a route name and an
    integer argument or none, is dispatched by [resolve] to a route of
    that name capturing that argument: the links and redirects the views
    build always reach the view they name. *)
Theorem resolve_reverse (name : string) (kw : option (string * nat)) (url : string) :
  reverse name kw = Some url ->
  exists r, resolve url = Some (r, option_map (fun '(k, v) => (k, Z.of_nat v)) kw) /\ route_name r = name.
Proof.
  unfold reverse. destruct (List.find _ (rev urlpatterns)) as [r|] eqn:E; [|done]. intros [= <-].
  apply find_some in E as [Hin%in_rev Hm]. apply andb_true_iff in Hm as [Hn%String.eqb_eq Hkw].
  destruct (patterns_ok_route _ _ urlpatterns_ok Hin) as [Hr (r0 & Hf & Hn0 & Hp0)].
  pose proof (patterns_ok_all _ urlpatterns_ok) as Hall.
  destruct (route_param r) as [[p suf]|] eqn:Hp, kw as [[k n]|]; try done.
  - apply String.eqb_eq in Hkw as <-. destruct (py_str_nat_digits n) as [HL HLd].
    set (L := list_ascii_of_string (py_str (Z.of_nat n))) in *.
    assert (Hv : int_of_str (string_of_list_ascii L) = Some (Z.of_nat n))
      by (unfold L; rewrite string_of_list_ascii_of_string; apply int_of_py_str).
    assert (Hd : Forall (fun c => is_digit c = true) L).
    { eapply Forall_impl; [|exact HLd]. intros c [? Hc]. unfold is_digit. by rewrite Hc. }
    exists r0. split; [|congruence]. unfold resolve.
    rewrite !list_ascii_of_string_app. cbn [list_ascii_of_string app]. rewrite Ascii.eqb_refl.
    change (list_ascii_of_string (py_str (Z.of_nat n))) with L.
    replace (list_ascii_of_string (route_prefix r) ++ L ++ list_ascii_of_string suf) with (url_of r L)
      by (unfold url_of; by rewrite Hp).
    rewrite (resolve_in_url _ _ _ _ Hall Hr HL Hd Hv), Hf. cbn. by rewrite Hp0.
  - exists r0. split; [|congruence]. unfold resolve.
    rewrite !list_ascii_of_string_app. cbn [list_ascii_of_string app]. rewrite Ascii.eqb_refl, app_nil_r.
    replace (list_ascii_of_string (route_prefix r)) with (url_of r ["0"%char])
      by (unfold url_of; by rewrite Hp, app_nil_r).
    rewrite (resolve_in_url _ _ _ 0 Hall Hr) by (done || by repeat constructor). rewrite Hf. cbn. by rewrite Hp0.
Qed.

Lemma resolve_reverse_witness :
  exists r, resolve "/tournaments/12/register/" = Some (r, Some ("pk", 12)) /\ route_name r = "tournament_register".
Proof.
  assert (H : reverse "tournament_register" (Some ("pk", 12%nat)) = Some "/tournaments/12/register/") by reflexivity.
  exact (resolve_reverse _ _ _ H).
Defined.

Example resolve_examples :
  option_map (fun '(r, a) => (route_name r, a)) (resolve "/news/007/") = Some ("news_detail", Some ("pk", 7)) /\
  resolve "/news/7" = None /\ resolve "/teams/-1/" = None /\
  option_map (fun '(r, a) => (route_name r, a)) (resolve "/schedule/") = Some ("schedule", None).
Proof. vm_compute. split_and!; reflexivity. Qed.
