(* ===== verification/Calendar.v ===== *)
(** * Calendar: [calendar_view] and [schedule_page] of [views.py]

    A [datetime.date] is modelled by its proleptic Gregorian ordinal, as
    CPython's [date.toordinal] computes it ([_ymd2ord]): dates compare
    and are equal exactly when their ordinals do, and [d + timedelta(days=i)]
    is the ordinal plus [i].  [date(y, m, d)] checks its arguments and
    raises [ValueError] outside [1 <= y <= 9999], [1 <= m <= 12],
    [1 <= d <= days_in_month].

    [match_time__date] and [match_time.date()] take the date of an
    instant in the project's current time zone, a fixed UTC offset [off]
    here (the settings are not in the repository; a zone with DST is not
    modelled).  [timezone.now()] is UTC, so its [.month], [.year] and
    [.date()] are taken at offset 0. *)

From S2P Require Import Prelude Models Samples Stats NumberFormat ReminderDispatch Handlers.
From stdpp Require Import sorting.
From Stdlib Require Import List Sorting.Sorted.
Import ListNotations.
Local Open Scope Z_scope.

(** ** CPython's date arithmetic ([Lib/datetime.py]) *)

Definition is_leap (y : Z) : bool := (y mod 4 =? 0) && (negb (y mod 100 =? 0) || (y mod 400 =? 0)).

Definition days_in_month (y m : Z) : Z :=
  if (m =? 2) && is_leap y then 29
  else nth (Z.to_nat m) [0; 31; 28; 31; 30; 31; 30; 31; 31; 30; 31; 30; 31] 0.

Definition days_before_month (y m : Z) : Z :=
  nth (Z.to_nat m) [0; 0; 31; 59; 90; 120; 151; 181; 212; 243; 273; 304; 334] 0 +
  (if (2 <? m) && is_leap y then 1 else 0).

Definition days_before_year (y : Z) : Z := let y' := y - 1 in y' * 365 + y' / 4 - y' / 100 + y' / 400.

Definition ymd2ord (y m d : Z) : Z := days_before_year y + days_before_month y m + d.

(** [date(y, m, d)]; [None] is [ValueError]. *)
Definition make_date (y m d : Z) : option Z :=
  if (1 <=? y) && (y <=? 9999) && (1 <=? m) && (m <=? 12) && (1 <=? d) && (d <=? days_in_month y m)
  then Some (ymd2ord y m d) else None.

(** One day in microseconds, and the ordinal of 1970-01-01. *)
Definition day_us : Z := 86400000000.
Definition epoch_ord : Z := 719163.

(** The date of an instant at UTC offset [off] (microseconds). *)
Definition date_of (off : Z) (t : instant) : Z := (t + off) / day_us + epoch_ord.

(** [_ord2ymd]: the year, month and day of an ordinal, through the
    400-, 100- and 4-year cycles. *)
Definition ord2ymd (o : Z) : Z * Z * Z :=
  let n := o - 1 in
  let n400 := n / 146097 in let n := n mod 146097 in
  let year := n400 * 400 + 1 in
  let n100 := n / 36524 in let n := n mod 36524 in
  let n4 := n / 1461 in let n := n mod 1461 in
  let n1 := n / 365 in let n := n mod 365 in
  let year := year + n100 * 100 + n4 * 4 + n1 in
  if (n1 =? 4) || (n100 =? 4) then (year - 1, 12, 31) else
  let leapyear := (n1 =? 3) && (negb (n4 =? 24) || (n100 =? 3)) in
  let month := Z.shiftr (n + 50) 5 in
  let preceding := nth (Z.to_nat month) [0; 0; 31; 59; 90; 120; 151; 181; 212; 243; 273; 304; 334] 0 +
                   (if (2 <? month) && leapyear then 1 else 0) in
  let '(month, preceding) :=
    if n <? preceding then
      (month - 1, preceding - (nth (Z.to_nat (month - 1)) [0; 31; 28; 31; 30; 31; 30; 31; 31; 30; 31; 30; 31] 0 +
                               (if (month - 1 =? 2) && leapyear then 1 else 0)))
    else (month, preceding) in
  (year, month, n - preceding + 1).

(** [date(y, m, d)] as CPython's C implementation checks it: an
    argument outside the C [int] range raises [OverflowError], an
    out-of-range date [ValueError]. *)
Definition c_int (x : Z) : bool := (- 2 ^ 31 <=? x) && (x <? 2 ^ 31).

Definition date_new (y m d : Z) : string + Z :=
  if c_int y && c_int m && c_int d then
    match make_date y m d with Some o => inr o | None => inl "ValueError" end
  else inl "OverflowError".

(** Evaluation checks of the round trip between [_ymd2ord] and
    [_ord2ymd] over one 400-year cycle. *)
Definition month_ok (y m : Z) : bool :=
  forallb (fun i => let d := Z.of_nat i + 1 in bool_decide (ord2ymd (ymd2ord y m d) = (y, m, d)))
          (seq 0 (Z.to_nat (days_in_month y m))).

Definition years_ok (y0 : Z) (n : nat) : bool :=
  forallb (fun i => let y := y0 + Z.of_nat i in forallb (fun j => month_ok y (Z.of_nat j + 1)) (seq 0 12))
          (seq 0 n).

Definition ord_ok (o : Z) : bool :=
  let '(y, m, d) := ord2ymd o in
  (1 <=? y) && (1 <=? m) && (m <=? 12) && (1 <=? d) && (d <=? days_in_month y m) && (ymd2ord y m d =? o).

Fixpoint ords_ok (o : Z) (n : nat) : bool :=
  match n with O => true | S n' => ord_ok o && ords_ok (o + 1) n' end.

(** ** [calendar_view] (lines 297-360) *)

(** [order_by('match_time')]: a merge sort on the start instant. *)
Definition time_le (a b : Match.t) : Prop := Match.match_time a <= Match.match_time b.

#[global] Instance time_le_dec : RelDecision time_le := fun a b => Z.le_dec _ _.
#[global] Instance time_le_total : Total time_le.
Proof. intros a b. unfold time_le. lia. Qed.
#[global] Instance time_le_trans : Transitive time_le.
Proof. intros a b c. unfold time_le. lia. Qed.

Definition sort_by_time (ms : list Match.t) : list Match.t := merge_sort time_le ms.

(** The date of a match in the current time zone: the [match_time__date]
    lookups of lines 243-247 and 318-319, which Django evaluates after
    converting to the current time zone. *)
Definition match_date (off : Z) (m : Match.t) : Z := date_of off (Match.match_time m).

(** [m.match_time.date()] (lines 257 and 324): Django loads aware
    datetimes in UTC, so this is the UTC date, whatever the current time
    zone. *)
Definition utc_date (m : Match.t) : Z := date_of 0 (Match.match_time m).

Record CalendarPage := mkCalendarPage {
  calendar_days : list (Z * list Match.t);
  cal_today : Z;
  cal_month : Z;
  cal_year : Z;
  prev_month : Z;
  prev_year : Z;
  next_month : Z;
  next_year : Z
}.

(** Lines 299-304: the month and year asked for; a value [int()]
    rejects makes both fall back to the current UTC month. *)
Definition calendar_params (now : instant) (req : Request) : Z * Z :=
  let '(ny, nm, _) := ord2ymd (date_of 0 now) in
  match (match qd_get "month" (GET req) with Some v => int_of_str v | None => Some nm end) with
  | None => (nm, ny)
  | Some mo =>
      match (match qd_get "year" (GET req) with Some v => int_of_str v | None => Some ny end) with
      | None => (nm, ny)
      | Some ye => (mo, ye)
      end
  end.

(** Lines 297-360; [inl] is the exception that leaves the view. *)
Definition calendar_view (off : Z) (now : instant) (req : Request) (s : Store) : string + CalendarPage :=
  let '(month, year) := calendar_params now req in
  match date_new year month 1 with
  | inl e => inl e
  | inr start_date =>
      match (if month =? 12 then date_new (year + 1) 1 1 else date_new year (month + 1) 1) with
      | inl e => inl e
      | inr end_date =>
          let ms := sort_by_time (List.filter (fun m => (start_date <=? match_date off m) &&
                                                         (match_date off m <? end_date)) (matches s)) in
          let days := map (fun i => let day := start_date + Z.of_nat i in
                                    (day, List.filter (fun m => utc_date m =? day) ms))
                          (seq 0 (Z.to_nat (end_date - start_date))) in
          inr (mkCalendarPage days (date_of 0 now) month year
                 (if month =? 1 then 12 else month - 1) (if month =? 1 then year - 1 else year)
                 (if month =? 12 then 1 else month + 1) (if month =? 12 then year + 1 else year))
      end
  end.

(** ** Month lengths *)

Lemma div_pred_step a k : 0 < k -> a / k - (a - 1) / k = if a mod k =? 0 then 1 else 0.
Proof.
  intros Hk. pose proof (Z.div_mod a k ltac:(lia)). pose proof (Z.mod_pos_bound a k Hk).
  pose proof (Z.div_mod (a - 1) k ltac:(lia)). pose proof (Z.mod_pos_bound (a - 1) k Hk).
  destruct (Z.eqb_spec (a mod k) 0); nia.
Qed.

(** A year has 365 days, one more when it is a leap year. *)
Lemma days_before_year_succ y : days_before_year (y + 1) - days_before_year y = 365 + (if is_leap y then 1 else 0).
Proof.
  unfold days_before_year, is_leap. replace (y + 1 - 1) with y by lia.
  pose proof (div_pred_step y 4 ltac:(lia)). pose proof (div_pred_step y 100 ltac:(lia)).
  pose proof (div_pred_step y 400 ltac:(lia)).
  assert (H4 : y mod 100 = 0 -> y mod 4 = 0).
  { intros Hy. rewrite <- (Z.mod_mod_divide y 100 4) by (exists 25; lia). rewrite Hy. done. }
  assert (H100 : y mod 400 = 0 -> y mod 100 = 0).
  { intros Hy. rewrite <- (Z.mod_mod_divide y 400 100) by (exists 4; lia). rewrite Hy. done. }
  destruct (Z.eqb_spec (y mod 4) 0), (Z.eqb_spec (y mod 100) 0), (Z.eqb_spec (y mod 400) 0);
    simpl; intuition lia.
Qed.

(** The first day of the next month is [days_in_month] days later. *)
Lemma month_length y m : 1 <= m <= 11 -> ymd2ord y (m + 1) 1 - ymd2ord y m 1 = days_in_month y m.
Proof.
  intros Hm. unfold ymd2ord, days_before_month, days_in_month.
  assert (Hc : m = 1 \/ m = 2 \/ m = 3 \/ m = 4 \/ m = 5 \/ m = 6 \/ m = 7 \/ m = 8 \/ m = 9 \/ m = 10 \/ m = 11)
    by lia.
  destruct (is_leap y); repeat destruct Hc as [->|Hc]; subst; simpl; lia.
Qed.

Lemma december_length y : ymd2ord (y + 1) 1 1 - ymd2ord y 12 1 = days_in_month y 12.
Proof.
  pose proof (days_before_year_succ y). unfold ymd2ord, days_before_month, days_in_month. simpl.
  destruct (is_leap y); simpl; lia.
Qed.

Lemma days_in_month_range y m : 1 <= m <= 12 -> 28 <= days_in_month y m <= 31.
Proof.
  intros Hm. unfold days_in_month.
  assert (Hc : m = 1 \/ m = 2 \/ m = 3 \/ m = 4 \/ m = 5 \/ m = 6 \/ m = 7 \/ m = 8 \/ m = 9 \/ m = 10 \/ m = 11
               \/ m = 12) by lia.
  destruct (is_leap y); repeat destruct Hc as [->|Hc]; subst; simpl; lia.
Qed.

Lemma date_new_inr y m d o :
  date_new y m d = inr o -> o = ymd2ord y m d /\ 1 <= y <= 9999 /\ 1 <= m <= 12 /\ 1 <= d <= days_in_month y m.
Proof.
  unfold date_new, make_date. destruct (c_int y && c_int m && c_int d); [|done].
  match goal with |- context [if ?c then _ else _] => destruct c eqn:Hv end; [|done].
  intros [= <-]. rewrite !andb_true_iff, !Z.leb_le in Hv. lia.
Qed.

(** ** The round trip [_ymd2ord] / [_ord2ymd] *)

Lemma is_leap_shift y : is_leap (y + 400) = is_leap y.
Proof.
  unfold is_leap.
  replace (y + 400) with (y + 100 * 4) by lia. rewrite Z.mod_add by lia.
  replace (y + 100 * 4) with (y + 4 * 100) by lia. rewrite Z.mod_add by lia.
  replace (y + 4 * 100) with (y + 1 * 400) by lia. rewrite Z.mod_add by lia. done.
Qed.

Lemma days_in_month_shift y m : days_in_month (y + 400) m = days_in_month y m.
Proof. unfold days_in_month. by rewrite is_leap_shift. Qed.

Lemma days_before_year_shift y : days_before_year (y + 400) = days_before_year y + 146097.
Proof.
  unfold days_before_year.
  replace (y + 400 - 1) with ((y - 1) + 100 * 4) by lia.
  rewrite (Z.div_add _ 100 4), (Z.div_add _ 4 100 ltac:(lia)) by lia.
  replace ((y - 1) + 100 * 4) with ((y - 1) + 1 * 400) by lia. rewrite Z.div_add by lia.
  lia.
Qed.

Lemma ymd2ord_shift y m d : ymd2ord (y + 400) m d = ymd2ord y m d + 146097.
Proof. unfold ymd2ord, days_before_month. rewrite days_before_year_shift, is_leap_shift. lia. Qed.

Lemma ord2ymd_shift o :
  ord2ymd (o + 146097) = let '(y, m, d) := ord2ymd o in (y + 400, m, d).
Proof.
  unfold ord2ymd. replace (o + 146097 - 1) with ((o - 1) + 1 * 146097) by lia.
  rewrite Z.div_add, Z.mod_add by lia. cbv zeta.
  repeat case_match; simplify_eq; f_equal; try f_equal; lia.
Qed.

Lemma days_in_month_cycles y m k : days_in_month (y + 400 * Z.of_nat k) m = days_in_month y m.
Proof.
  induction k as [|k IH]; [by rewrite Z.mul_0_r, Z.add_0_r|].
  rewrite Nat2Z.inj_succ, Z.mul_succ_r, Z.add_assoc, days_in_month_shift. done.
Qed.

Lemma ymd2ord_cycles y m d k : ymd2ord (y + 400 * Z.of_nat k) m d = ymd2ord y m d + 146097 * Z.of_nat k.
Proof.
  induction k as [|k IH]; [by rewrite !Z.mul_0_r, !Z.add_0_r|].
  rewrite Nat2Z.inj_succ, !Z.mul_succ_r, Z.add_assoc, ymd2ord_shift, IH. lia.
Qed.

Lemma ord2ymd_cycles o y m d k :
  ord2ymd o = (y, m, d) -> ord2ymd (o + 146097 * Z.of_nat k) = (y + 400 * Z.of_nat k, m, d).
Proof.
  intros Ho. induction k as [|k IH]; [by rewrite !Z.mul_0_r, !Z.add_0_r|].
  rewrite Nat2Z.inj_succ, !Z.mul_succ_r, !Z.add_assoc, ord2ymd_shift, IH. done.
Qed.

(** [x = x0 + p * k] with [1 <= x0 <= p]. *)
Lemma cycle_split p x : 0 < p -> 1 <= x -> exists x0 k, x = x0 + p * Z.of_nat k /\ 1 <= x0 <= p.
Proof.
  intros Hp Hx. exists ((x - 1) mod p + 1), (Z.to_nat ((x - 1) / p)).
  rewrite Z2Nat.id by (apply Z.div_pos; lia).
  pose proof (Z.mod_pos_bound (x - 1) p Hp). pose proof (Z.div_mod (x - 1) p ltac:(lia)). lia.
Qed.

Lemma years_ok_spec y0 n y m d :
  years_ok y0 n = true -> y0 <= y < y0 + Z.of_nat n -> 1 <= m <= 12 -> 1 <= d <= days_in_month y m ->
  ord2ymd (ymd2ord y m d) = (y, m, d).
Proof.
  intros H Hy Hm Hd. unfold years_ok in H. rewrite forallb_forall in H.
  specialize (H (Z.to_nat (y - y0)) ltac:(apply in_seq; lia)). rewrite forallb_forall in H.
  specialize (H (Z.to_nat (m - 1)) ltac:(apply in_seq; lia)).
  replace (y0 + Z.of_nat (Z.to_nat (y - y0))) with y in H by lia.
  replace (Z.of_nat (Z.to_nat (m - 1)) + 1) with m in H by lia.
  unfold month_ok in H. rewrite forallb_forall in H.
  specialize (H (Z.to_nat (d - 1)) ltac:(apply in_seq; lia)). cbv zeta in H.
  replace (Z.of_nat (Z.to_nat (d - 1)) + 1) with d in H by lia. by apply bool_decide_eq_true in H.
Qed.

Lemma ords_ok_spec o0 n o : ords_ok o0 n = true -> o0 <= o < o0 + Z.of_nat n -> ord_ok o = true.
Proof.
  revert o0. induction n as [|n IH]; intros o0 H Ho; [lia|]. simpl in H. apply andb_true_iff in H as [H1 H2].
  destruct (Z.eq_dec o o0) as [->|Hne]; [done|]. apply (IH (o0 + 1)); [done|lia].
Qed.

Lemma first_cycle_ok : years_ok 1 400 = true.
Proof. vm_compute. reflexivity. Qed.

Lemma first_ord_cycle_ok : ords_ok 1 (Z.to_nat 146097) = true.
Proof. vm_compute. reflexivity. Qed.

(** [_ord2ymd (_ymd2ord y m d) = (y, m, d)] for every valid date of a
    positive year: 400 years are checked by evaluation, the rest follows
    from the 146097-day period of the calendar. *)
Theorem ord2ymd_ymd2ord y m d :
  1 <= y -> 1 <= m <= 12 -> 1 <= d <= days_in_month y m -> ord2ymd (ymd2ord y m d) = (y, m, d).
Proof.
  intros Hy Hm Hd. destruct (cycle_split 400 y ltac:(lia) Hy) as (y0 & k & -> & Hy0).
  rewrite days_in_month_cycles in Hd. rewrite ymd2ord_cycles. apply ord2ymd_cycles.
  apply (years_ok_spec 1 400); [apply first_cycle_ok|lia|done|done].
Qed.

(** Every ordinal from 1 on is the ordinal of the valid date [_ord2ymd]
    gives. *)
Theorem ymd2ord_ord2ymd o :
  1 <= o -> let '(y, m, d) := ord2ymd o in
  1 <= y /\ 1 <= m <= 12 /\ 1 <= d <= days_in_month y m /\ ymd2ord y m d = o.
Proof.
  intros Ho. destruct (cycle_split 146097 o ltac:(lia) Ho) as (o0 & k & -> & Ho0).
  pose proof (ords_ok_spec 1 _ o0 first_ord_cycle_ok ltac:(lia)) as H. unfold ord_ok in H.
  destruct (ord2ymd o0) as [[y m] d] eqn:E. rewrite (ord2ymd_cycles _ _ _ _ k E).
  rewrite days_in_month_cycles, ymd2ord_cycles.
  repeat match goal with H : (_ && _) = true |- _ => apply andb_true_iff in H as [? ?] end.
  repeat match goal with H : (_ <=? _) = true |- _ => apply Z.leb_le in H end.
  match goal with H : (_ =? _) = true |- _ => apply Z.eqb_eq in H end. lia.
Qed.

(** ** Grouping a list by a key *)

Section GroupBy.
Context {A : Type} (key : A -> Z).

Lemma filter_false (l : list A) : List.filter (fun _ => false) l = [].
Proof. by induction l. Qed.

Lemma filter_disjoint_app (p q : A -> bool) l :
  (forall x, p x = true -> q x = false) ->
  Permutation (List.filter p l ++ List.filter q l) (List.filter (fun x => p x || q x) l).
Proof.
  intros Hpq. induction l as [|x l IH]; [done|]. simpl.
  destruct (p x) eqn:Hp; simpl.
  - rewrite (Hpq x Hp). simpl. by apply perm_skip.
  - destruct (q x); simpl; [|done]. etrans; [symmetry; apply Permutation_middle|]. by apply perm_skip.
Qed.

(** The lists of the elements with key [k], over distinct keys [ks], are
    together a rearrangement of the elements whose key is one of [ks]. *)
Lemma group_by_perm (l : list A) ks :
  NoDup ks ->
  Permutation (concat (map (fun k => List.filter (fun x => key x =? k) l) ks))
              (List.filter (fun x => existsb (Z.eqb (key x)) ks) l).
Proof.
  induction ks as [|k ks IH]; intros Hnd; simpl; [by rewrite filter_false|].
  inversion Hnd as [|? ? Hk Hnd']; subst. rewrite IH by done.
  apply filter_disjoint_app. intros x Hx. cbn beta in *. apply Z.eqb_eq in Hx.
  apply Bool.not_true_iff_false. intros (k' & Hin & Hk')%existsb_exists. apply Z.eqb_eq in Hk'.
  apply Hk. congruence.
Qed.

End GroupBy.

(** The consecutive days [start, start + n). *)
Lemma existsb_days start n d :
  existsb (Z.eqb d) (map (fun i => start + Z.of_nat i) (seq 0 n)) = (start <=? d) && (d <? start + Z.of_nat n).
Proof.
  apply eq_true_iff_eq. rewrite existsb_exists, andb_true_iff, Z.leb_le, Z.ltb_lt. split.
  - intros (k & (i & <- & Hi%in_seq)%in_map_iff & ->%Z.eqb_eq). lia.
  - intros Hd. exists d. rewrite Z.eqb_refl. split; [|done]. apply in_map_iff.
    exists (Z.to_nat (d - start)). split; [lia|]. apply in_seq. lia.
Qed.

Lemma days_NoDup start n : NoDup (map (fun i => start + Z.of_nat i) (seq 0 n)).
Proof.
  apply NoDup_map_NoDup_ForallPairs; [|apply seq_NoDup]. intros i j _ _ Hij. lia.
Qed.

(** ** What [calendar_view] shows *)

(** The matches of the month, in start order. *)
Definition month_matches (off start end_date : Z) (s : Store) : list Match.t :=
  sort_by_time (List.filter (fun m => (start <=? match_date off m) && (match_date off m <? end_date)) (matches s)).

(** A page the view renders is the month [cal_month / cal_year]: its days
    run from the first of the month for [days_in_month] days. *)
Lemma calendar_view_shape off now req s p :
  calendar_view off now req s = inr p ->
  let start := ymd2ord (cal_year p) (cal_month p) 1 in
  let dim := days_in_month (cal_year p) (cal_month p) in
  1 <= cal_month p <= 12 /\
  calendar_days p = map (fun i => (start + Z.of_nat i,
                                   List.filter (fun m => utc_date m =? start + Z.of_nat i)
                                               (month_matches off start (start + dim) s)))
                        (seq 0 (Z.to_nat dim)) /\
  prev_month p = (if cal_month p =? 1 then 12 else cal_month p - 1) /\
  prev_year p = (if cal_month p =? 1 then cal_year p - 1 else cal_year p) /\
  next_month p = (if cal_month p =? 12 then 1 else cal_month p + 1) /\
  next_year p = (if cal_month p =? 12 then cal_year p + 1 else cal_year p).
Proof.
  unfold calendar_view. destruct (calendar_params now req) as [month year].
  destruct (date_new year month 1) as [e|start] eqn:Hs; [done|].
  apply date_new_inr in Hs as (-> & Hy & Hm & _).
  destruct (if month =? 12 then _ else _) as [e|end_date] eqn:He; [done|].
  intros [= <-]. simpl. split; [done|]. split; [|done].
  assert (Hend : end_date = ymd2ord year month 1 + days_in_month year month).
  { destruct (Z.eqb_spec month 12) as [->|Hne].
    - apply date_new_inr in He as (-> & _). pose proof (december_length year). lia.
    - apply date_new_inr in He as (-> & _). pose proof (month_length year month ltac:(lia)). lia. }
  subst end_date. unfold month_matches. do 2 f_equal. lia.
Qed.

Lemma calendar_view_params off now req s p :
  calendar_view off now req s = inr p -> cal_today p = date_of 0 now /\ (cal_month p, cal_year p) = calendar_params now req.
Proof.
  unfold calendar_view. destruct (calendar_params now req) as [month year].
  destruct (date_new year month 1); [done|]. destruct (if month =? 12 then _ else _); [done|].
  by intros [= <-].
Qed.

Lemma days_before_year_mono y y' : y <= y' -> days_before_year y <= days_before_year y'.
Proof.
  intros H. replace y' with (y + Z.of_nat (Z.to_nat (y' - y))) by lia.
  induction (Z.to_nat (y' - y)) as [|n IH]; [rewrite Z.add_0_r; lia|]. rewrite Nat2Z.inj_succ.
  pose proof (days_before_year_succ (y + Z.of_nat n)).
  replace (y + Z.succ (Z.of_nat n)) with (y + Z.of_nat n + 1) by lia. destruct (is_leap _); lia.
Qed.

Lemma days_before_month_nonneg y m : 0 <= days_before_month y m.
Proof.
  unfold days_before_month.
  assert (H : forall n, 0 <= nth n [0; 0; 31; 59; 90; 120; 151; 181; 212; 243; 273; 304; 334] 0)
    by (intros n; do 13 (destruct n as [|n]; [simpl; lia|]); destruct n; simpl; lia).
  pose proof (H (Z.to_nat m)). destruct (_ && _); lia.
Qed.

(** [date(y, m, d)] of a valid date does not raise. *)
Lemma date_new_valid y m d :
  1 <= y <= 9999 -> 1 <= m <= 12 -> 1 <= d <= days_in_month y m -> date_new y m d = inr (ymd2ord y m d).
Proof.
  intros Hy Hm Hd. pose proof (days_in_month_range y m Hm). unfold date_new, make_date, c_int.
  repeat match goal with |- context [if ?c then _ else _] =>
    replace c with true by (symmetry; rewrite ?andb_true_iff, ?Z.leb_le, ?Z.ltb_lt; lia) end.
  done.
Qed.

(** C25: Without [?month=] and [?year=], the calendar shows the current UTC
    month and does not raise, for every date from year 1 up to the end of
    November 9999; the page lists today's date among its days. *)
Theorem calendar_view_default (off : Z) (now : instant) (req : Request) (s : Store) :
  qd_get "month" (GET req) = None -> qd_get "year" (GET req) = None ->
  1 <= date_of 0 now < ymd2ord 9999 12 1 ->
  exists p, calendar_view off now req s = inr p /\
    In (cal_today p) (map fst (calendar_days p)) /\
    (let '(y, m, _) := ord2ymd (cal_today p) in cal_month p = m /\ cal_year p = y).
Proof.
  intros Hm Hy Ht. pose proof (ymd2ord_ord2ymd _ (proj1 Ht)) as Hr.
  destruct (ord2ymd (date_of 0 now)) as [[ny nm] nd] eqn:E. destruct Hr as (Hy1 & Hm1 & Hd1 & Ho).
  assert (Hlast : ny <= 9999 /\ (nm = 12 -> ny <= 9998)).
  { pose proof (days_before_month_nonneg ny nm). assert (Hc : ymd2ord 9999 12 1 = 3652029) by reflexivity.
    assert (H10 : days_before_year 10000 = 3652059) by reflexivity. unfold ymd2ord in Ho.
    split.
    - destruct (Z_le_gt_dec ny 9999) as [|Hbig]; [done|].
      pose proof (days_before_year_mono 10000 ny ltac:(lia)). lia.
    - intros ->. destruct (Z_le_gt_dec ny 9998) as [|Hbig]; [done|].
      destruct (Z.eq_dec ny 9999) as [->|].
      { assert (days_before_year 9999 + days_before_month 9999 12 = 3652028) by reflexivity. lia. }
      pose proof (days_before_year_mono 10000 ny ltac:(lia)). lia. }
  assert (Hp : calendar_params now req = (nm, ny)) by (unfold calendar_params; by rewrite E, Hm, Hy).
  pose proof (days_in_month_range ny nm Hm1).
  unfold calendar_view. rewrite Hp, date_new_valid by lia.
  destruct (Z.eqb_spec nm 12) as [->|Hne].
  - rewrite date_new_valid by (try pose proof (days_in_month_range (ny + 1) 1 ltac:(lia)); lia).
    eexists; split; [reflexivity|]. cbn [cal_today calendar_days cal_month cal_year]. rewrite E.
    split; [|done]. rewrite map_map. apply in_map_iff. exists (Z.to_nat (nd - 1)).
    split; [cbn [fst]; unfold ymd2ord in *; rewrite <- Ho, Z2Nat.id by lia; lia|]. apply in_seq. pose proof (december_length ny). lia.
  - rewrite date_new_valid by (try pose proof (days_in_month_range ny (nm + 1) ltac:(lia)); lia).
    eexists; split; [reflexivity|]. cbn [cal_today calendar_days cal_month cal_year]. rewrite E.
    split; [|done]. rewrite map_map. apply in_map_iff. exists (Z.to_nat (nd - 1)).
    split; [cbn [fst]; unfold ymd2ord in *; rewrite <- Ho, Z2Nat.id by lia; lia|]. apply in_seq. pose proof (month_length ny nm ltac:(lia)). lia.
Qed.

(** A calendar page lists the consecutive dates of
    its month, from the first for [days_in_month] days (28 to 31), and
    its navigation links lead to the months right before and after
    (December to January of the next year, January to December of the
    previous one). *)
Theorem calendar_view_month (off : Z) (now : instant) (req : Request) (s : Store) (p : CalendarPage) :
  calendar_view off now req s = inr p ->
  map fst (calendar_days p) =
    map (fun i => ymd2ord (cal_year p) (cal_month p) 1 + Z.of_nat i)
        (seq 0 (Z.to_nat (days_in_month (cal_year p) (cal_month p)))) /\
  28 <= days_in_month (cal_year p) (cal_month p) <= 31 /\
  ymd2ord (prev_year p) (prev_month p) 1 + days_in_month (prev_year p) (prev_month p) =
    ymd2ord (cal_year p) (cal_month p) 1 /\
  ymd2ord (cal_year p) (cal_month p) 1 + days_in_month (cal_year p) (cal_month p) =
    ymd2ord (next_year p) (next_month p) 1.
Proof.
  intros Hp. destruct (calendar_view_shape off now req s p Hp) as (Hm & -> & -> & -> & -> & ->).
  refine (conj _ (conj _ (conj _ _))).
  - rewrite map_map. done.
  - by apply days_in_month_range.
  - destruct (Z.eqb_spec (cal_month p) 1) as [->|Hne]; cbv iota.
    + pose proof (december_length (cal_year p - 1)). replace (cal_year p - 1 + 1) with (cal_year p) in * by lia. lia.
    + pose proof (month_length (cal_year p) (cal_month p - 1) ltac:(lia)).
      replace (cal_month p - 1 + 1) with (cal_month p) in * by lia. lia.
  - destruct (Z.eqb_spec (cal_month p) 12) as [->|Hne]; cbv iota.
    + pose proof (december_length (cal_year p)). lia.
    + pose proof (month_length (cal_year p) (cal_month p) ltac:(lia)). lia.
Qed.

(** C24 (what the calendar lists): the queryset selects the matches
    whose date in the current time zone falls in the month, but the day
    lists key them by [match_time.date()], the UTC date.  So the day
    lists are, taken together, a rearrangement of the matches whose local
    date and UTC date both fall in the month (each shown once), and each
    day lists, in start order, matches whose UTC date is that day.  With
    a non-UTC time zone a match near midnight is listed under the wrong
    day, or on no page at all when the two dates straddle the end of a
    month. *)
Theorem calendar_view_partition (off : Z) (now : instant) (req : Request) (s : Store) (p : CalendarPage) :
  calendar_view off now req s = inr p ->
  let start := ymd2ord (cal_year p) (cal_month p) 1 in
  let stop := start + days_in_month (cal_year p) (cal_month p) in
  Permutation (concat (map snd (calendar_days p)))
    (List.filter (fun m => (start <=? match_date off m) && (match_date off m <? stop) &&
                           ((start <=? utc_date m) && (utc_date m <? stop)))
                 (matches s)) /\
  Forall (fun dms => Forall (fun m => utc_date m = fst dms /\ start <= match_date off m < stop) (snd dms) /\
                     Sorted (fun a b => Match.match_time a <= Match.match_time b) (snd dms))
         (calendar_days p).
Proof.
  intros Hp start stop. destruct (calendar_view_shape off now req s p Hp) as (Hm & Hdays & _).
  pose proof (days_in_month_range (cal_year p) (cal_month p) Hm) as Hdim.
  fold start in Hdays. fold stop in Hdays.
  set (ms := month_matches off start stop s) in *.
  assert (Hms : Permutation ms (List.filter (fun m => (start <=? match_date off m) && (match_date off m <? stop))
                                            (matches s))) by apply merge_sort_Permutation.
  assert (Hsorted : StronglySorted (fun a b => Match.match_time a <= Match.match_time b) ms).
  { apply (StronglySorted_merge_sort time_le). }
  rewrite Hdays. split.
  - rewrite map_map. simpl.
    rewrite <- (map_map (fun i => start + Z.of_nat i) (fun k => List.filter (fun m => utc_date m =? k) ms)).
    rewrite (group_by_perm utc_date) by apply days_NoDup.
    rewrite (List.filter_ext _ (fun m => (start <=? utc_date m) && (utc_date m <? stop)))
      by (intros m; rewrite existsb_days, Z2Nat.id by lia; done).
    rewrite (Permutation_filter_b _ _ _ Hms). by rewrite filter_filter_andb.
  - apply Forall_forall. intros [d dms] (i & [= <- <-] & _)%in_map_iff. split.
    + apply Forall_forall. intros m (Hin & Hm')%filter_In. split; [by apply Z.eqb_eq|].
      apply (Permutation_in _ Hms), filter_In in Hin as [_ Hin]. rewrite andb_true_iff, Z.leb_le, Z.ltb_lt in Hin. lia.
    + apply StronglySorted_Sorted, StronglySorted_filter, Hsorted.
Qed.

(** ** [schedule_page] (lines 217-295) *)

(** [grouped.setdefault(d, []).append(m)] on an [OrderedDict], kept as
    an association list in insertion order. *)
Fixpoint od_append {A} (k : Z) (v : A) (od : list (Z * list A)) : list (Z * list A) :=
  match od with
  | [] => [(k, [v])]
  | (k', vs) :: rest => if k' =? k then (k', vs ++ [v]) :: rest else (k', vs) :: od_append k v rest
  end.

(** Lines 255-259. *)
Definition group_by_date (off : Z) (ms : list Match.t) : list (Z * list Match.t) :=
  fold_left (fun od m => od_append (utc_date m) m od) ms [].

Definition team_region_iexact (s : Store) (k : nat) (region : string) : bool :=
  match get_by Team.id k (teams s) with
  | Some t => match Team.region t with Some r => iexact r region | None => false end
  | None => false
  end.

(** Lines 228-249: the filters of the queryset; [today] is
    [date.today()], the server's local date. *)
Definition schedule_filter (off : Z) (now : instant) (today : Z) (s : Store)
    (game region timeframe : string) (m : Match.t) : bool :=
  (String.eqb game "" || team_game_iexact s (Match.team1 m) game ||
   team_game_iexact s (Match.team2 m) game || game_name_iexact s (Match.game m) game) &&
  (String.eqb region "" || team_region_iexact s (Match.team1 m) region ||
   team_region_iexact s (Match.team2 m) region) &&
  (if String.eqb timeframe "today" then match_date off m =? today
   else if String.eqb timeframe "week" then (today <=? match_date off m) && (match_date off m <=? today + 7)
   else if String.eqb timeframe "month" then
     let '(ny, nm, _) := ord2ymd (date_of 0 now) in
     let '(my, mm, _) := ord2ymd (match_date off m) in (my =? ny) && (mm =? nm)
   else true).

(** [td.total_seconds()] of a positive [timedelta] of [d] microseconds:
    [d / 10**6] as a double; [x // 3600] on it is the floor of the
    exact quotient (the double's value is a dyadic rational). *)
Definition seconds_floor_div (x : Z * Z) (k : Z) : Z :=
  let '(m, e) := x in if 0 <=? e then (m * 2 ^ e) / k else m / (k * 2 ^ (- e)).

(** Lines 264-270. *)
Definition countdown (now : instant) (m : Match.t) : string :=
  let d := Match.match_time m - now in
  if 0 <? d then
    match true_div d 1000000 with
    | Some x => let hours := seconds_floor_div x 3600 in
                if 1 <=? hours then "In " ++ py_str hours ++ " hours" else "Less than 1 hour"
    | None => "Starting soon"
    end
  else "Starting soon".

(** [order_by('region')] on strings, by code points. *)
Definition str_le (a b : string) : Prop := String.leb a b = true.

#[global] Instance str_le_dec : RelDecision str_le.
Proof. intros a b. unfold str_le. apply _. Defined.

Record SchedulePage := mkSchedulePage {
  grouped_matches : list (Z * list Match.t);
  upcoming_sidebar : list (Match.t * string);
  schedule_regions : list string;
  matches_today : nat;
  matches_week : nat
}.

(** Lines 218-250: the filtered queryset in [match_time] order. *)
Definition schedule_matches (off : Z) (now : instant) (today : Z) (req : Request) (s : Store) : list Match.t :=
  let game := qd_get "game" (GET req) or_else "" in
  let region := qd_get "region" (GET req) or_else "" in
  let timeframe := qd_get "timeframe" (GET req) or_else "" in
  sort_by_time (List.filter (schedule_filter off now today s game region timeframe) (matches s)).

(** Lines 217-295. *)
Definition schedule_page (off : Z) (now : instant) (today : Z) (req : Request) (s : Store) : SchedulePage :=
  let qs := schedule_matches off now today req s in
  let left_matches := firstn 6 qs in
  let right_matches := firstn 5 (List.filter (fun m => bool_decide (Match.status m = Match.upcoming)) qs) in
  let now_date := date_of 0 now in
  mkSchedulePage
    (group_by_date off left_matches)
    (map (fun m => (m, countdown now m)) right_matches)
    (merge_sort str_le (distinct_regions (teams s)))
    (length (List.filter (fun m => match_date off m =? now_date) (matches s)))
    (length (List.filter (fun m => (now_date <=? match_date off m) && (match_date off m <=? now_date + 7))
                         (matches s))).

(** ** Grouping a sorted list by date *)

Section Grouping.
Context {A : Type} (key : A -> Z).

(** Groups in increasing key order, each non-empty and holding only
    elements of its key. *)
Definition grouped (od : list (Z * list A)) : Prop :=
  Forall (fun g => snd g <> [] /\ Forall (fun x => key x = fst g) (snd g)) od /\
  StronglySorted (fun g h => fst g < fst h) od.

Lemma in_od_append_key k (v : A) od g :
  In g (od_append k v od) -> fst g = k \/ exists g0, In g0 od /\ fst g = fst g0.
Proof.
  induction od as [|[k' vs] rest IH]; simpl; [intros [<-|[]]; by left|].
  destruct (k' =? k); simpl.
  - intros [<-|Hin]; right; [exists (k', vs); simpl; auto|exists g; auto].
  - intros [<-|Hin]; [right; exists (k', vs); simpl; auto|].
    destruct (IH Hin) as [->|(g0 & ? & ?)]; [by left|right; exists g0; auto].
Qed.

Lemma od_append_max k v od :
  key v = k -> grouped od -> Forall (fun g => fst g <= k) od ->
  concat (map snd (od_append k v od)) = concat (map snd od) ++ [v] /\
  grouped (od_append k v od) /\ Forall (fun g => fst g <= k) (od_append k v od).
Proof.
  intros <- [Hg Hs] Hle. induction od as [|[k' vs] rest IH]; simpl.
  - split_and!; [done|split|]; repeat constructor; simpl; auto with lia; discriminate.
  - inversion Hg as [|? ? [Hne Hvs] Hg']; inversion Hs as [|? ? Hs' Hlt]; inversion Hle as [|? ? Hk' Hle']; subst.
    simpl in *. destruct (Z.eqb_spec k' (key v)) as [Heq|Hneq].
    + destruct rest as [|g rest]; [|inversion Hlt as [|? ? Hgt _]; inversion Hle' as [|? ? Hg0 _]; simpl in *; lia].
      simpl. rewrite !app_nil_r. split_and!; [done| |].
      * split; [|repeat constructor]. constructor; [|constructor]. simpl. split.
        -- by destruct vs.
        -- apply Forall_app. split; [done|]. constructor; [simpl; lia|constructor].
      * constructor; [simpl; lia|constructor].
    + destruct (IH Hg' Hs' Hle') as (Hc & [Hg2 Hs2] & Hle2). simpl. rewrite Hc, app_assoc.
      split_and!; [done| |by constructor; [simpl; lia|]].
      split; [by constructor|]. constructor; [done|].
      apply Forall_forall. intros g Hin. rewrite Forall_forall in Hle2, Hlt.
      destruct (in_od_append_key (key v) v rest g Hin) as [->|(g0 & Hg0 & ->)]; [simpl; lia|by apply Hlt].
Qed.
Lemma group_fold_sorted (l : list A) od :
  grouped od -> Forall (fun g => Forall (fun x => fst g <= key x) l) od ->
  StronglySorted (fun a b => key a <= key b) l ->
  concat (map snd (fold_left (fun od x => od_append (key x) x od) l od)) = concat (map snd od) ++ l /\
  grouped (fold_left (fun od x => od_append (key x) x od) l od).
Proof.
  revert od. induction l as [|x l IH]; intros od Hg Hle Hs; simpl; [by rewrite app_nil_r|].
  inversion Hs as [|? ? Hs' Hx]; subst.
  assert (Hle_x : Forall (fun g => fst g <= key x) od) by (eapply Forall_impl; [|exact Hle]; intros g Hg'; by inversion Hg').
  destruct (od_append_max (key x) x od eq_refl Hg Hle_x) as (Hc & Hg2 & Hle2).
  destruct (IH _ Hg2) as [Hc' Hg3]; [|done|].
  - eapply Forall_impl; [|exact Hle2]. intros g Hgx. eapply Forall_impl; [|exact Hx]. intros y Hy. simpl in *. lia.
  - split; [|done]. rewrite Hc', Hc, <- app_assoc. done.
Qed.
End Grouping.

(** ** What [schedule_page] shows *)

Lemma date_of_mono off t1 t2 : t1 <= t2 -> date_of off t1 <= date_of off t2.
Proof. intros Ht. unfold date_of, day_us. apply Z.add_le_mono_r, Z.div_le_mono; lia. Qed.

Lemma schedule_matches_sorted off now today req s :
  StronglySorted (fun a b => Match.match_time a <= Match.match_time b) (schedule_matches off now today req s).
Proof.
  apply (StronglySorted_merge_sort time_le).
Qed.

(** C32 (the schedule grid and sidebar): the grid shows the first six
    matches of the filtered queryset in start order, grouped under
    their [match_time.date()], the UTC date, in increasing date order
    (no match lost, duplicated or reordered by the [OrderedDict]; the
    [today] and [week] filters compare the local date instead); the sidebar shows at most five
    upcoming matches of the same queryset, each with its countdown; the
    queryset is the store's matches that pass the filters, in start
    order. *)
Theorem schedule_page_layout (off : Z) (now : instant) (today : Z) (req : Request) (s : Store) :
  concat (map snd (grouped_matches (schedule_page off now today req s))) =
    firstn 6 (schedule_matches off now today req s) /\
  grouped utc_date (grouped_matches (schedule_page off now today req s)) /\
  (length (upcoming_sidebar (schedule_page off now today req s)) <= 5)%nat /\
  Forall (fun mc => In (fst mc) (schedule_matches off now today req s) /\
                    Match.status (fst mc) = Match.upcoming /\ snd mc = countdown now (fst mc))
         (upcoming_sidebar (schedule_page off now today req s)) /\
  StronglySorted (fun a b => Match.match_time a <= Match.match_time b) (schedule_matches off now today req s) /\
  Permutation (schedule_matches off now today req s)
    (List.filter (schedule_filter off now today s (qd_get "game" (GET req) or_else "")
                   (qd_get "region" (GET req) or_else "") (qd_get "timeframe" (GET req) or_else ""))
                 (matches s)).
Proof.
  pose proof (schedule_matches_sorted off now today req s) as Hs.
  set (qs := schedule_matches off now today req s) in *.
  assert (Hdates : StronglySorted (fun a b => utc_date a <= utc_date b) (firstn 6 qs)).
  { apply StronglySorted_firstn. eapply StronglySorted_weaken; [|exact Hs]. intros a b Hab. by apply date_of_mono. }
  destruct (group_fold_sorted utc_date (firstn 6 qs) [] (conj (Forall_nil _) (SSorted_nil _))
              (Forall_nil _) Hdates) as [Hc Hg].
  unfold schedule_page. fold qs. simpl. split_and!.
  - exact Hc.
  - exact Hg.
  - rewrite length_map. apply firstn_le_length.
  - apply Forall_forall. intros [m c] (m' & [= <- <-] & Hin)%in_map_iff. apply In_firstn, filter_In in Hin as [Hin Hup].
    split_and!; [done|by apply bool_decide_eq_true in Hup|done].
  - exact Hs.
  - apply merge_sort_Permutation.
Qed.

(** ** The countdown *)

(** C33 (bounds): for a start up to [2^50] microseconds (35 years) away,
    the countdown of the sidebar is exact despite [total_seconds()]
    being a double: a match more than an hour ahead shows its whole
    number of hours, a match less than an hour ahead "Less than 1
    hour", and a match whose start has come "Starting soon". *)
Theorem countdown_hours (now : instant) (m : Match.t) :
  Match.match_time m - now < 2 ^ 50 ->
  countdown now m =
    if Match.match_time m - now <=? 0 then "Starting soon"
    else if 3600000000 <=? Match.match_time m - now
    then ("In " ++ py_str ((Match.match_time m - now) / 3600000000) ++ " hours")%string
    else "Less than 1 hour".
Proof.
  intros Hd. unfold countdown. set (d := Match.match_time m - now) in *.
  destruct (Z.leb_spec d 0) as [Hle|Hpos]; [by rewrite (proj2 (Z.ltb_ge _ _) Hle)|].
  rewrite (proj2 (Z.ltb_lt _ _) Hpos).
  assert (Hl : Z.log2 d <= 49) by (apply Z.lt_succ_r, Z.log2_lt_pow2; lia).
  assert (Hl0 : 0 <= Z.log2 d) by apply Z.log2_nonneg.
  destruct (true_div_neg d 1000000) as (e & He & ->); [lia|lia|change (Z.log2 1000000) with 19; lia|].
  change (Z.log2 1000000) with 19 in He. unfold seconds_floor_div. rewrite (proj2 (Z.leb_gt 0 e)) by lia.
  set (D := 2 ^ (- e)). set (mt := div_rhe (d * D) 1000000).
  assert (HD : 2 ^ 22 <= D) by (apply Z.pow_le_mono_r; lia).
  pose proof (div_rhe_near (d * D) 1000000 ltac:(lia)) as Hr. fold mt in Hr.
  set (H := d / 3600000000). set (r0 := d mod 3600000000).
  pose proof (Z.div_mod d 3600000000 ltac:(lia)) as Hdm. pose proof (Z.mod_pos_bound d 3600000000 ltac:(lia)).
  fold H r0 in Hdm |- *.
  assert (HdD : d * D = 3600000000 * (H * D) + r0 * D) by (rewrite Hdm at 1; ring).
  assert (Hy : 0 <= r0 * D <= 3599999999 * D) by nia.
  assert (Hh : mt / (3600 * D) = H).
  { symmetry. apply Z.div_unique with (mt - 3600 * D * H); [left|]; lia. }
  rewrite Hh. destruct (Z.leb_spec 1 H), (Z.leb_spec 3600000000 d); try reflexivity; lia.
Qed.

(** ** The request parameters the view cannot handle *)

Definition calendar_request (month year : string) : Request :=
  mkRequest "GET" [("month", month); ("year", year)] [] [] None.

(** [date(y, m, 1)]: the C [int] check, then the range checks. *)
Lemma date_new_first y m :
  date_new y m 1 =
    if c_int y && c_int m then
      if (1 <=? y) && (y <=? 9999) && (1 <=? m) && (m <=? 12) then inr (ymd2ord y m 1) else inl "ValueError"
    else inl "OverflowError".
Proof.
  unfold date_new, make_date. change (c_int 1) with true. change (1 <=? 1) with true. rewrite !andb_true_r.
  destruct (c_int y && c_int m); [|done].
  destruct (Z.leb_spec 1 y), (Z.leb_spec y 9999), (Z.leb_spec 1 m), (Z.leb_spec m 12); cbn [andb]; try done.
  pose proof (days_in_month_range y m ltac:(lia)). destruct (Z.leb_spec 1 (days_in_month y m)); [done|lia].
Qed.

(** C26 (error): the [try] of lines 299-304 covers [int()] only: a
    month or a year that is not a number makes both fall back to the
    current month; otherwise a month or year outside the C
    [int] range raises [OverflowError] out of the view, and a month
    outside 1..12, a year outside 1..9999 and December 9999 (whose next
    month [date(10000, 1, 1)] does not exist) raise [ValueError]; every
    other month is shown. *)
Theorem calendar_view_errors (off : Z) (now : instant) (req : Request) (s : Store) :
  (let '(ny, nm, _) := ord2ymd (date_of 0 now) in
   forall v, (qd_get "month" (GET req) = Some v \/ qd_get "year" (GET req) = Some v) ->
   int_of_str v = None -> calendar_params now req = (nm, ny)) /\
  (let '(month, year) := calendar_params now req in
   (c_int year && c_int month = false -> calendar_view off now req s = inl "OverflowError") /\
   (c_int year && c_int month = true -> ~ (1 <= month <= 12 /\ 1 <= year <= 9999 /\ (month, year) <> (12, 9999)) ->
      calendar_view off now req s = inl "ValueError") /\
   (1 <= month <= 12 -> 1 <= year <= 9999 -> (month, year) <> (12, 9999) ->
      exists p, calendar_view off now req s = inr p)).
Proof.
  split.
  - unfold calendar_params. destruct (ord2ymd (date_of 0 now)) as [[ny nm] nd].
    intros v [Hv|Hv] Hn; [rewrite Hv; cbv beta iota; by rewrite Hn|].
    destruct (match qd_get "month" (GET req) with Some w => int_of_str w | None => Some nm end); [|done].
    rewrite Hv. cbv beta iota. by rewrite Hn.
  - unfold calendar_view. destruct (calendar_params now req) as [month year].
    rewrite date_new_first. split_and!.
    + by intros ->.
    + intros Hc Hr. rewrite Hc.
      destruct ((1 <=? year) && (year <=? 9999) && (1 <=? month) && (month <=? 12)) eqn:E; [|done].
      rewrite !andb_true_iff, !Z.leb_le in E.
      assert (month = 12 /\ year = 9999) as [-> ->].
      { destruct (Z.eq_dec month 12), (Z.eq_dec year 9999); try (exfalso; apply Hr; split_and!; try lia; congruence). done. }
      reflexivity.
    + intros Hm Hy Hne. unfold c_int.
      replace ((- 2 ^ 31 <=? year) && (year <? 2 ^ 31) && ((- 2 ^ 31 <=? month) && (month <? 2 ^ 31))) with true
        by (symmetry; rewrite !andb_true_iff, !Z.leb_le, !Z.ltb_lt; lia).
      replace ((1 <=? year) && (year <=? 9999) && (1 <=? month) && (month <=? 12)) with true
        by (symmetry; rewrite !andb_true_iff, !Z.leb_le; lia).
      destruct (Z.eqb_spec month 12) as [->|Hm12].
      * rewrite date_new_valid by (try pose proof (days_in_month_range (year + 1) 1); assert (year <> 9999) by congruence; lia). eauto.
      * rewrite date_new_valid by (try pose proof (days_in_month_range year (month + 1)); lia). eauto.
Qed.

(** Concrete requests: a month name, month 13, year 0, December 9999
    and a year beyond the C [int] range. *)
Example calendar_view_error_examples :
  calendar_params now_a (calendar_request "March" "2024") = (3, 2024) /\
  calendar_view 0 now_a (calendar_request "13" "2024") sample_store = inl "ValueError" /\
  calendar_view 0 now_a (calendar_request "1" "0") sample_store = inl "ValueError" /\
  calendar_view 0 now_a (calendar_request "12" "9999") sample_store = inl "ValueError" /\
  calendar_view 0 now_a (calendar_request "1" "99999999999") sample_store = inl "OverflowError".
Proof. vm_compute. repeat split. Qed.

(** ** Witnesses *)

Definition sample_calendar : CalendarPage :=
  match calendar_view 0 now_a (calendar_request "3" "2024") sample_store with
  | inr p => p
  | inl _ => mkCalendarPage [] 0 0 0 0 0 0 0
  end.

Lemma calendar_view_month_witness :
  map fst (calendar_days sample_calendar) =
    map (fun i => ymd2ord (cal_year sample_calendar) (cal_month sample_calendar) 1 + Z.of_nat i)
        (seq 0 (Z.to_nat (days_in_month (cal_year sample_calendar) (cal_month sample_calendar)))) /\
  28 <= days_in_month (cal_year sample_calendar) (cal_month sample_calendar) <= 31 /\
  ymd2ord (prev_year sample_calendar) (prev_month sample_calendar) 1 +
    days_in_month (prev_year sample_calendar) (prev_month sample_calendar) =
    ymd2ord (cal_year sample_calendar) (cal_month sample_calendar) 1 /\
  ymd2ord (cal_year sample_calendar) (cal_month sample_calendar) 1 +
    days_in_month (cal_year sample_calendar) (cal_month sample_calendar) =
    ymd2ord (next_year sample_calendar) (next_month sample_calendar) 1.
Proof. apply (calendar_view_month 0 now_a (calendar_request "3" "2024") sample_store). vm_compute. reflexivity. Defined.

(** A store whose one match starts at 19:00 UTC on 29 February 2024,
    that is 00:30 on 1 March in a zone at UTC+5:30. *)
Definition ist_offset : Z := 19800000000.
Definition ist_match : Match.t :=
  sample_match 6 1 1 2 ((ymd2ord 2024 2 29 - epoch_ord) * day_us + 19 * 3600000000) Match.upcoming
    "Group Stage" None None "" None None.
Definition ist_store : Store :=
  mkStore (games sample_store) (tournaments sample_store) (teams sample_store) [] [ist_match] [] [] [] [].

Definition ist_march : CalendarPage :=
  match calendar_view ist_offset now_a (calendar_request "3" "2024") ist_store with
  | inr p => p
  | inl _ => mkCalendarPage [] 0 0 0 0 0 0 0
  end.

Lemma calendar_view_partition_witness :
  Permutation (concat (map snd (calendar_days ist_march)))
    (List.filter (fun m => (ymd2ord 2024 3 1 <=? match_date ist_offset m) &&
                           (match_date ist_offset m <? ymd2ord 2024 3 1 + 31) &&
                           ((ymd2ord 2024 3 1 <=? utc_date m) && (utc_date m <? ymd2ord 2024 3 1 + 31)))
                 (matches ist_store)).
Proof.
  exact (proj1 (calendar_view_partition ist_offset now_a (calendar_request "3" "2024") ist_store ist_march
                  ltac:(vm_compute; reflexivity))).
Defined.

(** The match of [ist_store] falls on 1 March in the current zone, so
    the March queryset selects it, yet no day of March lists it, and the
    February page does not select it: it is on no calendar page. *)
Example calendar_view_drops_near_midnight :
  match_date ist_offset ist_match = ymd2ord 2024 3 1 /\
  concat (map snd (calendar_days ist_march)) = [] /\
  match calendar_view ist_offset now_a (calendar_request "2" "2024") ist_store with
  | inr p => concat (map snd (calendar_days p)) = []
  | inl _ => False
  end.
Proof. vm_compute. split_and!; reflexivity. Qed.

Lemma countdown_hours_witness :
  countdown now_a m_later =
    if Match.match_time m_later - now_a <=? 0 then "Starting soon"
    else if 3600000000 <=? Match.match_time m_later - now_a
    then ("In " ++ py_str ((Match.match_time m_later - now_a) / 3600000000) ++ " hours")%string
    else "Less than 1 hour".
Proof. apply countdown_hours. vm_compute. reflexivity. Defined.

Lemma calendar_view_errors_witness :
  calendar_view 0 now_a (calendar_request "12" "9999") sample_store = inl "ValueError".
Proof.
  pose proof (proj2 (calendar_view_errors 0 now_a (calendar_request "12" "9999") sample_store)) as H.
  destruct H as (_ & H & _). apply H.
  - reflexivity.
  - intros (_ & _ & Hne). by apply Hne.
Defined.

Lemma calendar_view_default_witness :
  exists p, calendar_view 0 now_a (mkRequest "GET" [] [] [] None) sample_store = inr p /\
    In (cal_today p) (map fst (calendar_days p)).
Proof.
  assert (Ht : 1 <= date_of 0 now_a < ymd2ord 9999 12 1) by (split; vm_compute; [discriminate|reflexivity]).
  destruct (calendar_view_default 0 now_a (mkRequest "GET" [] [] [] None) sample_store eq_refl eq_refl Ht)
    as (p & Hp & Hin & _).
  exists p. split; [exact Hp|exact Hin].
Defined.
