(* ===== verification/Pages.v ===== *)
(** * Pages: the read-only views of [views.py]

    [home_page] (lines 16-33), [results_page] (lines 449-505; the
    definition of lines 362-365 is shadowed by it), [tournament_detail_page]
    (lines 610-622), [news_detail] (lines 625-627), [news_page] (lines
    630-638) and [tournaments_page] (lines 641-684), as the contexts they
    render.  [order_by] is stdpp's merge sort on the ordering key;
    [NULL]s sort as the smallest value, as SQLite does.  Django's
    [Paginator.get_page] is modelled from its documented behaviour: a
    page number [int()] rejects gives page 1, one out of range the last
    page.  The admin's [Tournament.start_time] / [end_time] (models.py
    lines 44-55) are here too, and so are the [team_detail] page (lines
    155-212: its 404 and the upcoming and recent match lists) and the
    [next_match_date] subquery of [teams_page] (lines 55-58). *)

From S2P Require Import Prelude Models Samples Stats NumberFormat ReminderDispatch Handlers.
From stdpp Require Import sorting.
From Stdlib Require Import List Sorting.Permutation.
Import ListNotations.
Local Open Scope Z_scope.

(** ** [home_page] (lines 16-33) *)

Definition newer (a b : NewsArticle.t) : Prop := NewsArticle.date b <= NewsArticle.date a.

#[global] Instance newer_dec : RelDecision newer := fun a b => Z.le_dec _ _.
#[global] Instance newer_total : Total newer.
Proof. intros a b. unfold newer. lia. Qed.
#[global] Instance newer_trans : Transitive newer.
Proof. intros a b c. unfold newer. lia. Qed.

(** [NewsArticle.objects.order_by('-date')]. *)
Definition news_by_date (s : Store) : list NewsArticle.t := merge_sort newer (news s).

Definition starts_before (a b : Tournament.t) : Prop := Tournament.start_date a <= Tournament.start_date b.

#[global] Instance starts_before_dec : RelDecision starts_before := fun a b => Z.le_dec _ _.

Record HomePage := mkHomePage {
  featured_tournaments : list Tournament.t;
  main_article : option NewsArticle.t;
  other_articles : list NewsArticle.t
}.

(** Lines 16-33. *)
Definition home_page (s : Store) : HomePage :=
  let main := head (news_by_date s) in
  mkHomePage
    (merge_sort starts_before (List.filter Tournament.featured (tournaments s)))
    main
    (match main with
     | Some a => firstn 6 (List.filter (fun b => negb (Nat.eqb (NewsArticle.id b) (NewsArticle.id a)))
                                       (news_by_date s))
     | None => firstn 6 (news_by_date s)
     end).

(** ** [news_page] (lines 630-638) and Django's [Paginator] *)

(** [Paginator(object_list, per_page)] with no orphans and an allowed
    empty first page: [ceil(max(1, count) / per_page)] pages. *)
Definition num_pages (per_page count : nat) : nat :=
  Nat.div (Nat.max 1 count + per_page - 1) per_page.

(** [paginator.get_page(number)]: the page number actually shown. *)
Definition get_page_number (per_page count : nat) (number : option string) : nat :=
  match match number with Some v => int_of_str v | None => None end with
  | None => 1%nat
  | Some n => if (n <? 1) || (Z.of_nat (num_pages per_page count) <? n)
              then num_pages per_page count else Z.to_nat n
  end.

(** [paginator.page(n).object_list]. *)
Definition page_objects {A} (per_page : nat) (l : list A) (n : nat) : list A :=
  firstn per_page (skipn ((n - 1) * per_page) l).

(** Lines 630-638: the articles of the page shown, and its number. *)
Definition news_page (req : Request) (s : Store) : list NewsArticle.t * nat :=
  let all_articles := news_by_date s in
  let n := get_page_number 9 (length all_articles) (qd_get "page" (GET req)) in
  (page_objects 9 all_articles n, n).

(** ** [tournaments_page] (lines 641-684) *)

(** [order_by('-prize_pool')], [NULL] last. *)
Definition richer (a b : Tournament.t) : Prop :=
  match Tournament.prize_pool a, Tournament.prize_pool b with
  | Some x, Some y => y <= x
  | _, None => True
  | None, Some _ => False
  end.

#[global] Instance richer_dec : RelDecision richer.
Proof. intros a b. unfold richer. destruct (Tournament.prize_pool a), (Tournament.prize_pool b); apply _. Defined.

Record TournamentsPage := mkTournamentsPage {
  tp_tournaments : list Tournament.t;
  tp_total_prize_pool : Z;
  tp_total_participants : nat;
  tp_unique_game_count : nat
}.

(** Lines 650-663: the search, game and status filters. *)
Definition tournament_filter (s : Store) (search game status : option string) (t : Tournament.t) : bool :=
  (if py_truthy search then icontains (Tournament.title t) (default "" search) else true) &&
  (if py_truthy game then game_name_iexact s (Tournament.game t) (default "" game) else true) &&
  (if py_truthy status then
     String.eqb (default "" status)
       (match Tournament.status t with
        | Tournament.registration => "registration" | Tournament.live => "live"
        | Tournament.completed => "completed" | Tournament.upcoming => "upcoming"
        end)
   else true).

(** Lines 641-684. *)
Definition tournaments_page (req : Request) (s : Store) : TournamentsPage :=
  let P k := qd_get k (GET req) in
  let filtered := List.filter (tournament_filter s (P "search") (P "game") (P "status")) (tournaments s) in
  let sorted := if bool_decide (P "sort" = Some "prize") then merge_sort richer filtered
                else if bool_decide (P "sort" = Some "date") then merge_sort starts_before filtered
                else filtered in
  mkTournamentsPage sorted
    (fold_right Z.add 0 (omap Tournament.prize_pool sorted))
    (fold_right Nat.add 0%nat (map (fun t => (default 0 (Tournament.teams t) * 4)%nat) sorted))
    (length (remove_dups (map Tournament.game sorted))).

(** ** [results_page] (lines 449-505) *)

Record ResultsPage := mkResultsPage {
  live_matches : list Match.t;
  recent_results : list Match.t;
  brackets : list (Tournament.t * list Match.t)
}.

Definition time_le' (a b : Match.t) : Prop := Match.match_time a <= Match.match_time b.
#[global] Instance time_le'_dec : RelDecision time_le' := fun a b => Z.le_dec _ _.

(** [Q(team1_id=team_id) | Q(team2_id=team_id)] after [int(team_id)]. *)
Definition plays (k : Z) (m : Match.t) : bool :=
  Z.eqb (Z.of_nat (Match.team1 m)) k || Z.eqb (Z.of_nat (Match.team2 m)) k.

(** Lines 449-505; [inl] is the exception that leaves the view.  A game
    filter is [team1__game__iexact] on a foreign key, which Django
    rejects with [FieldError] when the filter is built (line 470); a
    team id is converted with [int()], whose [ValueError] leaves the
    view at line 477. *)
Definition results_team_filter (team_id : option string) : option (Match.t -> bool) :=
  match team_id with
  | Some v => if py_truthy team_id
              then match int_of_str v with Some k => Some (plays k) | None => None end
              else Some (fun _ => true)
  | None => Some (fun _ => true)
  end.

Definition results_page (req : Request) (s : Store) : string + ResultsPage :=
  if py_truthy (qd_get "game" (GET req)) then inl "FieldError" else
  let team_filter := results_team_filter (qd_get "team" (GET req)) in
  match team_filter with
  | None => inl "ValueError"
  | Some keep =>
      let with_status st := List.filter (fun m => bool_decide (Match.status m = st) && keep m) (matches s) in
      inr (mkResultsPage
             (merge_sort time_le' (with_status Match.live))
             (merge_sort (flip time_le') (with_status Match.completed))
             (map (fun t => (t, merge_sort time_le'
                                  (List.filter (fun m => Nat.eqb (Match.tournament m) (Tournament.id t))
                                               (with_status Match.upcoming))))
                  (tournaments s)))
  end.

(** ** [tournament_detail_page] and [news_detail] *)

(** Lines 610-622 and 625-627: the row with that key, or the 404 page. *)
Definition tournament_detail_page (pk : nat) (s : Store) : option Tournament.t :=
  get_by Tournament.id pk (tournaments s).

Definition news_detail (pk : nat) (s : Store) : option NewsArticle.t :=
  get_by NewsArticle.id pk (news s).

(** ** [Tournament.start_time] / [end_time] (models.py lines 44-55) *)

(** [self.matches]: the matches whose [tournament] is this one. *)
Definition tournament_matches (s : Store) (t : Tournament.t) : list Match.t :=
  List.filter (fun m => Nat.eqb (Match.tournament m) (Tournament.id t)) (matches s).

(** Lines 44-47: [self.matches.order_by('match_time').first()]'s
    [match_time], or [None]. *)
Definition start_time (s : Store) (t : Tournament.t) : option instant :=
  option_map Match.match_time (head (merge_sort time_le' (tournament_matches s t))).

(** Lines 50-55: the last match by [match_time]; its [completed_at or
    match_time] (an aware datetime is always truthy). *)
Definition end_time (s : Store) (t : Tournament.t) : option instant :=
  match head (merge_sort (flip time_le') (tournament_matches s t)) with
  | None => None
  | Some m => Some (default (Match.match_time m) (Match.completed_at m))
  end.

(** ** [team_detail] (lines 155-212) *)

(** [order_by('-completed_at')], [NULL] last (SQLite). *)
Definition completed_later (a b : Match.t) : Prop :=
  match Match.completed_at a, Match.completed_at b with
  | Some x, Some y => y <= x
  | _, None => True
  | None, Some _ => False
  end.

#[global] Instance completed_later_dec : RelDecision completed_later.
Proof. intros a b. unfold completed_later. destruct (Match.completed_at a), (Match.completed_at b); apply _. Defined.




(** ** [next_match_date] of [teams_page] (lines 55-58) *)

(** The start of the team's first match at or after [now], of any
    status: [Match.objects.filter(Q(team1=pk) | Q(team2=pk),
    match_time__gte=now).order_by('match_time').values('match_time')[:1]]. *)
Definition next_match_date (s : Store) (now : instant) (k : nat) : option instant :=
  option_map Match.match_time
    (head (merge_sort time_le' (List.filter (fun m => (on_side1 k m || on_side2 k m) && (now <=? Match.match_time m))
                                             (matches s)))).

(** ** Lemmas *)

Lemma news_by_date_spec s :
  Permutation (news_by_date s) (news s) /\ StronglySorted newer (news_by_date s).
Proof. split; [apply merge_sort_Permutation | apply StronglySorted_merge_sort; apply _]. Qed.

(** The first [n] elements satisfying [p] of a sorted list come before
    every other element satisfying [p]. *)
Lemma firstn_filter_first {A} (R : A -> A -> Prop) (p : A -> bool) n l b c :
  StronglySorted R l -> In b l -> p b = true ->
  ~ In b (firstn n (List.filter p l)) -> In c (firstn n (List.filter p l)) -> R c b.
Proof.
  intros Hs Hb Hp Hnot Hc. eapply StronglySorted_firstn_skipn; [by apply StronglySorted_filter|done|].
  assert (Hin : In b (List.filter p l)) by (by apply filter_In).
  rewrite <- (firstn_skipn n (List.filter p l)) in Hin. apply in_app_or in Hin. tauto.
Qed.

(** ** [home_page] *)

(** C29: The home page's main article is a newest article (there is one
    exactly when there are articles), and its other articles are, newest
    first, the six newest articles with another id, or all of them when
    there are fewer: no article left out is newer than one shown. *)
Theorem home_page_articles (s : Store) :
  (main_article (home_page s) = None <-> news s = []) /\
  forall a, main_article (home_page s) = Some a ->
    let other b := negb (Nat.eqb (NewsArticle.id b) (NewsArticle.id a)) in
    In a (news s) /\ (forall b, In b (news s) -> NewsArticle.date b <= NewsArticle.date a) /\
    length (other_articles (home_page s)) = Nat.min 6 (countb other (news s)) /\
    StronglySorted newer (other_articles (home_page s)) /\
    (forall b, In b (other_articles (home_page s)) -> In b (news s) /\ other b = true) /\
    (forall b c, In b (news s) -> other b = true -> ~ In b (other_articles (home_page s)) ->
       In c (other_articles (home_page s)) -> NewsArticle.date b <= NewsArticle.date c).
Proof.
  destruct (news_by_date_spec s) as [Hp Hs]. unfold home_page; cbn [main_article other_articles].
  revert Hp Hs. generalize (news_by_date s). intros L Hp Hs.
  assert (Hin : forall b, In b (news s) <-> In b L) by (intros b; split; apply Permutation_in; [symmetry; exact Hp | exact Hp]).
  split.
  { destruct L as [|x l]; simpl; split; try done.
    - intros _. by apply Permutation_nil.
    - intros Hn. rewrite Hn in Hp. symmetry in Hp. by apply Permutation_nil_cons in Hp. }
  destruct L as [|x l]; intros a Ha; simpl in Ha; [done|]. injection Ha as <-. cbn [head].
  set (other := fun b => negb (Nat.eqb (NewsArticle.id b) (NewsArticle.id x))).
  split_and!.
  - apply Hin. by left.
  - intros b Hb%Hin. destruct Hb as [<-|Hb]; [unfold newer; lia|].
    inversion Hs as [|? ? _ Hx]; subst. rewrite Forall_forall in Hx. by apply Hx.
  - rewrite length_firstn. f_equal. unfold countb. apply Permutation_length, Permutation_filter_b.
    by symmetry.
  - by apply StronglySorted_firstn, StronglySorted_filter.
  - intros b Hb%In_firstn. apply filter_In in Hb as [Hb Ho]. split; [by apply Hin|done].
  - intros b c Hb%Hin Ho Hnot Hc. exact (firstn_filter_first newer other 6 _ b c Hs Hb Ho Hnot Hc).
Qed.

(** ** [news_page] *)

Section Paginator.
Context (per_page : nat) (Hper : (0 < per_page)%nat).

Lemma num_pages_pos count : (1 <= num_pages per_page count)%nat.
Proof. unfold num_pages. apply Nat.div_str_pos. lia. Qed.

Lemma num_pages_covers count : (count <= num_pages per_page count * per_page)%nat.
Proof.
  unfold num_pages. set (x := (Nat.max 1 count + per_page - 1)%nat).
  pose proof (Nat.div_mod x per_page ltac:(lia)). pose proof (Nat.mod_upper_bound x per_page ltac:(lia)).
  lia.
Qed.

Lemma get_page_number_range count number :
  (1 <= get_page_number per_page count number <= num_pages per_page count)%nat.
Proof.
  pose proof (num_pages_pos count). unfold get_page_number.
  destruct (match number with Some v => int_of_str v | None => None end) as [n|]; [|lia].
  destruct (n <? 1) eqn:H1, (Z.of_nat (num_pages per_page count) <? n) eqn:H2; simpl; try lia; apply Z.ltb_ge in H1, H2; lia.
Qed.

(** Pages [k+1 .. k+n] together are the [n * per_page] objects after the
    first [k] pages. *)
Lemma pages_concat {A} (l : list A) k n :
  concat (map (page_objects per_page l) (seq (S k) n)) = firstn (n * per_page) (skipn (k * per_page) l).
Proof.
  revert k. induction n as [|n IH]; intros k; [done|].
  cbn [seq map concat]. rewrite IH. unfold page_objects. rewrite Nat.sub_1_r, Nat.pred_succ.
  change (S n * per_page)%nat with (per_page + n * per_page)%nat.
  rewrite <- take_take_drop, drop_drop. do 3 f_equal. lia.
Qed.

Lemma pages_partition {A} (l : list A) :
  concat (map (page_objects per_page l) (seq 1 (num_pages per_page (length l)))) = l.
Proof.
  rewrite (pages_concat l 0). apply firstn_all2. cbn [skipn Nat.mul].
  apply num_pages_covers.
Qed.
End Paginator.

Lemma length_news_by_date s : length (news_by_date s) = length (news s).
Proof. apply Permutation_length, news_by_date_spec. Qed.

(** C30: The news page shows page [n] of the articles newest first, nine
    to a page: [n] is the requested page when [int()] reads it as a page
    that exists, 1 when there is none or [int()] rejects it, and the last
    page when it is out of range, so [1 <= n <= num_pages] always.  The
    pages [1 .. num_pages] are together all the articles, each once,
    newest first. *)
Theorem news_page_paginates (req : Request) (s : Store) :
  let np := num_pages 9 (length (news s)) in
  let page := match qd_get "page" (GET req) with Some v => int_of_str v | None => None end in
  (1 <= snd (news_page req s) <= np)%nat /\
  fst (news_page req s) = page_objects 9 (news_by_date s) (snd (news_page req s)) /\
  (length (fst (news_page req s)) <= 9)%nat /\
  (page = None -> snd (news_page req s) = 1%nat) /\
  (forall z, page = Some z -> 1 <= z <= Z.of_nat np -> snd (news_page req s) = Z.to_nat z) /\
  (forall z, page = Some z -> (z < 1 \/ Z.of_nat np < z) -> snd (news_page req s) = np) /\
  concat (map (page_objects 9 (news_by_date s)) (seq 1 np)) = news_by_date s /\
  StronglySorted newer (news_by_date s).
Proof.
  intros np page. unfold news_page; cbn [fst snd]. rewrite length_news_by_date. fold np.
  split; [apply get_page_number_range; lia|]. split_and!.
  - done.
  - unfold page_objects. rewrite length_firstn. lia.
  - unfold get_page_number. fold page. by intros ->.
  - intros z Hz Hr. unfold get_page_number. fold page np. rewrite Hz.
    replace (z <? 1) with false by lia. replace (Z.of_nat np <? z) with false by lia. done.
  - intros z Hz Hr. unfold get_page_number. fold page np. rewrite Hz.
    destruct Hr as [Hr|Hr]; [replace (z <? 1) with true by lia | replace (Z.of_nat np <? z) with true by lia];
      by rewrite ?orb_true_r.
  - unfold np. rewrite <- (length_news_by_date s). apply pages_partition. lia.
  - apply news_by_date_spec.
Qed.

(** ** [tournaments_page] *)

#[global] Instance richer_total : Total richer.
Proof. intros a b. unfold richer. destruct (Tournament.prize_pool a), (Tournament.prize_pool b); auto; lia. Qed.
#[global] Instance richer_trans : Transitive richer.
Proof.
  intros a b c. unfold richer.
  destruct (Tournament.prize_pool a), (Tournament.prize_pool b), (Tournament.prize_pool c); auto; try lia; done.
Qed.
#[global] Instance starts_before_total : Total starts_before.
Proof. intros a b. unfold starts_before. lia. Qed.
#[global] Instance starts_before_trans : Transitive starts_before.
Proof. intros a b c. unfold starts_before. lia. Qed.

(** [SELECT DISTINCT] over a nullable column: the distinct values, and
    one more row for [NULL] when it occurs. *)
Lemma remove_dups_option_length {B} `{EqDecision B} (l : list (option B)) :
  length (remove_dups l) = (length (remove_dups (omap id l)) + if bool_decide (None ∈ l) then 1 else 0)%nat.
Proof.
  induction l as [|[b|] l IH]; [done|..]; cbn [remove_dups omap list_omap id].
  - assert (Hb : Some b ∈ l <-> b ∈ omap id l).
    { rewrite list_elem_of_omap. split; [by exists (Some b)|intros (? & ? & H); unfold id in H; by subst]. }
    assert (Hn : None ∈ Some b :: l <-> None ∈ l) by (rewrite elem_of_cons; split; [by intros [?|?]|by right]).
    rewrite (bool_decide_ext _ _ Hn). revert IH.
    destruct (decide_rel elem_of (Some b) l), (decide_rel elem_of b (omap id l)); simpl; intros IH; try tauto; lia.
  - rewrite (bool_decide_true (None ∈ None :: l)) by constructor.
    destruct (decide_rel _ _ _) as [H|H]; simpl.
    + by rewrite IH, bool_decide_true.
    + rewrite IH, bool_decide_false; [lia|done].
Qed.

Lemma fold_add_Z_perm (l l' : list Z) : Permutation l l' -> fold_right Z.add 0 l = fold_right Z.add 0 l'.
Proof. induction 1; simpl; lia. Qed.

Lemma fold_add_nat_perm (l l' : list nat) : Permutation l l' -> fold_right Nat.add 0%nat l = fold_right Nat.add 0%nat l'.
Proof. induction 1; simpl; lia. Qed.

Lemma omap_perm {B C} (f : B -> option C) l l' : Permutation l l' -> Permutation (omap f l) (omap f l').
Proof.
  induction 1 as [|x|x y|]; cbn [omap list_omap]; try (destruct (f x)); try (destruct (f y)); try constructor; try done.
  by etrans.
Qed.

Lemma tournaments_page_perm req s :
  let P k := qd_get k (GET req) in
  Permutation (tp_tournaments (tournaments_page req s))
              (List.filter (tournament_filter s (P "search") (P "game") (P "status")) (tournaments s)).
Proof. unfold tournaments_page; cbn [tp_tournaments]. repeat case_bool_decide; try apply merge_sort_Permutation; done. Qed.

Lemma fold_add_times4 {B} (f : B -> nat) l :
  fold_right Nat.add 0%nat (map (fun x => f x * 4)%nat l) = (4 * fold_right Nat.add 0%nat (map f l))%nat.
Proof. induction l; simpl; lia. Qed.

Lemma omap_id_map {B C} (f : B -> option C) l : omap id (map f l) = omap f l.
Proof. induction l as [|x l IH]; cbn [map omap list_omap]; [done|]. rewrite IH. by destruct (f x). Qed.

Lemma elem_of_none_map {B C} `{EqDecision C} (f : B -> option C) l :
  bool_decide (None ∈ map f l) = existsb (fun x => bool_decide (f x = None)) l.
Proof.
  induction l as [|x l IH]; simpl; [done|]. rewrite <- IH.
  destruct (f x) eqn:E; simpl; [|try rewrite bool_decide_true by constructor; done].
  apply bool_decide_ext. rewrite elem_of_cons. split; [by intros [?|?]|by right].
Qed.

(** C28: The tournaments page lists, in some order, exactly the tournaments
    passing the search, game and status filters, sorted by prize pool
    (largest first, tournaments without one last) or by start date when
    asked.  The totals do not depend on the order: the prize pools summed
    over the tournaments that have one, and four participants per team.
    The number of games is the number of distinct games of the listed
    tournaments plus one when one of them has no game. *)
Theorem tournaments_page_spec (req : Request) (s : Store) :
  let P k := qd_get k (GET req) in
  let shown := List.filter (tournament_filter s (P "search") (P "game") (P "status")) (tournaments s) in
  let p := tournaments_page req s in
  Permutation (tp_tournaments p) shown /\
  (P "sort" = Some "prize" -> StronglySorted richer (tp_tournaments p)) /\
  (P "sort" = Some "date" -> StronglySorted starts_before (tp_tournaments p)) /\
  tp_total_prize_pool p = fold_right Z.add 0 (omap Tournament.prize_pool shown) /\
  tp_total_participants p = (4 * fold_right Nat.add 0%nat (map (fun t => default 0%nat (Tournament.teams t)) shown))%nat /\
  tp_unique_game_count p =
    (length (remove_dups (omap Tournament.game (tp_tournaments p))) +
     (if existsb (fun t => bool_decide (Tournament.game t = None)) (tp_tournaments p) then 1 else 0))%nat.
Proof.
  intros P shown p. pose proof (tournaments_page_perm req s) as Hperm. fold P shown p in Hperm.
  split_and!; [done|..].
  - intros Hs. unfold p, tournaments_page; cbn [tp_tournaments]. unfold P in Hs. rewrite Hs, bool_decide_true by done.
    apply StronglySorted_merge_sort; apply _.
  - intros Hs. unfold p, tournaments_page; cbn [tp_tournaments]. unfold P in Hs.
    rewrite Hs, bool_decide_false, bool_decide_true by done.
    apply StronglySorted_merge_sort; apply _.
  - apply fold_add_Z_perm, omap_perm, Hperm.
  - rewrite <- (fold_add_nat_perm _ _ (Permutation_map _ Hperm)), <- fold_add_times4. done.
  - unfold p at 1, tournaments_page; cbn [tp_unique_game_count]. fold P shown.
    rewrite remove_dups_option_length, omap_id_map, elem_of_none_map. done.
Qed.

(** ** [results_page] *)

#[global] Instance time_le'_total : Total time_le'.
Proof. intros a b. unfold time_le'. lia. Qed.
#[global] Instance time_le'_trans : Transitive time_le'.
Proof. intros a b c. unfold time_le'. lia. Qed.
#[global] Instance time_ge_dec : RelDecision (flip time_le').
Proof. intros a b. unfold flip. apply _. Defined.
#[global] Instance time_ge_total : Total (flip time_le').
Proof. intros a b. unfold flip, time_le'. lia. Qed.
#[global] Instance time_ge_trans : Transitive (flip time_le').
Proof. intros a b c. unfold flip, time_le'. lia. Qed.

(** [order_by] over a filtered table: the rows that pass, in order. *)
Lemma sorted_filter_spec {A} (R : relation A) `{!RelDecision R, !Total R, !Transitive R} (p : A -> bool) l :
  (forall x, In x (merge_sort R (List.filter p l)) <-> In x l /\ p x = true) /\
  StronglySorted R (merge_sort R (List.filter p l)).
Proof.
  split; [|by apply StronglySorted_merge_sort].
  intros x. rewrite <- filter_In. split; apply Permutation_in; [|symmetry]; apply merge_sort_Permutation.
Qed.

(** C27: The results page raises [FieldError] whenever [?game=] is given,
    though its docstring says it supports it; a [?team=] that [int()]
    rejects raises [ValueError].  Otherwise it shows the live matches,
    earliest first, the completed ones, latest first, and for every
    tournament its upcoming matches, earliest first, each list holding
    exactly the matches of the team asked for, or all of them. *)
Theorem results_page_spec (req : Request) (s : Store) :
  let game := qd_get "game" (GET req) in
  (py_truthy game = true -> results_page req s = inl "FieldError") /\
  (py_truthy game = false -> results_team_filter (qd_get "team" (GET req)) = None ->
     results_page req s = inl "ValueError") /\
  (py_truthy game = false -> forall keep, results_team_filter (qd_get "team" (GET req)) = Some keep ->
     exists p, results_page req s = inr p /\
       (forall m, In m (live_matches p) <-> In m (matches s) /\ Match.status m = Match.live /\ keep m = true) /\
       StronglySorted time_le' (live_matches p) /\
       (forall m, In m (recent_results p) <-> In m (matches s) /\ Match.status m = Match.completed /\ keep m = true) /\
       StronglySorted (flip time_le') (recent_results p) /\
       map fst (brackets p) = tournaments s /\
       Forall (fun b => StronglySorted time_le' (snd b) /\
                 forall m, In m (snd b) <-> In m (matches s) /\ Match.status m = Match.upcoming /\ keep m = true /\
                                             Match.tournament m = Tournament.id (fst b)) (brackets p)).
Proof.
  intros game. unfold results_page. fold game.
  split; [by intros ->|]. split; [intros -> ->; done|]. intros -> keep ->.
  eexists; split; [reflexivity|]; cbn [live_matches recent_results brackets].
  split_and!; try (apply StronglySorted_merge_sort; apply _).
  - intros m. rewrite (proj1 (sorted_filter_spec _ _ _)), andb_true_iff, bool_decide_eq_true. tauto.
  - intros m. rewrite (proj1 (sorted_filter_spec _ _ _)), andb_true_iff, bool_decide_eq_true. tauto.
  - rewrite map_map. apply map_id.
  - apply Forall_forall. intros [t ms] (t' & [= <- <-] & _)%in_map_iff.
    split; [apply StronglySorted_merge_sort; apply _|]. intros m. cbn [fst snd].
    rewrite (proj1 (sorted_filter_spec _ _ _)), filter_In, andb_true_iff, bool_decide_eq_true, Nat.eqb_eq. tauto.
Qed.

(** ** Witnesses *)

Definition req_get (q : QueryDict) : Request := mkRequest "GET" q [] [] None.

Definition latest_news : NewsArticle.t :=
  NewsArticle.mk 2 "Alpha wins the final" 19800 None "" None false None NewsArticle.update.

Lemma home_page_articles_witness :
  main_article (home_page sample_store) = Some latest_news /\
  forall b, In b (news sample_store) -> NewsArticle.date b <= NewsArticle.date latest_news.
Proof.
  assert (H : main_article (home_page sample_store) = Some latest_news) by (vm_compute; reflexivity).
  split; [exact H|]. exact (proj1 (proj2 (proj2 (home_page_articles sample_store) _ H))).
Defined.

Lemma news_page_paginates_witness :
  snd (news_page (req_get [("page", "1")]) sample_store) = 1%nat /\
  snd (news_page (req_get [("page", "7")]) sample_store) = 1%nat.
Proof.
  split.
  - destruct (news_page_paginates (req_get [("page", "1")]) sample_store) as (_ & _ & _ & _ & H & _).
    apply (H 1); [reflexivity|vm_compute; split; discriminate].
  - destruct (news_page_paginates (req_get [("page", "7")]) sample_store) as (_ & _ & _ & _ & _ & H & _).
    apply (H 7); [reflexivity|right; vm_compute; reflexivity].
Defined.

Lemma tournaments_page_spec_witness :
  StronglySorted richer (tp_tournaments (tournaments_page (req_get [("sort", "prize")]) sample_store)) /\
  tp_unique_game_count (tournaments_page (req_get [("sort", "prize")]) sample_store) = 1%nat.
Proof.
  destruct (tournaments_page_spec (req_get [("sort", "prize")]) sample_store) as (_ & Hp & _ & _ & _ & Hg).
  split; [apply Hp; reflexivity|rewrite Hg; vm_compute; reflexivity].
Defined.

Lemma results_page_spec_witness :
  results_page (req_get [("game", "Valorant")]) sample_store = inl "FieldError" /\
  results_page (req_get [("team", "two")]) sample_store = inl "ValueError".
Proof.
  split.
  - apply (proj1 (results_page_spec _ _)). reflexivity.
  - apply (proj1 (proj2 (results_page_spec _ _))); reflexivity.
Defined.

(** ** [Tournament.start_time] / [end_time] *)

(** [order_by(...).first()]: a least element, and [None] only for an
    empty table. *)
Lemma head_merge_sort {A} (R : relation A) `{!RelDecision R, !Total R, !Transitive R} l x :
  head (merge_sort R l) = Some x -> In x l /\ forall y, In y l -> R x y.
Proof.
  pose proof (merge_sort_Permutation R l) as Hp. pose proof (StronglySorted_merge_sort R l) as Hs.
  destruct (merge_sort R l) as [|z rest]; intros Hx; simpl in Hx; [done|]. injection Hx as <-.
  assert (Hin : forall y, In y l <-> In y (z :: rest)) by (intros y; split; apply Permutation_in; [symmetry; exact Hp | exact Hp]).
  split; [apply Hin; by left|]. intros y [<-|Hy]%Hin; [by destruct (total R z z)|].
  inversion Hs as [|? ? _ Hz]; subst. by apply (proj1 (Forall_forall _ _) Hz).
Qed.

Lemma head_merge_sort_None {A} (R : relation A) `{!RelDecision R} l :
  head (merge_sort R l) = None <-> l = [].
Proof.
  pose proof (merge_sort_Permutation R l) as Hp.
  destruct (merge_sort R l) as [|z rest]; simpl; split; intros H; try done.
  - by apply Permutation_nil.
  - subst. symmetry in Hp. by apply Permutation_nil_cons in Hp.
Qed.

(** [start_time] is the earliest start of the tournament's matches, and
    [None] exactly when it has none. *)
Lemma start_time_spec s t :
  (start_time s t = None <-> tournament_matches s t = []) /\
  forall x, start_time s t = Some x ->
    (exists m, In m (tournament_matches s t) /\ Match.match_time m = x) /\
    forall m, In m (tournament_matches s t) -> x <= Match.match_time m.
Proof.
  unfold start_time. split.
  - rewrite <- (head_merge_sort_None time_le'). by destruct (head _).
  - intros x Hx. destruct (head _) as [m|] eqn:E; simpl in Hx; [|done]. injection Hx as <-.
    destruct (head_merge_sort time_le' _ _ E) as [Hm Hle]. split; [by exists m|]. intros m' Hm'. exact (Hle m' Hm').
Qed.

(** [end_time] is the [completed_at] of a last-scheduled match, or its
    start when it has none. *)
Lemma end_time_spec s t x :
  end_time s t = Some x ->
  exists m, In m (tournament_matches s t) /\
    (forall m', In m' (tournament_matches s t) -> Match.match_time m' <= Match.match_time m) /\
    x = default (Match.match_time m) (Match.completed_at m).
Proof.
  unfold end_time. destruct (head _) as [m|] eqn:E; intros Hx; [|done]. injection Hx as <-.
  destruct (head_merge_sort (flip time_le') _ _ E) as [Hm Hle]. exists m. split_and!; [done| |done].
  intros m' Hm'. exact (Hle m' Hm').
Qed.

(** Its docstring says "latest known time", but a match scheduled
    earlier that finished later is not seen: here [end_time] is the end
    of the 1:00 match while the 0:00 match finished at 5:00. *)
Example end_time_not_latest :
  let a := sample_match 1 1 1 2 t0 Match.completed "" (Some 1%nat) (Some 0%nat) "" (Some t0) (Some (t0 + minutes 300)) in
  let b := sample_match 2 1 2 1 (t0 + minutes 60) Match.completed "" (Some 1%nat) (Some 0%nat) ""
             (Some (t0 + minutes 60)) (Some (t0 + minutes 90)) in
  let s := with_matches sample_store [a; b] in
  end_time s (sample_tournament 1 "Spring Cup" None) = Some (t0 + minutes 90) /\
  In a (tournament_matches s (sample_tournament 1 "Spring Cup" None)) /\
  Match.completed_at a = Some (t0 + minutes 300).
Proof. vm_compute. split_and!; auto. Qed.

(** ** [team_detail] and [next_match_date] *)

#[global] Instance completed_later_total : Total completed_later.
Proof. intros a b. unfold completed_later. destruct (Match.completed_at a), (Match.completed_at b); auto; lia. Qed.
#[global] Instance completed_later_trans : Transitive completed_later.
Proof.
  intros a b c. unfold completed_later.
  destruct (Match.completed_at a), (Match.completed_at b), (Match.completed_at c); auto; try lia; done.
Qed.



(** [next_match_date] is the earliest start, at or after [now], of the
    team's matches, whatever their status. *)
Lemma next_match_date_spec s now k t :
  next_match_date s now k = Some t <->
  (exists m, In m (matches s) /\ (on_side1 k m || on_side2 k m) = true /\ now <= Match.match_time m /\
             Match.match_time m = t) /\
  (forall m, In m (matches s) -> (on_side1 k m || on_side2 k m) = true -> now <= Match.match_time m ->
             t <= Match.match_time m).
Proof.
  unfold next_match_date. split.
  - destruct (head _) as [m|] eqn:E; intros H; simpl in H; [|done]. injection H as <-.
    destruct (head_merge_sort time_le' _ _ E) as [Hm Hle]. apply filter_In in Hm as [Hm Hf].
    apply andb_true_iff in Hf as [Hf Ht]. apply Z.leb_le in Ht. split; [by exists m|].
    intros m' Hm' Hs' Ht'. apply (Hle m'). apply filter_In. rewrite Hs'. split; [done|]. simpl. lia.
  - intros [(m & Hm & Hs & Ht & <-) Hmin].
    destruct (head _) as [m0|] eqn:E.
    + destruct (head_merge_sort time_le' _ _ E) as [Hm0 Hle]. apply filter_In in Hm0 as [Hm0 Hf].
      apply andb_true_iff in Hf as [Hf Ht0]. apply Z.leb_le in Ht0. simpl. f_equal.
      assert (time_le' m0 m) by (apply Hle, filter_In; rewrite Hs; split; [done|simpl; lia]).
      pose proof (Hmin m0 Hm0 Hf Ht0). unfold time_le' in *. lia.
    + apply (head_merge_sort_None time_le') in E.
      assert (Hin : In m (List.filter (fun m => (on_side1 k m || on_side2 k m) && (now <=? Match.match_time m)) (matches s)))
        by (apply filter_In; rewrite Hs; split; [done|simpl; lia]).
      by rewrite E in Hin.
Qed.

