(* ===== verification/Admin.v ===== *)
(** * Admin: the changelist of [core/admin.py]

    admin.py registers one [ModelAdmin] per model (lines 11-98) after
    unregistering [NewsArticle] if it was registered (lines 5-9).  A
    [ModelAdmin] here is its configuration as data ([list_display],
    [list_filter], [search_fields], [ordering], the form's [fieldsets]
    and [prepopulated_fields]) and the behaviour that configuration
    gives to Django's changelist: the search box ([?q=]) and the row
    order.

    Django's part is modelled from its source ([django/utils/text.py]
    [smart_split] and [unescape_string_literal],
    [ModelAdmin.get_search_results] and [ChangeList.get_ordering]): the
    search term is split into bits at whitespace, quoted phrases kept
    whole; a row is kept when every bit is [icontains] some search
    field; a search field that names a relation becomes
    [<relation>__icontains], which the ORM rejects with [FieldError]; the
    rows are ordered by [ordering] and then by descending primary key.
    Column sorting ([?o=]) and the sidebar filters of [list_filter] are
    not modelled. *)

From S2P Require Import Prelude Models Samples.
From stdpp Require Import sorting.
From Stdlib Require Import List Sorting.Sorted.
Import ListNotations.
Local Open Scope Z_scope.

(** ** [smart_split] and [unescape_string_literal] (django/utils/text.py) *)

Definition backslash : ascii := ascii_of_nat 92.
Definition dquote : ascii := ascii_of_nat 34.
Definition squote : ascii := ascii_of_nat 39.
Definition newline : ascii := ascii_of_nat 10.

(** Python's [\s] on ASCII: 9-13 and 28-32. *)
Definition is_ws (c : ascii) : bool :=
  let n := nat_of_ascii c in ((9 <=? n) && (n <=? 13) || (28 <=? n) && (n <=? 32))%nat.

Definition is_quote (c : ascii) : bool := Ascii.eqb c dquote || Ascii.eqb c squote.

(** The longest prefix of plain characters, neither whitespace nor a
    quote (the regex's first character class). *)
Fixpoint plain (l : list ascii) : list ascii * list ascii :=
  match l with
  | c :: r => if is_ws c || is_quote c then ([], l)
              else let '(p, rest) := plain r in (c :: p, rest)
  | [] => ([], [])
  end.

(** The body of a quoted string after its opening quote [q], closing
    quote included: [(?:[^q\\]|\\.)*q]; [.] does not match a newline. *)
Fixpoint quoted_body (q : ascii) (l : list ascii) : option (list ascii * list ascii) :=
  match l with
  | [] => None
  | c :: r =>
      if Ascii.eqb c q then Some ([c], r)
      else if Ascii.eqb c backslash then
        match r with
        | d :: r' => if Ascii.eqb d newline then None
                     else match quoted_body q r' with
                          | Some (b, rest) => Some (c :: d :: b, rest)
                          | None => None
                          end
        | [] => None
        end
      else match quoted_body q r with
           | Some (b, rest) => Some (c :: b, rest)
           | None => None
           end
  end.

(** One iteration of the regex's group: a closed quoted string and the
    plain characters after it. *)
Definition quoted_group (l : list ascii) : option (list ascii * list ascii) :=
  match l with
  | q :: r => if is_quote q then
                match quoted_body q r with
                | Some (b, rest) => let '(p, rest') := plain rest in Some (q :: b ++ p, rest')
                | None => None
                end
              else None
  | [] => None
  end.

(** The [+] loop: as many groups as follow (each consumes at least two
    characters, so [length l] is enough fuel). *)
Fixpoint quoted_groups (fuel : nat) (l : list ascii) : list ascii * list ascii :=
  match fuel with
  | O => ([], l)
  | S fuel' => match quoted_group l with
               | Some (g, rest) => let '(gs, rest') := quoted_groups fuel' rest in (g ++ gs, rest')
               | None => ([], l)
               end
  end.

(** The longest non-whitespace prefix, [\S+]. *)
Fixpoint non_ws (l : list ascii) : list ascii * list ascii :=
  match l with
  | c :: r => if is_ws c then ([], l) else let '(p, rest) := non_ws r in (c :: p, rest)
  | [] => ([], [])
  end.

(** One match of [smart_split_re] at a non-whitespace position: the first
    alternative when at least one quoted group follows the plain
    prefix, [\S+] otherwise. *)
Definition smart_token (l : list ascii) : list ascii * list ascii :=
  let '(p, rest) := plain l in
  match quoted_group rest with
  | Some (g, rest') => let '(gs, rest'') := quoted_groups (length rest') rest' in (p ++ g ++ gs, rest'')
  | None => non_ws l
  end.

(** [smart_split(text)]: the matches of [finditer], whitespace between
    them skipped. *)
Fixpoint smart_split_fuel (fuel : nat) (l : list ascii) : list (list ascii) :=
  match fuel with
  | O => []
  | S fuel' =>
      match l with
      | [] => []
      | c :: r => if is_ws c then smart_split_fuel fuel' r
                  else let '(tok, rest) := smart_token l in tok :: smart_split_fuel fuel' rest
      end
  end.

Definition smart_split (text : string) : list string :=
  map string_of_list_ascii (smart_split_fuel (length (list_ascii_of_string text)) (list_ascii_of_string text)).

(** [str.replace(old, new)]: left to right, non-overlapping. *)
Fixpoint replace_fuel (fuel : nat) (old new : list ascii) (l : list ascii) : list ascii :=
  match fuel with
  | O => l
  | S fuel' =>
      match l with
      | [] => []
      | c :: r => if bool_decide (old <> []) && bool_decide (firstn (length old) l = old)
                  then new ++ replace_fuel fuel' old new (skipn (length old) l)
                  else c :: replace_fuel fuel' old new r
      end
  end.

Definition py_replace (old new : list ascii) (l : list ascii) : list ascii := replace_fuel (length l) old new l.

(** [get_search_results]: a bit that starts with a quote and ends with
    the same character is unquoted by [unescape_string_literal]:
    [s[1:-1].replace('\' + quote, quote).replace('\\', '\')]. *)
Definition unquote_bit (bit : string) : string :=
  match list_ascii_of_string bit with
  | q :: r =>
      if is_quote q && Ascii.eqb (last r q) q then
        string_of_list_ascii
          (py_replace [backslash; backslash] [backslash]
             (py_replace [backslash; q] [q] (removelast r)))
      else bit
  | [] => bit
  end.

(** ** Searchable models *)

(** What a search or ordering path of a model resolves to. *)
Record Env := mkEnv {
  env_store : Store;
  auth_user_email : nat -> option string  (** [auth_user.email] by id *)
}.

Inductive resolved (A : Type) :=
| RText (f : Env -> A -> option string)  (** a text column, through forward joins; [None] is NULL *)
| RRelation                                (** a foreign key itself *)
| RUnknown.                                (** no such field *)
Arguments RText {A} f.
Arguments RRelation {A}.
Arguments RUnknown {A}.

(** A model as the admin sees it: its field names ([_meta.get_fields]
    and, for [list_display], its methods), how a search path resolves,
    the integer sort key of an ordering field, and the fields that are
    unique and not null. *)
Class AdminModel (A : Type) := {
  model_fields : list string;
  model_methods : list string;
  resolve : string -> resolved A;
  order_key : string -> option (A -> Z);
  total_fields : list string
}.

(** A foreign key followed to a row and one of its text columns. *)
Definition join {B} (rows : Store -> list B) (key : B -> nat) (col : B -> option string)
    (fk : option nat) (env : Env) : option string :=
  match fk with
  | Some k => match get_by key k (rows (env_store env)) with Some b => col b | None => None end
  | None => None
  end.

#[global] Instance NewsArticle_admin : AdminModel NewsArticle.t := {
  model_fields := ["id"; "title"; "date"; "summary"; "content"; "slug"; "featured"; "image"; "status"];
  model_methods := [];
  resolve f := if String.eqb f "title" then RText (fun _ a => Some (NewsArticle.title a))
               else if String.eqb f "summary" then RText (fun _ a => NewsArticle.summary a)
               else if String.eqb f "content" then RText (fun _ a => Some (NewsArticle.content a))
               else if String.eqb f "slug" then RText (fun _ a => NewsArticle.slug a)
               else RUnknown;
  order_key f := if String.eqb f "date" then Some NewsArticle.date
                 else if String.eqb f "pk" then Some (fun a => Z.of_nat (NewsArticle.id a)) else None;
  total_fields := ["pk"; "id"]
}.

#[global] Instance Tournament_admin : AdminModel Tournament.t := {
  model_fields := ["id"; "title"; "game"; "status"; "prize_pool"; "teams"; "start_date"; "end_date"; "location";
                   "registration_deadline"; "format"; "image"; "featured"; "timezone"];
  model_methods := ["start_time"; "end_time"];
  resolve f := if String.eqb f "title" then RText (fun _ t => Some (Tournament.title t))
               else if String.eqb f "location" then RText (fun _ t => Some (Tournament.location t))
               else if String.eqb f "game__name" then
                 RText (fun env t => join games Game.id (fun g => Some (Game.name g)) (Tournament.game t) env)
               else if String.eqb f "game" then RRelation
               else RUnknown;
  order_key f := if String.eqb f "pk" then Some (fun t => Z.of_nat (Tournament.id t)) else None;
  total_fields := ["pk"; "id"]
}.

#[global] Instance Team_admin : AdminModel Team.t := {
  model_fields := ["id"; "name"; "game"; "region"; "founded"; "banner"; "logo"; "status_indicator"; "rank"; "tag";
                   "description"];
  model_methods := [];
  resolve f := if String.eqb f "name" then RText (fun _ t => Some (Team.name t))
               else if String.eqb f "tag" then RText (fun _ t => Team.tag t)
               else if String.eqb f "region" then RText (fun _ t => Team.region t)
               else if String.eqb f "description" then RText (fun _ t => Team.description t)
               else if String.eqb f "game" then RRelation
               else RUnknown;
  order_key f := if String.eqb f "pk" then Some (fun t => Z.of_nat (Team.id t)) else None;
  total_fields := ["pk"; "id"]
}.

#[global] Instance Player_admin : AdminModel Player.t := {
  model_fields := ["id"; "name"; "role"; "email"; "discord"; "team"; "is_substitute"; "avatar"];
  model_methods := [];
  resolve f := if String.eqb f "name" then RText (fun _ p => Some (Player.name p))
               else if String.eqb f "role" then RText (fun _ p => Player.role p)
               else if String.eqb f "email" then RText (fun _ p => Some (Player.email p))
               else if String.eqb f "team__name" then
                 RText (fun env p => join teams Team.id (fun t => Some (Team.name t)) (Some (Player.team p)) env)
               else if String.eqb f "team" then RRelation
               else RUnknown;
  order_key f := if String.eqb f "pk" then Some (fun p => Z.of_nat (Player.id p)) else None;
  total_fields := ["pk"; "id"]
}.

#[global] Instance Match_admin : AdminModel Match.t := {
  model_fields := ["id"; "tournament"; "team1"; "team2"; "match_time"; "status"; "stage"; "team1_score"; "team2_score";
                   "game"; "viewer_count"; "viewer_label"; "youtube_live_url"; "youtube_recap_url"; "current_round";
                   "total_rounds"; "live_started_at"; "completed_at"; "points_team1"; "points_team2"];
  model_methods := [];
  resolve f := if String.eqb f "stage" then RText (fun _ m => Some (Match.stage m))
               else if String.eqb f "tournament__title" then
                 RText (fun env m => join tournaments Tournament.id (fun t => Some (Tournament.title t))
                                          (Some (Match.tournament m)) env)
               else if String.eqb f "team1__name" then
                 RText (fun env m => join teams Team.id (fun t => Some (Team.name t)) (Some (Match.team1 m)) env)
               else if String.eqb f "team2__name" then
                 RText (fun env m => join teams Team.id (fun t => Some (Team.name t)) (Some (Match.team2 m)) env)
               else if String.eqb f "tournament" || String.eqb f "team1" || String.eqb f "team2" || String.eqb f "game"
               then RRelation
               else RUnknown;
  order_key f := if String.eqb f "pk" then Some (fun m => Z.of_nat (Match.id m)) else None;
  total_fields := ["pk"; "id"]
}.

#[global] Instance MatchReminder_admin : AdminModel MatchReminder.t := {
  model_fields := ["id"; "match"; "email"; "phone"; "notify_minutes_before"; "created_at"; "sent"; "user"];
  model_methods := [];
  resolve f := if String.eqb f "email" then RText (fun _ r => Some (MatchReminder.email r))
               else if String.eqb f "phone" then RText (fun _ r => Some (MatchReminder.phone r))
               else if String.eqb f "user__email" then
                 RText (fun env r => match MatchReminder.user r with Some u => auth_user_email env u | None => None end)
               else if String.eqb f "match" || String.eqb f "user" then RRelation
               else RUnknown;
  order_key f := if String.eqb f "pk" then Some (fun r => Z.of_nat (MatchReminder.id r)) else None;
  total_fields := ["pk"; "id"]
}.

#[global] Instance TournamentParticipant_admin : AdminModel TournamentParticipant.t := {
  model_fields := ["id"; "tournament"; "team"; "manager_name"; "manager_email"; "manager_phone"; "registered_at"];
  model_methods := [];
  resolve f := if String.eqb f "manager_name" then RText (fun _ p => Some (TournamentParticipant.manager_name p))
               else if String.eqb f "manager_email" then RText (fun _ p => Some (TournamentParticipant.manager_email p))
               else if String.eqb f "manager_phone" then RText (fun _ p => Some (TournamentParticipant.manager_phone p))
               else if String.eqb f "team__name" then
                 RText (fun env p => join teams Team.id (fun t => Some (Team.name t))
                                          (Some (TournamentParticipant.team p)) env)
               else if String.eqb f "tournament" || String.eqb f "team" then RRelation
               else RUnknown;
  order_key f := if String.eqb f "registered_at" then Some TournamentParticipant.registered_at
                 else if String.eqb f "pk" then Some (fun p => Z.of_nat (TournamentParticipant.id p)) else None;
  total_fields := ["pk"; "id"]
}.

#[global] Instance Game_admin : AdminModel Game.t := {
  model_fields := ["id"; "name"];
  model_methods := [];
  resolve f := if String.eqb f "name" then RText (fun _ g => Some (Game.name g)) else RUnknown;
  order_key f := if String.eqb f "pk" then Some (fun g => Z.of_nat (Game.id g)) else None;
  total_fields := ["pk"; "id"; "name"]
}.

(** ** The [ModelAdmin]s of admin.py *)

Record ModelAdmin := mkModelAdmin {
  list_display : list string;
  list_filter : list string;
  search_fields : list string;
  ordering : list string;
  prepopulated_fields : list (string * list string);
  readonly_fields : list string;
  fieldsets : list (option string * list string)
}.

(** Lines 11-25. *)
Definition NewsArticleAdmin : ModelAdmin :=
  mkModelAdmin ["title"; "status"; "date"; "featured"] ["status"; "featured"; "date"] ["title"; "summary"; "content"]
    ["-date"] [("slug", ["title"])] []
    [(None, ["title"; "slug"; "status"; "date"; "featured"; "image"]); (Some "Content", ["summary"; "content"])].

(** Lines 27-31. *)
Definition TournamentAdmin : ModelAdmin :=
  mkModelAdmin ["title"; "game"; "start_date"; "start_time"; "end_date"; "end_time"; "teams"; "featured"]
    ["featured"; "game"; "status"] ["title"; "game__name"; "location"] [] [] [] [].

(** Lines 33-41. *)
Definition TeamAdmin : ModelAdmin :=
  mkModelAdmin ["name"; "tag"; "game"; "region"; "rank"] [] ["name"; "tag"; "game"; "region"] [] [] []
    [(None, ["name"; "tag"; "game"; "region"; "founded"; "banner"; "logo"; "status_indicator"; "rank"; "description"])].

(** Lines 43-53. *)
Definition PlayerAdmin : ModelAdmin :=
  mkModelAdmin ["name"; "role"; "team"; "is_substitute"] ["role"; "is_substitute"; "team"] ["name"; "role"; "team__name"]
    [] [] [] [(None, ["name"; "role"; "email"; "discord"; "team"; "is_substitute"; "avatar"])].

(** Lines 55-80. *)
Definition MatchAdmin : ModelAdmin :=
  mkModelAdmin
    ["tournament"; "game"; "team1"; "team2"; "match_time"; "status"; "stage"; "team1_score"; "team2_score";
     "current_round"; "total_rounds"; "points_team1"; "points_team2"; "live_started_at"; "completed_at"]
    ["status"; "game"; "tournament"; "stage"] ["tournament__title"; "team1__name"; "team2__name"] [] [] []
    [(None, ["tournament"; "game"; "stage"; "status"; "match_time"; "team1"; "team2"; "team1_score"; "team2_score";
             "current_round"; "total_rounds"; "points_team1"; "points_team2"; "live_started_at"; "completed_at";
             "viewer_count"; "viewer_label"; "youtube_live_url"; "youtube_recap_url"])].

(** Lines 82-86. *)
Definition MatchReminderAdmin : ModelAdmin :=
  mkModelAdmin ["match"; "email"; "phone"; "notify_minutes_before"; "created_at"; "user"]
    ["notify_minutes_before"; "created_at"] ["email"; "phone"; "user__email"] [] [] [] [].

(** Lines 88-93. *)
Definition TournamentParticipantAdmin : ModelAdmin :=
  mkModelAdmin ["tournament"; "team"; "manager_name"; "manager_email"; "manager_phone"; "registered_at"]
    ["tournament"; "registered_at"] ["team__name"; "manager_name"; "manager_email"; "manager_phone"]
    ["-registered_at"] [] [] [].

(** Lines 95-98. *)
Definition GameAdmin : ModelAdmin := mkModelAdmin ["id"; "name"] [] ["name"] [] [] [] [].

(** ** [ModelAdmin.get_search_results] *)

(** [construct_search]: a text path gets [__icontains]; a relation or
    an unknown name gives a lookup the ORM rejects. *)
Definition construct_search {A} `{AdminModel A} (f : string) : option (Env -> A -> option string) :=
  match resolve f with RText g => Some g | _ => None end.

(** [<path>__icontains=bit]; a NULL never matches. *)
Definition field_contains {A} (env : Env) (g : Env -> A -> option string) (bit : string) (r : A) : bool :=
  match g env r with Some v => icontains v bit | None => false end.

(** The rows where every bit is contained in some search field. *)
Definition search_match {A} (env : Env) (lookups : list (Env -> A -> option string)) (bits : list string) (r : A) : bool :=
  forallb (fun bit => existsb (fun g => field_contains env g bit r) lookups) bits.

(** [if search_fields and search_term:]; [inl] is the exception. *)
Definition get_search_results {A} `{AdminModel A} (ma : ModelAdmin) (env : Env) (search_term : string)
    (rows : list A) : string + list A :=
  if bool_decide (search_fields ma = []) || String.eqb search_term "" then inr rows else
  match map unquote_bit (smart_split search_term) with
  | [] => inr rows
  | bits => match mapM construct_search (search_fields ma) with
            | None => inl "FieldError"
            | Some lookups => inr (List.filter (search_match env lookups bits) rows)
            end
  end.

(** ** [ChangeList.get_ordering] *)

(** ["-f"] is [f] descending. *)
Definition order_spec (f : string) : bool * string :=
  match f with
  | String c rest => if Ascii.eqb c "-"%char then (true, rest) else (false, f)
  | EmptyString => (false, f)
  end.

(** [_get_deterministic_ordering]: ["-pk"] is appended unless a field
    of the ordering is unique and not null. *)
Definition deterministic_ordering {A} `{AdminModel A} (o : list string) : list string :=
  if existsb (fun f => bool_decide (snd (order_spec f) ∈ total_fields)) o then o else o ++ ["-pk"].

Definition order_keys {A} `{AdminModel A} (o : list string) : option (list (bool * (A -> Z))) :=
  mapM (fun f => let '(d, name) := order_spec f in option_map (pair d) (order_key name)) o.

(** [ORDER BY k1 [DESC], k2 [DESC], ...]: [a] may come before [b]. *)
Fixpoint lexb {A} (ks : list (bool * (A -> Z))) (a b : A) : bool :=
  match ks with
  | [] => true
  | (desc, k) :: ks' =>
      if Z.eqb (k a) (k b) then lexb ks' a b
      else if desc then Z.ltb (k b) (k a) else Z.ltb (k a) (k b)
  end.

Definition lex_le {A} (ks : list (bool * (A -> Z))) (a b : A) : Prop := lexb ks a b = true.

#[global] Instance lex_le_dec {A} (ks : list (bool * (A -> Z))) : RelDecision (lex_le ks).
Proof. intros a b. unfold lex_le. apply _. Defined.

(** The changelist's rows: the search, then the ordering. *)
Definition changelist {A} `{AdminModel A} (ma : ModelAdmin) (env : Env) (q : string) (rows : list A)
    : string + list A :=
  match get_search_results ma env q rows with
  | inl e => inl e
  | inr found =>
      match order_keys (deterministic_ordering (ordering ma)) with
      | None => inl "FieldError"
      | Some ks => inr (merge_sort (lex_le ks) found)
      end
  end.

(** ** The registry (lines 5-9 and the [@admin.register] decorators) *)

Definition unregister (reg : list string) (m : string) : string + list string :=
  if bool_decide (m ∈ reg) then inr (List.filter (fun x => negb (String.eqb x m)) reg) else inl "NotRegistered".

Definition register (reg : list string) (m : string) : string + list string :=
  if bool_decide (m ∈ reg) then inl "AlreadyRegistered" else inr (reg ++ [m]).

Definition registered_models : list string :=
  ["NewsArticle"; "Tournament"; "Team"; "Player"; "Match"; "MatchReminder"; "TournamentParticipant"; "Game"].

(** Importing admin.py on a site with registry [reg]. *)
Definition admin_module (reg : list string) : string + list string :=
  let reg1 := match unregister reg "NewsArticle" with inr r => r | inl _ => reg end in
  fold_left (fun acc m => match acc with inr r => register r m | inl e => inl e end) registered_models (inr reg1).

(** ** Configuration checks *)

(** The names a [ModelAdmin] uses exist on its model, as Django's system
    checks require ([admin.E108], [E116], [E033], [E030], [E027]); a
    search path's first segment is a field. *)
Fixpoint first_segment_l (l : list ascii) : list ascii :=
  match l with
  | a :: r => match r with
              | b :: _ => if Ascii.eqb a "_"%char && Ascii.eqb b "_"%char then [] else a :: first_segment_l r
              | [] => [a]
              end
  | [] => []
  end.

Definition first_segment (f : string) : string := string_of_list_ascii (first_segment_l (list_ascii_of_string f)).

Definition admin_typed {A} `{AdminModel A} (ma : ModelAdmin) : bool :=
  let is_field f := bool_decide (f ∈ model_fields) in
  forallb (fun f => is_field f || bool_decide (f ∈ model_methods)) (list_display ma) &&
  forallb is_field (list_filter ma) &&
  forallb (fun f => is_field (first_segment f)) (search_fields ma) &&
  forallb (fun f => is_field (snd (order_spec f))) (ordering ma) &&
  forallb (fun p => is_field (fst p) && forallb is_field (snd p)) (prepopulated_fields ma) &&
  forallb is_field (readonly_fields ma) &&
  forallb (fun fs => forallb is_field (snd fs)) (fieldsets ma).

(** Every search field resolves to a text column. *)
Definition search_resolves {A} `{AdminModel A} (ma : ModelAdmin) : bool :=
  forallb (fun f => if construct_search (A := A) f is Some _ then true else false) (search_fields ma).

(** ** Lemmas *)

Section Lex.
Context {A : Type} (ks : list (bool * (A -> Z))).

Lemma lexb_total a b : lexb ks a b = true \/ lexb ks b a = true.
Proof.
  induction ks as [|[desc k] ks' IH]; simpl; [by left|].
  rewrite (Z.eqb_sym (k b)). destruct (Z.eqb_spec (k a) (k b)); [done|].
  destruct desc; [destruct (Z.ltb_spec (k b) (k a)), (Z.ltb_spec (k a) (k b))|
                  destruct (Z.ltb_spec (k a) (k b)), (Z.ltb_spec (k b) (k a))]; auto; lia.
Qed.

Lemma lexb_trans a b c : lexb ks a b = true -> lexb ks b c = true -> lexb ks a c = true.
Proof.
  induction ks as [|[desc k] ks' IH]; simpl; [done|].
  destruct (Z.eqb_spec (k a) (k b)), (Z.eqb_spec (k b) (k c)), (Z.eqb_spec (k a) (k c));
    try (destruct desc; rewrite ?Z.ltb_lt; lia); auto.
Qed.
End Lex.

#[global] Instance lex_le_total {A} (ks : list (bool * (A -> Z))) : Total (lex_le ks).
Proof. intros a b. apply lexb_total. Qed.
#[global] Instance lex_le_trans {A} (ks : list (bool * (A -> Z))) : Transitive (lex_le ks).
Proof. intros a b c. apply lexb_trans. Qed.

Lemma smart_split_empty : smart_split "" = [].
Proof. reflexivity. Qed.

Lemma in_merge_sort {A} (R : relation A) `{!RelDecision R} l x : In x (merge_sort R l) <-> In x l.
Proof. split; apply Permutation_in; [|symmetry]; apply merge_sort_Permutation. Qed.

(** Registering models none of which is registered yet. *)
Lemma fold_register reg ms :
  NoDup ms -> Forall (fun m => m ∉ reg) ms ->
  fold_left (fun acc m => match acc with inr r => register r m | inl e => inl e end) ms (inr reg) = inr (reg ++ ms).
Proof.
  revert reg. induction ms as [|m ms IH]; intros reg Hnd Hfresh; simpl; [by rewrite app_nil_r|].
  inversion Hnd as [|? ? Hm Hnd']; subst. inversion Hfresh as [|? ? Hr Hfresh']; subst.
  unfold register at 2. rewrite bool_decide_false by done. rewrite IH, <- app_assoc; [done|done|].
  apply Forall_forall. intros x Hx. rewrite elem_of_app, list_elem_of_singleton. intros [Hin| ->].
  - by apply (proj1 (Forall_forall _ _) Hfresh' x Hx).
  - apply Hm. by apply list_elem_of_In.
Qed.

(** Importing admin.py registers the eight models, whether or not
    [NewsArticle] was registered before (lines 5-9), as long as none of
    the seven others was. *)
Lemma admin_module_registers reg :
  Forall (fun m => m ∉ reg) (tail registered_models) ->
  admin_module reg = inr (List.filter (fun x => negb (String.eqb x "NewsArticle")) reg ++ registered_models).
Proof.
  intros Hfresh. unfold admin_module, unregister.
  assert (Hnd : NoDup registered_models) by (repeat constructor; cbn; intuition congruence).
  cbn [tail registered_models] in Hfresh. case_bool_decide as Hn.
  - apply fold_register; [done|]. constructor.
    + rewrite list_elem_of_In, filter_In, String.eqb_refl. intros [_ ?]. done.
    + eapply Forall_impl; [|exact Hfresh]. intros m Hm [Hin _]%list_elem_of_In%filter_In. apply Hm. by apply list_elem_of_In.
  - rewrite (filter_all _ reg).
    + apply fold_register; [done|]. by constructor.
    + apply Forall_forall. intros x Hx. apply negb_true_iff, String.eqb_neq. intros ->. apply Hn.
      by apply list_elem_of_In.
Qed.

(** The admin configuration is well formed for its models:
    every name in [list_display], [list_filter], [ordering],
    [prepopulated_fields], [readonly_fields] and [fieldsets] is a field
    (or, in [list_display], a method) of the model and every search path
    starts at a field, so Django's system checks pass; and every search
    field resolves to a text column except [TeamAdmin]'s ['game'], a
    foreign key, which the checks do not look at. *)
Theorem admin_configuration_typed :
  (admin_typed (A := NewsArticle.t) NewsArticleAdmin && admin_typed (A := Tournament.t) TournamentAdmin &&
   admin_typed (A := Team.t) TeamAdmin && admin_typed (A := Player.t) PlayerAdmin &&
   admin_typed (A := Match.t) MatchAdmin && admin_typed (A := MatchReminder.t) MatchReminderAdmin &&
   admin_typed (A := TournamentParticipant.t) TournamentParticipantAdmin && admin_typed (A := Game.t) GameAdmin) = true /\
  (search_resolves (A := NewsArticle.t) NewsArticleAdmin && search_resolves (A := Tournament.t) TournamentAdmin &&
   search_resolves (A := Player.t) PlayerAdmin && search_resolves (A := Match.t) MatchAdmin &&
   search_resolves (A := MatchReminder.t) MatchReminderAdmin &&
   search_resolves (A := TournamentParticipant.t) TournamentParticipantAdmin &&
   search_resolves (A := Game.t) GameAdmin) = true /\
  search_resolves (A := Team.t) TeamAdmin = false.
Proof. vm_compute. split_and!; reflexivity. Qed.

(** C37 (error): the team changelist fails with [FieldError] on every
    search: [TeamAdmin.search_fields] lists the foreign key ['game'],
    which becomes [game__icontains]. *)
Theorem team_admin_search_raises (env : Env) (q : string) (rows : list Team.t) :
  smart_split q <> [] -> changelist TeamAdmin env q rows = inl "FieldError".
Proof.
  intros Hq. unfold changelist, get_search_results.
  replace (String.eqb q "") with false by (symmetry; apply String.eqb_neq; intros ->; by apply Hq).
  destruct (smart_split q) eqn:E; [done|]. reflexivity.
Qed.

(** For an admin whose search fields and ordering
    resolve, the changelist holds exactly the rows in which every bit of
    the search term (quoted phrases unquoted) is contained, ignoring
    case, in some search field (all rows when there is no search field
    or no bit), in the order of [ordering] then descending primary key. *)
Theorem changelist_spec {A} `{AdminModel A} (ma : ModelAdmin) (env : Env) (q : string) (rows : list A)
    lookups ks :
  mapM construct_search (search_fields ma) = Some lookups ->
  order_keys (deterministic_ordering (ordering ma)) = Some ks ->
  exists L, changelist ma env q rows = inr L /\ StronglySorted (lex_le ks) L /\
    forall r, In r L <-> In r rows /\
      (search_fields ma = [] \/ search_match env lookups (map unquote_bit (smart_split q)) r = true).
Proof.
  intros Hl Hk. unfold changelist, get_search_results.
  assert (Hall : forall found, (forall r, In r found <-> In r rows /\
            (search_fields ma = [] \/ search_match env lookups (map unquote_bit (smart_split q)) r = true)) ->
            exists L, (inr (merge_sort (lex_le ks) found) : string + list A) = inr L /\ StronglySorted (lex_le ks) L /\
              forall r, In r L <-> In r rows /\
                (search_fields ma = [] \/ search_match env lookups (map unquote_bit (smart_split q)) r = true)).
  { intros found Hf. eexists; split_and!; [done|apply StronglySorted_merge_sort; apply _|].
    intros r. by rewrite in_merge_sort. }
  destruct (bool_decide (search_fields ma = []) || String.eqb q "") eqn:Hb.
  - rewrite Hk. apply Hall. intros r. apply orb_true_iff in Hb as [Hb|Hb].
    + apply bool_decide_eq_true in Hb. naive_solver.
    + apply String.eqb_eq in Hb as ->. rewrite smart_split_empty. naive_solver.
  - destruct (map unquote_bit (smart_split q)) as [|b bs] eqn:E.
    + rewrite Hk. apply Hall. intros r. naive_solver.
    + rewrite Hl, Hk. apply Hall. intros r. rewrite filter_In.
      apply orb_false_iff in Hb as [Hb _]. apply bool_decide_eq_false in Hb. naive_solver.
Qed.

(** ** Witnesses *)

Definition sample_env : Env := mkEnv sample_store (fun _ => None).

Lemma team_admin_search_raises_witness :
  changelist TeamAdmin sample_env "Alpha" (teams sample_store) = inl "FieldError".
Proof. apply team_admin_search_raises. vm_compute. discriminate. Defined.

Lemma changelist_spec_witness :
  exists L ks, changelist NewsArticleAdmin sample_env "ALPHA final" (news sample_store) = inr L /\
    StronglySorted (lex_le ks) L.
Proof.
  destruct (mapM (construct_search (A := NewsArticle.t)) (search_fields NewsArticleAdmin)) as [lk|] eqn:Hl;
    [|vm_compute in Hl; discriminate].
  destruct (order_keys (A := NewsArticle.t) (deterministic_ordering (ordering NewsArticleAdmin))) as [ks|] eqn:Hk;
    [|vm_compute in Hk; discriminate].
  destruct (changelist_spec NewsArticleAdmin sample_env "ALPHA final" (news sample_store) lk ks Hl Hk)
    as (L & HL & Hs & _).
  exists L, ks. split; [exact HL|exact Hs].
Defined.

Example changelist_examples :
  changelist NewsArticleAdmin sample_env "ALPHA final" (news sample_store) =
    inr [NewsArticle.mk 2 "Alpha wins the final" 19800 None "" None false None NewsArticle.update] /\
  match changelist NewsArticleAdmin sample_env "  " (news sample_store) with
  | inr l => map NewsArticle.id l = [2; 3; 1]%nat | inl _ => False end /\
  changelist (A := Game.t) GameAdmin sample_env "'a b'" [Game.mk 1 "A B"; Game.mk 2 "a"] = inr [Game.mk 1 "A B"].
Proof. vm_compute. split_and!; reflexivity. Qed.
